(** * The network interface domain converter of KubeVirt's virt-launcher

    A shallow embedding of
    [pkg/virt-launcher/virtwrap/converter/network.go] and the properties
    its specification states about it.

    The Go code is rendered function by function.  A Go function that
    returns [(T, error)] becomes a function into [T * option error]
    ([None] is the nil error), so that what is returned next to an error
    is part of the model.  Mutation through the [*api.Domain] pointer and
    the writes to the logging sink are threaded through a small state
    monad [M]; a nil-pointer dereference ends a computation in [Panic]. *)

From Stdlib Require Import String Ascii NArith ZArith Lia.
From Stdlib Require Import DecimalString DecimalN DecimalZ.
From stdpp Require Import gmap strings list.

Set Default Proof Using "Type".

(** ** Go runtime and standard library pieces used by the converter *)

Module Go.

(** An [error] value is represented by its message. *)
Definition error : Type := string.

(** [fmt.Sprintf("%d", n)] at an unsigned and at a signed integer. *)
Definition Sprintf_u (n : N) : string := NilEmpty.string_of_uint (N.to_uint n).
Definition Sprintf_d (z : Z) : string := NilZero.string_of_int (Z.to_int z).

Definition lower (ch : ascii) : ascii :=
  let n := nat_of_ascii ch in
  if (65 <=? n)%nat && (n <=? 90)%nat then ascii_of_nat (n + 32) else ch.

(** [strings.ToLower] on the ASCII range (protocol names are ASCII;
    bytes outside [A-Z] are left as they are). *)
Fixpoint ToLower (s : string) : string :=
  match s with
  | EmptyString => EmptyString
  | String ch rest => String (lower ch) (ToLower rest)
  end.

(** [strings.Split(s, sep)] for a one-byte separator: the pieces of [s]
    between the separators, at least one piece, [""] for [""]. *)
Fixpoint Split (s : string) (sep : ascii) : list string :=
  match s with
  | EmptyString => [EmptyString]
  | String ch rest =>
      if Ascii.eqb ch sep then EmptyString :: Split rest sep
      else match Split rest sep with
           | piece :: pieces => String ch piece :: pieces
           | [] => [String ch EmptyString]
           end
  end.

(** [strings.Join(elems, sep)]. *)
Fixpoint Join (elems : list string) (sep : string) : string :=
  match elems with
  | [] => ""
  | [e] => e
  | e :: rest => e +:+ sep +:+ Join rest sep
  end.

(** Does the byte [ch] occur in [s]. *)
Fixpoint Contains (s : string) (ch : ascii) : bool :=
  match s with
  | EmptyString => false
  | String ch' rest => Ascii.eqb ch' ch || Contains rest ch
  end.

End Go.

Abbreviation error := Go.error.

(** ** The KubeVirt API types read by the converter ([v1]) *)

Module v1.

Record PodNetwork := { PodNetwork_VMNetworkCIDR : string }.

Record MultusNetwork := { MultusNetwork_Default : bool }.

(** [Pod] and [Multus] are pointers, nil is [None]. *)
Record Network := {
  Network_Name : string;
  Network_Pod : option PodNetwork;
  Network_Multus : option MultusNetwork
}.

(** Modelled from the spec: the declaration of [v1.Port] is not among
    the sources; a forwarded port is [{port: uint16, protocol: string}]. *)
Record Port := {
  Port_Protocol : string;
  Port_Port : N
}.

(** The six binding pointers of [InterfaceBindingMethod] point to
    structs the converter never reads: only whether each is nil is
    observed, and nothing in the type keeps two from being set. *)
Record Interface := {
  Interface_Name : string;
  Interface_Model : string;
  Interface_PciAddress : string;
  Interface_BootOrder : option N;
  Interface_Ports : list Port;
  Interface_Bridge : option unit;
  Interface_Slirp : option unit;
  Interface_Masquerade : option unit;
  Interface_SRIOV : option unit;
  Interface_Macvtap : option unit;
  Interface_Vhostuser : option unit
}.

(** The part of [vmi.Spec] the converter looks at; [CPU] stands for
    whatever [getCPUTopology] reads. *)
Record VirtualMachineInstance {CPU : Type} := {
  Spec_Networks : list Network;
  Spec_Domain_Devices_Interfaces : list Interface;
  Spec_Domain_Devices_NetworkInterfaceMultiQueue : option bool;
  Spec_Domain_CPU : CPU
}.
Arguments VirtualMachineInstance : clear implicits.

End v1.

(** ** The libvirt domain types written by the converter ([api]) *)

Module api.

Record Arg := { Arg_Value : string }.

Record Commandline := { Commandline_QEMUArg : list Arg }.

Record DomainSpec := { DomainSpec_QEMUCmd : option Commandline }.

Record Domain := { Domain_Spec : DomainSpec }.

Record Model := { Model_Type : string }.

(** Modelled from the spec: [api.NewUserDefinedAlias] is not among the
    sources; the base record carries [alias: interface name]. *)
Record Alias := { Alias_name : string; Alias_userDefined : bool }.
Definition NewUserDefinedAlias (aliasName : string) : Alias :=
  {| Alias_name := aliasName; Alias_userDefined := true |}.

(** Modelled from the spec: a structured PCI address, as produced by
    [device.NewPciAddressField], which is not among the sources. *)
Record Address := {
  Address_Type : string;
  Address_Domain : string;
  Address_Bus : string;
  Address_Slot : string;
  Address_Function : string
}.

Record BootOrder := { BootOrder_Order : N }.

Record Rom := { Rom_Enabled : string }.

Record InterfaceDriver := {
  InterfaceDriver_Name : string;
  InterfaceDriver_Queues : option N;
  InterfaceDriver_RxQueueSize : option N;
  InterfaceDriver_TxQueueSize : option N
}.

Record InterfaceSource := {
  InterfaceSource_Type : string;
  InterfaceSource_Path : string;
  InterfaceSource_Mode : string
}.

Record InterfaceTarget := { InterfaceTarget_Device : string }.

Record Interface := {
  Interface_Type : string;
  Interface_Model : option Model;
  Interface_Alias : option Alias;
  Interface_Driver : option InterfaceDriver;
  Interface_Address : option Address;
  Interface_BootOrder : option BootOrder;
  Interface_Rom : option Rom;
  Interface_Source : InterfaceSource;
  Interface_Target : option InterfaceTarget
}.

(** Field assignments [domainIface.F = v]. *)
Definition set_Type (v : string) (i : Interface) : Interface :=
  {| Interface_Type := v; Interface_Model := Interface_Model i;
     Interface_Alias := Interface_Alias i; Interface_Driver := Interface_Driver i;
     Interface_Address := Interface_Address i; Interface_BootOrder := Interface_BootOrder i;
     Interface_Rom := Interface_Rom i; Interface_Source := Interface_Source i;
     Interface_Target := Interface_Target i |}.
Definition set_Driver (v : InterfaceDriver) (i : Interface) : Interface :=
  {| Interface_Type := Interface_Type i; Interface_Model := Interface_Model i;
     Interface_Alias := Interface_Alias i; Interface_Driver := Some v;
     Interface_Address := Interface_Address i; Interface_BootOrder := Interface_BootOrder i;
     Interface_Rom := Interface_Rom i; Interface_Source := Interface_Source i;
     Interface_Target := Interface_Target i |}.
Definition set_Address (v : option Address) (i : Interface) : Interface :=
  {| Interface_Type := Interface_Type i; Interface_Model := Interface_Model i;
     Interface_Alias := Interface_Alias i; Interface_Driver := Interface_Driver i;
     Interface_Address := v; Interface_BootOrder := Interface_BootOrder i;
     Interface_Rom := Interface_Rom i; Interface_Source := Interface_Source i;
     Interface_Target := Interface_Target i |}.
Definition set_BootOrder (v : BootOrder) (i : Interface) : Interface :=
  {| Interface_Type := Interface_Type i; Interface_Model := Interface_Model i;
     Interface_Alias := Interface_Alias i; Interface_Driver := Interface_Driver i;
     Interface_Address := Interface_Address i; Interface_BootOrder := Some v;
     Interface_Rom := Interface_Rom i; Interface_Source := Interface_Source i;
     Interface_Target := Interface_Target i |}.
Definition set_Rom (v : Rom) (i : Interface) : Interface :=
  {| Interface_Type := Interface_Type i; Interface_Model := Interface_Model i;
     Interface_Alias := Interface_Alias i; Interface_Driver := Interface_Driver i;
     Interface_Address := Interface_Address i; Interface_BootOrder := Interface_BootOrder i;
     Interface_Rom := Some v; Interface_Source := Interface_Source i;
     Interface_Target := Interface_Target i |}.
Definition set_Source (v : InterfaceSource) (i : Interface) : Interface :=
  {| Interface_Type := Interface_Type i; Interface_Model := Interface_Model i;
     Interface_Alias := Interface_Alias i; Interface_Driver := Interface_Driver i;
     Interface_Address := Interface_Address i; Interface_BootOrder := Interface_BootOrder i;
     Interface_Rom := Interface_Rom i; Interface_Source := v;
     Interface_Target := Interface_Target i |}.
Definition set_Target (v : InterfaceTarget) (i : Interface) : Interface :=
  {| Interface_Type := Interface_Type i; Interface_Model := Interface_Model i;
     Interface_Alias := Interface_Alias i; Interface_Driver := Interface_Driver i;
     Interface_Address := Interface_Address i; Interface_BootOrder := Interface_BootOrder i;
     Interface_Rom := Interface_Rom i; Interface_Source := Interface_Source i;
     Interface_Target := Some v |}.

(** [domain.Spec.QEMUCmd.QEMUArg = v]; [None] when [QEMUCmd] is nil. *)
Definition set_QEMUArg (v : list Arg) (d : Domain) : option Domain :=
  match DomainSpec_QEMUCmd (Domain_Spec d) with
  | None => None
  | Some _ =>
      Some {| Domain_Spec := {| DomainSpec_QEMUCmd := Some {| Commandline_QEMUArg := v |} |} |}
  end.

(** Modelled from the spec: the constant [api.DefaultProtocol] is not
    among the sources; an empty protocol defaults to [TCP]. *)
Definition DefaultProtocol : string := "TCP".

End api.

(** ** Discovered pod network interfaces (app-netutil / nettypes) *)

Module netutil.

(** Modelled from the spec: the declarations are vendored code that is
    not among the sources.  A discovered entry has a device type and a
    network status with a name and the vhost-user socket path and mode;
    [getVhostuserInfo] reads the nested fields without a nil check. *)
Record VhostDevice := { VhostDevice_Mode : string; VhostDevice_Path : string }.
Record DeviceInfo := { DeviceInfo_VhostUser : VhostDevice }.
Record NetworkStatus := {
  NetworkStatus_Name : string;
  NetworkStatus_DeviceInfo : DeviceInfo
}.
Record InterfaceData := {
  InterfaceData_DeviceType : string;
  InterfaceData_NetworkStatus : NetworkStatus
}.
Record InterfaceResponse := { InterfaceResponse_Interface : list InterfaceData }.

(** Modelled from the spec: [nettypes.DeviceInfoTypeVHostUser]; the
    entry looked for is the one whose device type is [vhost-user]. *)
Definition DeviceInfoTypeVHostUser : string := "vhost-user".

End netutil.

(** [ConverterContext]: the field these functions read. *)
Record ConverterContext := {
  PodNetInterfaces : option netutil.InterfaceResponse
}.

(** ** Logging sink, domain pointer and the monad threading them *)

Inductive Severity := INFO | WARNING | ERROR | FATAL.

(** One line written through [log.Log]; [verbosity] is the argument of
    [V(n)] when the call has one. *)
Record LogEntry := {
  severity : Severity;
  verbosity : option nat;
  message : string
}.

(** What a call can change: the domain behind the [*api.Domain] pointer
    and the log. *)
Record World := {
  domain : api.Domain;
  logs : list LogEntry
}.

Inductive outcome (A : Type) :=
| Done (a : A)
| Panic (reason : string).
Arguments Done {A} a.
Arguments Panic {A} reason.

Definition M (A : Type) : Type := World -> World * outcome A.

Definition ret {A} (a : A) : M A := fun w => (w, Done a).

Definition bind {A B} (m : M A) (k : A -> M B) : M B :=
  fun w =>
    match m w with
    | (w', Done a) => k a w'
    | (w', Panic reason) => (w', Panic reason)
    end.

Definition lift {A} (o : outcome A) : M A := fun w => (w, o).

Declare Scope go_scope.
Delimit Scope go_scope with go.
Notation "x <- m ;; k" := (bind m (fun x => k))
  (at level 100, m at next level, right associativity) : go_scope.
Notation "m ;;; k" := (bind m (fun _ => k))
  (at level 100, right associativity) : go_scope.
Local Open Scope go_scope.

Definition nilDeref : string :=
  "runtime error: invalid memory address or nil pointer dereference".

Definition write_log (e : LogEntry) : M unit :=
  fun w => ({| domain := domain w; logs := logs w ++ [e] |}, Done tt).

(** [log.Log.Infof], [log.Log.Errorf] and [log.Log.V(n).Infof]. *)
Definition Infof (msg : string) : M unit :=
  write_log {| severity := INFO; verbosity := None; message := msg |}.
Definition Errorf (msg : string) : M unit :=
  write_log {| severity := ERROR; verbosity := None; message := msg |}.
Definition V_Infof (n : nat) (msg : string) : M unit :=
  write_log {| severity := INFO; verbosity := Some n; message := msg |}.

Definition get_domain : M api.Domain := fun w => (w, Done (domain w)).
Definition put_domain (d : api.Domain) : M unit :=
  fun w => ({| domain := d; logs := logs w |}, Done tt).

(** Control flow of a loop body: go on with the next element, or leave
    the enclosing function with [r]. *)
Inductive flow (R A : Type) :=
| Next (a : A)
| Return (r : R).
Arguments Next {R A} a.
Arguments Return {R A} r.

(** ** What the converter consumes from its collaborators

    Functions, constants and host reads that [network.go] uses and that
    are declared elsewhere.  [CPU] is the part of the spec from which the
    CPU topology is derived. *)

Record Collaborators {CPU : Type} := {
  (** [translateModel] of the converter package. *)
  translateModel : ConverterContext -> string -> string;
  (** [device.NewPciAddressField]. *)
  NewPciAddressField : string -> option api.Address * option error;
  (** [initializeQEMUCmdAndQEMUArg] of the converter package. *)
  initializeQEMUCmdAndQEMUArg : api.Domain -> api.Domain;
  (** [getCPUTopology] followed by [vcpu.CalculateRequestedVCPUs]. *)
  CPUTopology : Type;
  getCPUTopology : v1.VirtualMachineInstance CPU -> CPUTopology;
  CalculateRequestedVCPUs : CPUTopology -> N;
  (** The constants [multiQueueMaxQueues], [services.VhostuserSocketDir],
      [api.DefaultVMCIDR] and [resolvConf]. *)
  multiQueueMaxQueues : N;
  VhostuserSocketDir : string;
  DefaultVMCIDR : string;
  resolvConf : string;
  (** The error of [net.ParseCIDR]. *)
  ParseCIDR : string -> option error;
  (** [ioutil.ReadFile] on the host, and the two parsers of
      [pkg/util/net/dns]; a [[]byte] is rendered as a string. *)
  ReadFile : string -> string * option error;
  ParseNameservers : string -> list string * option error;
  ParseSearchDomains : string -> list string * option error
}.
Arguments Collaborators : clear implicits.

Definition PrimaryPodInterfaceName : string := "eth0".

Section Converter.

Context {CPU : Type} (ext : Collaborators CPU).

Abbreviation VMI := (v1.VirtualMachineInstance CPU).

(** *** [getInterfaceType] (lines 162-175) *)
Definition getInterfaceType (iface : v1.Interface) : M string :=
  if v1.Interface_Slirp iface is Some _ then
    (* Slirp configuration works only with e1000 or rtl8139 *)
    if negb (String.eqb (v1.Interface_Model iface) "e1000")
       && negb (String.eqb (v1.Interface_Model iface) "rtl8139") then
      Infof ("The network interface type of " +:+ v1.Interface_Name iface
             +:+ " was changed to e1000 due to unsupported interface type by qemu slirp network") ;;;
      ret "e1000"
    else ret (v1.Interface_Model iface)
  else if negb (String.eqb (v1.Interface_Model iface) "") then
    ret (v1.Interface_Model iface)
  else ret "virtio".

(** *** [validateNetworksTypes] (lines 177-187) *)
Fixpoint validateNetworksTypes (networks : list v1.Network) : option error :=
  match networks with
  | [] => None
  | network :: rest =>
      match v1.Network_Pod network, v1.Network_Multus network with
      | Some _, Some _ =>
          Some ("network " +:+ v1.Network_Name network +:+ " must have only one network type")
      | None, None =>
          Some ("network " +:+ v1.Network_Name network +:+ " must have a network type")
      | _, _ => validateNetworksTypes rest
      end
  end.

(** *** [indexNetworksByName] (lines 189-195)

    [DeepCopy] yields an equal value; a later network of the same name
    replaces the earlier one. *)
Definition indexNetworksByName (networks : list v1.Network) : gmap string v1.Network :=
  foldl (fun netsByName network => <[v1.Network_Name network := network]> netsByName)
        ∅ networks.

(** *** [isSecondaryMultusNetwork] (lines 349-351) *)
Definition isSecondaryMultusNetwork (net : v1.Network) : bool :=
  match v1.Network_Multus net with
  | Some multus => negb (v1.MultusNetwork_Default multus)
  | None => false
  end.

(** *** [findMultusIndex] (lines 335-347)

    [idxMultus] is a Go [int]; it counts elements of a slice and stays
    far below the 64-bit limit, so no wrap-around is written. *)
Fixpoint findMultusIndex_from (idxMultus : Z) (networks : list v1.Network)
         (networkToFind : v1.Network) : Z :=
  match networks with
  | [] => -1
  | network :: rest =>
      if isSecondaryMultusNetwork network then
        (* multus pod interfaces start from 1 *)
        let idxMultus := (idxMultus + 1)%Z in
        if String.eqb (v1.Network_Name network) (v1.Network_Name networkToFind)
        then idxMultus
        else findMultusIndex_from idxMultus rest networkToFind
      else findMultusIndex_from idxMultus rest networkToFind
  end.

Definition findMultusIndex (vmi : VMI) (networkToFind : v1.Network) : Z :=
  findMultusIndex_from 0 (v1.Spec_Networks vmi) networkToFind.

(** *** [ComposePodInterfaceName] (lines 313-323) *)
Definition ComposePodInterfaceName (vmi : VMI) (network : v1.Network)
  : string * option error :=
  if isSecondaryMultusNetwork network then
    let multusIndex := findMultusIndex vmi network in
    if (multusIndex =? -1)%Z then
      ("", Some ("Network name " +:+ v1.Network_Name network +:+ " not found"))
    else ("net" +:+ Go.Sprintf_d multusIndex, None)
  else (PrimaryPodInterfaceName, None).

(** *** [FindInterfaceByNetworkName] (lines 326-333); nil is [None] *)
Fixpoint FindInterfaceByNetworkName_in (interfaces : list v1.Interface)
         (network : v1.Network) : option v1.Interface :=
  match interfaces with
  | [] => None
  | iface :: rest =>
      if String.eqb (v1.Interface_Name iface) (v1.Network_Name network)
      then Some iface
      else FindInterfaceByNetworkName_in rest network
  end.

Definition FindInterfaceByNetworkName (vmi : VMI) (network : v1.Network)
  : option v1.Interface :=
  FindInterfaceByNetworkName_in (v1.Spec_Domain_Devices_Interfaces vmi) network.

(** *** [getPodInterfaceName] (lines 353-369)

    [iface.Name] at line 360 is read through the pointer that
    [FindInterfaceByNetworkName] returned, nil included. *)
Fixpoint getPodInterfaceName_in (vmi : VMI) (networks : list v1.Network)
         (ifaceName : string) : outcome (string * option error) :=
  match networks with
  | [] => Done ("", Some ("Interface " +:+ ifaceName +:+ " not found"))
  | network :: rest =>
      match v1.Network_Pod network, v1.Network_Multus network with
      | None, None => getPodInterfaceName_in vmi rest ifaceName
      | _, _ =>
          match FindInterfaceByNetworkName vmi network with
          | None => Panic nilDeref
          | Some iface =>
              if String.eqb (v1.Interface_Name iface) ifaceName then
                let '(podIfaceName, err) := ComposePodInterfaceName vmi network in
                match err with
                | Some e => Done ("", Some e)
                | None => Done (podIfaceName, None)
                end
              else getPodInterfaceName_in vmi rest ifaceName
          end
      end
  end.

Definition getPodInterfaceName (vmi : VMI) (ifaceName : string)
  : outcome (string * option error) :=
  getPodInterfaceName_in vmi (v1.Spec_Networks vmi) ifaceName.

(** *** [getVhostuserInfo] (lines 371-387) *)
Fixpoint getVhostuserInfo_in (entries : list netutil.InterfaceData)
         (ifaceName : string) : string * string * option error :=
  match entries with
  | [] => ("", "", Some ("Unable to get vhostuser interface info for " +:+ ifaceName))
  | iface :: rest =>
      if String.eqb (netutil.InterfaceData_DeviceType iface) netutil.DeviceInfoTypeVHostUser
      then
        let networkNameParts :=
          Go.Split (netutil.NetworkStatus_Name (netutil.InterfaceData_NetworkStatus iface)) "/" in
        if String.eqb (List.last networkNameParts "") ifaceName then
          let vhu := netutil.DeviceInfo_VhostUser
                       (netutil.NetworkStatus_DeviceInfo (netutil.InterfaceData_NetworkStatus iface)) in
          (netutil.VhostDevice_Path vhu, netutil.VhostDevice_Mode vhu, None)
        else getVhostuserInfo_in rest ifaceName
      else getVhostuserInfo_in rest ifaceName
  end.

Definition getVhostuserInfo (ifaceName : string) (c : ConverterContext)
  : string * string * option error :=
  match PodNetInterfaces c with
  | None => ("", "", Some "PodNetInterfaces cannot be nil for vhostuser interface")
  | Some resp => getVhostuserInfo_in (netutil.InterfaceResponse_Interface resp) ifaceName
  end.

(** *** [CalculateNetworkQueues] (lines 221-230) *)
Definition CalculateNetworkQueues (vmi : VMI) : M N :=
  let cpuTopology := getCPUTopology ext vmi in
  let queueNumber := CalculateRequestedVCPUs ext cpuTopology in
  if (multiQueueMaxQueues ext <? queueNumber)%N then
    V_Infof 3 ("Capped the number of queues to be the current maximum of tap device queues: "
               +:+ Go.Sprintf_u (multiQueueMaxQueues ext)) ;;;
    ret (multiQueueMaxQueues ext)
  else ret queueNumber.

(** *** [configPortForward] (lines 232-257)

    [qemuArg] is an in-out parameter: the function returns the argument
    as it leaves it, next to the error.  A nil and an empty [Ports]
    slice behave alike. *)
Fixpoint configPortForward_from (configuredPorts : gset string) (qemuArg : api.Arg)
         (ports : list v1.Port) : api.Arg * option error :=
  match ports with
  | [] => (qemuArg, None)
  | forwardPort :: rest =>
      if (v1.Port_Port forwardPort =? 0)%N then
        (qemuArg, Some "Port must be configured")
      else
        let protocol :=
          if String.eqb (v1.Port_Protocol forwardPort) ""
          then api.DefaultProtocol else v1.Port_Protocol forwardPort in
        let portConfig := protocol +:+ "-" +:+ Go.Sprintf_u (v1.Port_Port forwardPort) in
        if decide (portConfig ∈ configuredPorts) then
          configPortForward_from configuredPorts qemuArg rest
        else
          (* Can't be duplicated ports forward or the qemu process will crash *)
          let qemuArg :=
            {| api.Arg_Value :=
                 api.Arg_Value qemuArg +:+ ",hostfwd=" +:+ Go.ToLower protocol +:+ "::"
                 +:+ Go.Sprintf_u (v1.Port_Port forwardPort) +:+ "-:"
                 +:+ Go.Sprintf_u (v1.Port_Port forwardPort) |} in
          configPortForward_from ({[portConfig]} ∪ configuredPorts) qemuArg rest
  end.

Definition configPortForward (qemuArg : api.Arg) (iface : v1.Interface)
  : api.Arg * option error :=
  configPortForward_from ∅ qemuArg (v1.Interface_Ports iface).

(** *** [configVMCIDR] (lines 259-275); [network.Pod] is read unchecked *)
Definition configVMCIDR (qemuArg : api.Arg) (network : v1.Network)
  : outcome (api.Arg * option error) :=
  match v1.Network_Pod network with
  | None => Panic nilDeref
  | Some pod =>
      let checked :=
        if negb (String.eqb (v1.PodNetwork_VMNetworkCIDR pod) "") then
          match ParseCIDR ext (v1.PodNetwork_VMNetworkCIDR pod) with
          | Some _ => inr ("Failed parsing CIDR " +:+ v1.PodNetwork_VMNetworkCIDR pod)
          | None => inl (v1.PodNetwork_VMNetworkCIDR pod)
          end
        else inl (DefaultVMCIDR ext) in
      match checked with
      | inr e => Done (qemuArg, Some e)
      | inl vmNetworkCIDR =>
          (* Insert configuration to qemu commandline *)
          Done ({| api.Arg_Value := api.Arg_Value qemuArg +:+ ",net=" +:+ vmNetworkCIDR |}, None)
      end
  end.

(** *** [GetResolvConfDetailsFromPod] (lines 289-311) *)
Definition GetResolvConfDetailsFromPod : M (list string * list string * option error) :=
  let '(b, err) := ReadFile ext (resolvConf ext) in
  match err with
  | Some e => ret ([], [], Some e)
  | None =>
      let '(nameservers, err) := ParseNameservers ext b in
      match err with
      | Some e => ret ([], [], Some e)
      | None =>
          let '(searchDomains, err) := ParseSearchDomains ext b in
          match err with
          | Some e => ret ([], [], Some e)
          | None =>
              Infof ("Found nameservers in " +:+ resolvConf ext +:+ ": "
                     +:+ Go.Join nameservers " ") ;;;
              Infof ("Found search domains in " +:+ resolvConf ext +:+ ": "
                     +:+ Go.Join searchDomains " ") ;;;
              ret (nameservers, searchDomains, None)
          end
      end
  end.

(** *** [configDNSSearchName] (lines 277-287) *)
Definition configDNSSearchName (qemuArg : api.Arg) : M (api.Arg * option error) :=
  r <- GetResolvConfDetailsFromPod ;;
  let '(_, dnsDoms, err) := r in
  match err with
  | Some e => ret (qemuArg, Some e)
  | None =>
      ret (foldl (fun arg dom =>
                    {| api.Arg_Value := api.Arg_Value arg +:+ ",dnssearch=" +:+ dom |})
                 qemuArg dnsDoms, None)
  end.

(** [domain.Spec.QEMUCmd.QEMUArg = append(domain.Spec.QEMUCmd.QEMUArg, arg)] *)
Definition append_QEMUArg (arg : api.Arg) : M unit :=
  d <- get_domain ;;
  match api.DomainSpec_QEMUCmd (api.Domain_Spec d) with
  | None => lift (Panic nilDeref)
  | Some cmd =>
      match api.set_QEMUArg (api.Commandline_QEMUArg cmd ++ [arg]) d with
      | Some d' => put_domain d'
      | None => lift (Panic nilDeref)
      end
  end.

(** *** [createSlirpNetwork] (lines 197-219) *)
Definition createSlirpNetwork (iface : v1.Interface) (network : v1.Network)
  : M (option error) :=
  let qemuArg := {| api.Arg_Value := "user,id=" +:+ v1.Interface_Name iface |} in
  r <- lift (configVMCIDR qemuArg network) ;;
  let '(qemuArg, err) := r in
  match err with
  | Some e => ret (Some e)
  | None =>
      r <- configDNSSearchName qemuArg ;;
      let '(qemuArg, err) := r in
      match err with
      | Some e => ret (Some e)
      | None =>
          let '(qemuArg, err) := configPortForward qemuArg iface in
          match err with
          | Some e => ret (Some e)
          | None =>
              append_QEMUArg {| api.Arg_Value := "-netdev" |} ;;;
              append_QEMUArg qemuArg ;;;
              ret None
          end
      end
  end.

(** *** [createDomainInterfaces] (lines 42-160) *)

(** Lines 98-102 and 121-125. *)
Definition bootOrderOrRom (iface : v1.Interface) (domainIface : api.Interface)
  : api.Interface :=
  match v1.Interface_BootOrder iface with
  | Some order => api.set_BootOrder {| api.BootOrder_Order := order |} domainIface
  | None => api.set_Rom {| api.Rom_Enabled := "no" |} domainIface
  end.

Abbreviation ifaceResult := (list api.Interface * option error)%type.

(** The body of the loop at line 51, from the slice [domainInterfaces]
    built so far to the slice after this interface, or to the values
    the function returns from inside the loop. *)
Definition createDomainInterfaces_body (vmi : VMI) (c : ConverterContext)
           (virtioNetProhibited : bool) (networks : gmap string v1.Network)
           (domainInterfaces : list api.Interface) (iface : v1.Interface)
  : M (flow ifaceResult (list api.Interface)) :=
  match networks !! v1.Interface_Name iface with
  | None => ret (Return ([], Some ("failed to find network " +:+ v1.Interface_Name iface)))
  | Some net =>
    if v1.Interface_SRIOV iface is Some _ then ret (Next domainInterfaces) else
    ifaceType <- getInterfaceType iface ;;
    let domainIface :=
      {| api.Interface_Type := "";
         api.Interface_Model := Some {| api.Model_Type := translateModel ext c ifaceType |};
         api.Interface_Alias := Some (api.NewUserDefinedAlias (v1.Interface_Name iface));
         api.Interface_Driver := None;
         api.Interface_Address := None;
         api.Interface_BootOrder := None;
         api.Interface_Rom := None;
         api.Interface_Source :=
           {| api.InterfaceSource_Type := ""; api.InterfaceSource_Path := "";
              api.InterfaceSource_Mode := "" |};
         api.Interface_Target := None |} in
    (* if AllowEmulation unset and at least one NIC model is virtio,
       /dev/vhost-net must be present as we should have asked for it. *)
    let virtioNetMQRequested :=
      match v1.Spec_Domain_Devices_NetworkInterfaceMultiQueue vmi with
      | Some mq => mq
      | None => false
      end in
    if String.eqb ifaceType "virtio" && virtioNetProhibited then
      ret (Return ([], Some "In-kernel virtio-net device emulation '/dev/vhost-net' not present"))
    else
    domainIface <-
      (if String.eqb ifaceType "virtio" && virtioNetMQRequested then
         queueCount <- CalculateNetworkQueues vmi ;;
         ret (api.set_Driver
                {| api.InterfaceDriver_Name := "vhost";
                   api.InterfaceDriver_Queues := Some queueCount;
                   api.InterfaceDriver_RxQueueSize := None;
                   api.InterfaceDriver_TxQueueSize := None |} domainIface)
       else ret domainIface) ;;
    (* Add a pciAddress if specified *)
    let pci :=
      if negb (String.eqb (v1.Interface_PciAddress iface) "") then
        let '(addr, err) := NewPciAddressField ext (v1.Interface_PciAddress iface) in
        match err with
        | Some e => inr ("failed to configure interface " +:+ v1.Interface_Name iface
                         +:+ ": " +:+ e)
        | None => inl (api.set_Address addr domainIface)
        end
      else inl domainIface in
    match pci with
    | inr e => ret (Return ([], Some e))
    | inl domainIface =>
      if (if v1.Interface_Bridge iface is Some _ then true else false)
         || (if v1.Interface_Masquerade iface is Some _ then true else false) then
        (* use "ethernet" interface type, since we're using pre-configured tap devices *)
        let domainIface := api.set_Type "ethernet" domainIface in
        let domainIface := bootOrderOrRom iface domainIface in
        ret (Next (domainInterfaces ++ [domainIface]))
      else if v1.Interface_Slirp iface is Some _ then
        let domainIface := api.set_Type "user" domainIface in
        (* Create network interface *)
        d <- get_domain ;;
        put_domain (initializeQEMUCmdAndQEMUArg ext d) ;;;
        err <- createSlirpNetwork iface net ;;
        match err with
        | Some e => ret (Return ([], Some e))
        | None => ret (Next (domainInterfaces ++ [domainIface]))
        end
      else if v1.Interface_Macvtap iface is Some _ then
        match v1.Network_Multus net with
        | None =>
            ret (Return ([], Some ("macvtap interface " +:+ v1.Interface_Name iface
                                   +:+ " requires Multus meta-cni")))
        | Some _ =>
            let domainIface := api.set_Type "ethernet" domainIface in
            let domainIface := bootOrderOrRom iface domainIface in
            ret (Next (domainInterfaces ++ [domainIface]))
        end
      else if v1.Interface_Vhostuser iface is Some _ then
        let domainIface := api.set_Type "vhostuser" domainIface in
        r <- lift (getPodInterfaceName vmi (v1.Interface_Name iface)) ;;
        let '(podInterfaceName, err) := r in
        (if err is Some _ then
           Errorf ("Failed to get NIC for vhostuser interface: " +:+ v1.Interface_Name iface)
         else ret tt) ;;;
        let '(vhostPath, vhostMode, err) := getVhostuserInfo podInterfaceName c in
        match err with
        | Some e =>
            Errorf ("Failed to get vhostuser interface info: " +:+ e) ;;;
            ret (Return ([], Some e))
        | None =>
            let vhostPathParts := Go.Split vhostPath "/" in
            let vhostDevice := List.last vhostPathParts "" in
            let vhostPath :=
              if (length vhostPathParts =? 1)%nat
              then VhostuserSocketDir ext +:+ vhostPath else vhostPath in
            let domainIface :=
              api.set_Source {| api.InterfaceSource_Type := "unix";
                                api.InterfaceSource_Path := vhostPath;
                                api.InterfaceSource_Mode := vhostMode |} domainIface in
            let domainIface :=
              api.set_Target {| api.InterfaceTarget_Device := vhostDevice |} domainIface in
            let vhostuserQueueSize := 1024%N in
            let domainIface :=
              api.set_Driver {| api.InterfaceDriver_Name := "";
                                api.InterfaceDriver_Queues := None;
                                api.InterfaceDriver_RxQueueSize := Some vhostuserQueueSize;
                                api.InterfaceDriver_TxQueueSize := Some vhostuserQueueSize |}
                             domainIface in
            ret (Next (domainInterfaces ++ [domainIface]))
        end
      else ret (Next (domainInterfaces ++ [domainIface]))
    end
  end.

Fixpoint createDomainInterfaces_loop (vmi : VMI) (c : ConverterContext)
         (virtioNetProhibited : bool) (networks : gmap string v1.Network)
         (domainInterfaces : list api.Interface) (interfaces : list v1.Interface)
  : M ifaceResult :=
  match interfaces with
  | [] => ret (domainInterfaces, None)
  | iface :: rest =>
      r <- createDomainInterfaces_body vmi c virtioNetProhibited networks
                                       domainInterfaces iface ;;
      match r with
      | Next domainInterfaces =>
          createDomainInterfaces_loop vmi c virtioNetProhibited networks domainInterfaces rest
      | Return res => ret res
      end
  end.

(** The [domain] argument is the [domain] of the [World] the call
    starts in. *)
Definition createDomainInterfaces (vmi : VMI) (c : ConverterContext)
           (virtioNetProhibited : bool) : M ifaceResult :=
  match validateNetworksTypes (v1.Spec_Networks vmi) with
  | Some e => ret ([], Some e)
  | None =>
      let networks := indexNetworksByName (v1.Spec_Networks vmi) in
      createDomainInterfaces_loop vmi c virtioNetProhibited networks []
                                  (v1.Spec_Domain_Devices_Interfaces vmi)
  end.

End Converter.

(** ** A host on which the converter can be run

    One choice of collaborators, for evaluating the converter on
    concrete specs.  [maxQueues] is the tap-device queue limit. *)

Module SampleHost.

Definition sameModel (_ : ConverterContext) (bus : string) : string := bus.

(** Accepts the twelve-character form [dddd:bb:ss.f]. *)
Definition pciAddressField (pci : string) : option api.Address * option error :=
  if (String.length pci =? 12)%nat then
    (Some {| api.Address_Type := "pci";
             api.Address_Domain := "0x" +:+ String.substring 0 4 pci;
             api.Address_Bus := "0x" +:+ String.substring 5 2 pci;
             api.Address_Slot := "0x" +:+ String.substring 8 2 pci;
             api.Address_Function := "0x" +:+ String.substring 11 1 pci |}, None)
  else (None, Some ("pci address is malformed: " +:+ pci)).

(** Allocates the command line when the domain has none. *)
Definition allocateQEMUCmd (d : api.Domain) : api.Domain :=
  match api.DomainSpec_QEMUCmd (api.Domain_Spec d) with
  | Some _ => d
  | None =>
      {| api.Domain_Spec :=
           {| api.DomainSpec_QEMUCmd := Some {| api.Commandline_QEMUArg := [] |} |} |}
  end.

Definition cidrError (cidr : string) : option error :=
  if Go.Contains cidr "/" then None else Some ("invalid CIDR address: " +:+ cidr).

Definition collaborators (maxQueues : N) : Collaborators N :=
  {| translateModel := sameModel;
     NewPciAddressField := pciAddressField;
     initializeQEMUCmdAndQEMUArg := allocateQEMUCmd;
     CPUTopology := N;
     getCPUTopology := v1.Spec_Domain_CPU;
     CalculateRequestedVCPUs := fun vcpus => vcpus;
     multiQueueMaxQueues := maxQueues;
     VhostuserSocketDir := "/var/lib/cni/usrcni/";
     DefaultVMCIDR := "10.0.2.0/24";
     resolvConf := "/etc/resolv.conf";
     ParseCIDR := cidrError;
     ReadFile := fun _ => ("nameserver 10.96.0.10", None);
     ParseNameservers := fun _ => (["10.96.0.10"], None);
     ParseSearchDomains := fun _ => (["svc.cluster.local"], None) |}.

Definition host : Collaborators N := collaborators 256.

Definition emptyDomain : api.Domain :=
  {| api.Domain_Spec := {| api.DomainSpec_QEMUCmd := None |} |}.

Definition world0 : World := {| domain := emptyDomain; logs := [] |}.

Definition podNetwork (name : string) : v1.Network :=
  {| v1.Network_Name := name;
     v1.Network_Pod := Some {| v1.PodNetwork_VMNetworkCIDR := "" |};
     v1.Network_Multus := None |}.

Definition multusNetwork (name : string) (isDefault : bool) : v1.Network :=
  {| v1.Network_Name := name;
     v1.Network_Pod := None;
     v1.Network_Multus := Some {| v1.MultusNetwork_Default := isDefault |} |}.

Definition bridge (name model : string) : v1.Interface :=
  {| v1.Interface_Name := name; v1.Interface_Model := model;
     v1.Interface_PciAddress := ""; v1.Interface_BootOrder := None;
     v1.Interface_Ports := [];
     v1.Interface_Bridge := Some tt; v1.Interface_Slirp := None;
     v1.Interface_Masquerade := None; v1.Interface_SRIOV := None;
     v1.Interface_Macvtap := None; v1.Interface_Vhostuser := None |}.

Definition slirp (name model : string) (ports : list v1.Port) : v1.Interface :=
  {| v1.Interface_Name := name; v1.Interface_Model := model;
     v1.Interface_PciAddress := ""; v1.Interface_BootOrder := None;
     v1.Interface_Ports := ports;
     v1.Interface_Bridge := None; v1.Interface_Slirp := Some tt;
     v1.Interface_Masquerade := None; v1.Interface_SRIOV := None;
     v1.Interface_Macvtap := None; v1.Interface_Vhostuser := None |}.

Definition sriov (name : string) : v1.Interface :=
  {| v1.Interface_Name := name; v1.Interface_Model := "";
     v1.Interface_PciAddress := ""; v1.Interface_BootOrder := None;
     v1.Interface_Ports := [];
     v1.Interface_Bridge := None; v1.Interface_Slirp := None;
     v1.Interface_Masquerade := None; v1.Interface_SRIOV := Some tt;
     v1.Interface_Macvtap := None; v1.Interface_Vhostuser := None |}.

Definition macvtap (name : string) (bootOrder : option N) : v1.Interface :=
  {| v1.Interface_Name := name; v1.Interface_Model := "";
     v1.Interface_PciAddress := ""; v1.Interface_BootOrder := bootOrder;
     v1.Interface_Ports := [];
     v1.Interface_Bridge := None; v1.Interface_Slirp := None;
     v1.Interface_Masquerade := None; v1.Interface_SRIOV := None;
     v1.Interface_Macvtap := Some tt; v1.Interface_Vhostuser := None |}.

Definition vhostuser (name model : string) : v1.Interface :=
  {| v1.Interface_Name := name; v1.Interface_Model := model;
     v1.Interface_PciAddress := ""; v1.Interface_BootOrder := None;
     v1.Interface_Ports := [];
     v1.Interface_Bridge := None; v1.Interface_Slirp := None;
     v1.Interface_Masquerade := None; v1.Interface_SRIOV := None;
     v1.Interface_Macvtap := None; v1.Interface_Vhostuser := Some tt |}.

Definition vmi (networks : list v1.Network) (interfaces : list v1.Interface)
           (multiQueue : option bool) (vcpus : N) : v1.VirtualMachineInstance N :=
  {| v1.Spec_Networks := networks;
     v1.Spec_Domain_Devices_Interfaces := interfaces;
     v1.Spec_Domain_Devices_NetworkInterfaceMultiQueue := multiQueue;
     v1.Spec_Domain_CPU := vcpus |}.

(** A discovered vhost-user socket. *)
Definition vhostEntry (statusName path mode : string) : netutil.InterfaceData :=
  {| netutil.InterfaceData_DeviceType := "vhost-user";
     netutil.InterfaceData_NetworkStatus :=
       {| netutil.NetworkStatus_Name := statusName;
          netutil.NetworkStatus_DeviceInfo :=
            {| netutil.DeviceInfo_VhostUser :=
                 {| netutil.VhostDevice_Mode := mode; netutil.VhostDevice_Path := path |} |} |} |}.

Definition context (entries : list netutil.InterfaceData) : ConverterContext :=
  {| PodNetInterfaces := Some {| netutil.InterfaceResponse_Interface := entries |} |}.

Definition noContext : ConverterContext := {| PodNetInterfaces := None |}.

End SampleHost.

(** ** Vocabulary of the properties *)

(** The value [getInterfaceType] computes. *)
Definition effectiveModel (iface : v1.Interface) : string :=
  if v1.Interface_Slirp iface is Some _ then
    if negb (String.eqb (v1.Interface_Model iface) "e1000")
       && negb (String.eqb (v1.Interface_Model iface) "rtl8139")
    then "e1000" else v1.Interface_Model iface
  else if negb (String.eqb (v1.Interface_Model iface) "") then v1.Interface_Model iface
  else "virtio".

(** The line [getInterfaceType] writes when it changes the model. *)
Definition downgradeNotice (iface : v1.Interface) : LogEntry :=
  {| severity := INFO; verbosity := None;
     message := "The network interface type of " +:+ v1.Interface_Name iface
                +:+ " was changed to e1000 due to unsupported interface type by qemu slirp network" |}.

(** A network with a source kind set, the ones [getPodInterfaceName]
    does not skip. *)
Definition hasNetworkType (network : v1.Network) : bool :=
  match v1.Network_Pod network, v1.Network_Multus network with
  | None, None => false
  | _, _ => true
  end.

(** The 1-based position, among the secondary multi-network attachments
    of [networks], of the element at index [i]. *)
Definition secondaryOrdinal (networks : list v1.Network) (i : nat) : Z :=
  Z.of_nat (S (length (filter (fun n => isSecondaryMultusNetwork n = true)
                              (take i networks)))).

Ltac run_M :=
  unfold bind, ret, lift, Infof, Errorf, V_Infof, write_log, get_domain, put_domain in *;
  simpl in *.

(** The protocol of a forward after defaulting, and the pair the code
    deduplicates on. *)
Definition forwardProtocol (p : v1.Port) : string :=
  if String.eqb (v1.Port_Protocol p) "" then api.DefaultProtocol else v1.Port_Protocol p.

Definition forwardPair (p : v1.Port) : string * N := (forwardProtocol p, v1.Port_Port p).

(** The key under which [configPortForward] records a pair. *)
Definition portConfig (pair : string * N) : string :=
  pair.1 +:+ "-" +:+ Go.Sprintf_u pair.2.

(** The clause appended for a pair. *)
Definition hostfwd (pair : string * N) : string :=
  ",hostfwd=" +:+ Go.ToLower pair.1 +:+ "::" +:+ Go.Sprintf_u pair.2 +:+ "-:"
  +:+ Go.Sprintf_u pair.2.

(** The elements of a list, each once, in the order of their first
    occurrence. *)
Fixpoint firstSeen {A} `{EqDecision A} (l : list A) : list A :=
  match l with
  | [] => []
  | x :: rest => x :: filter (fun y => y <> x) (firstSeen rest)
  end.

(** Concatenation of string fragments. *)
Definition concatStrings (fragments : list string) : string :=
  foldr String.append "" fragments.

(** The alias [createDomainInterfaces] gives the record of an interface. *)
Definition aliasOf (iface : v1.Interface) : option api.Alias :=
  Some (api.NewUserDefinedAlias (v1.Interface_Name iface)).

(** The discovered entry [getVhostuserInfo] looks for: of device type
    vhost-user, with the pod interface name as the last segment of its
    network status name. *)
Definition vhostuserEntryFor (ifaceName : string) (entry : netutil.InterfaceData) : Prop :=
  netutil.InterfaceData_DeviceType entry = "vhost-user"
  /\ List.last (Go.Split (netutil.NetworkStatus_Name
                            (netutil.InterfaceData_NetworkStatus entry)) "/") ""
     = ifaceName.

(** The interface reaches the vhost-user arm of the dispatch: its
    vhost-user binding is set and no binding tested before it is. *)
Definition vhostuserBound (iface : v1.Interface) : Prop :=
  v1.Interface_SRIOV iface = None /\ v1.Interface_Bridge iface = None
  /\ v1.Interface_Masquerade iface = None /\ v1.Interface_Slirp iface = None
  /\ v1.Interface_Macvtap iface = None /\ v1.Interface_Vhostuser iface <> None.

(** Likewise for the macvtap arm. *)
Definition macvtapBound (iface : v1.Interface) : Prop :=
  v1.Interface_SRIOV iface = None /\ v1.Interface_Bridge iface = None
  /\ v1.Interface_Masquerade iface = None /\ v1.Interface_Slirp iface = None
  /\ v1.Interface_Macvtap iface <> None.

(** Nothing before the dispatch on the binding fails: the virtio check
    passes and the PCI address, when given, parses. *)
Definition passesChecks {CPU} (ext : Collaborators CPU) (virtioNetProhibited : bool)
           (iface : v1.Interface) : Prop :=
  String.eqb (effectiveModel iface) "virtio" && virtioNetProhibited = false
  /\ (v1.Interface_PciAddress iface = ""
      \/ snd (NewPciAddressField ext (v1.Interface_PciAddress iface)) = None).

(** The lines the vhost-user arm writes to the log. *)
Definition nicFailure (iface : v1.Interface) : LogEntry :=
  {| severity := ERROR; verbosity := None;
     message := "Failed to get NIC for vhostuser interface: " +:+ v1.Interface_Name iface |}.

Definition infoFailure (e : error) : LogEntry :=
  {| severity := ERROR; verbosity := None;
     message := "Failed to get vhostuser interface info: " +:+ e |}.

(** The driver the vhost-user arm assigns. *)
Definition vhostuserDriver : api.InterfaceDriver :=
  {| api.InterfaceDriver_Name := "";
     api.InterfaceDriver_Queues := None;
     api.InterfaceDriver_RxQueueSize := Some 1024%N;
     api.InterfaceDriver_TxQueueSize := Some 1024%N |}.

(** Whether multi-queue is requested (lines 71-74). *)
Definition multiQueueRequested {CPU} (vmi : v1.VirtualMachineInstance CPU) : bool :=
  match v1.Spec_Domain_Devices_NetworkInterfaceMultiQueue vmi with
  | Some mq => mq
  | None => false
  end.

(** The driver assigned at line 79. *)
Definition vhostDriver (queueCount : N) : api.InterfaceDriver :=
  {| api.InterfaceDriver_Name := "vhost";
     api.InterfaceDriver_Queues := Some queueCount;
     api.InterfaceDriver_RxQueueSize := None;
     api.InterfaceDriver_TxQueueSize := None |}.

(** A network with exactly one source kind set. *)
Definition hasOneNetworkType (network : v1.Network) : Prop :=
  (v1.Network_Pod network <> None /\ v1.Network_Multus network = None)
  \/ (v1.Network_Pod network = None /\ v1.Network_Multus network <> None).

(** Some interface of the spec carries the name of the network. *)
Definition hasInterface {CPU} (vmi : v1.VirtualMachineInstance CPU)
           (network : v1.Network) : Prop :=
  exists iface, In iface (v1.Spec_Domain_Devices_Interfaces vmi)
               /\ v1.Interface_Name iface = v1.Network_Name network.

(** The clause [configDNSSearchName] appends for a search domain. *)
Definition dnssearch (dom : string) : string := ",dnssearch=" +:+ dom.

(** The two lines [GetResolvConfDetailsFromPod] logs on success. *)
Definition resolvConfLines {CPU} (ext : Collaborators CPU)
           (nameservers searchDomains : list string) : list LogEntry :=
  [ {| severity := INFO; verbosity := None;
       message := "Found nameservers in " +:+ resolvConf ext +:+ ": "
                  +:+ Go.Join nameservers " " |};
    {| severity := INFO; verbosity := None;
       message := "Found search domains in " +:+ resolvConf ext +:+ ": "
                  +:+ Go.Join searchDomains " " |} ].

(** The interface reaches the slirp arm of the dispatch. *)
Definition slirpBound (iface : v1.Interface) : Prop :=
  v1.Interface_SRIOV iface = None /\ v1.Interface_Bridge iface = None
  /\ v1.Interface_Masquerade iface = None /\ v1.Interface_Slirp iface <> None.

(** The PCI address of the interface, when given, parses. *)
Definition pciAddressParses {CPU} (ext : Collaborators CPU) (iface : v1.Interface) : Prop :=
  v1.Interface_PciAddress iface = ""
  \/ snd (NewPciAddressField ext (v1.Interface_PciAddress iface)) = None.

(** The interface reaches the bridge/masquerade arm of the dispatch. *)
Definition bridgeBound (iface : v1.Interface) : Prop :=
  v1.Interface_SRIOV iface = None
  /\ (v1.Interface_Bridge iface <> None \/ v1.Interface_Masquerade iface <> None).

(** No binding of the interface is set. *)
Definition unbound (iface : v1.Interface) : Prop :=
  v1.Interface_SRIOV iface = None /\ v1.Interface_Bridge iface = None
  /\ v1.Interface_Masquerade iface = None /\ v1.Interface_Slirp iface = None
  /\ v1.Interface_Macvtap iface = None /\ v1.Interface_Vhostuser iface = None.

(** The line logged for a slirp-bound interface, if any. *)
Definition slirpNotice (iface : v1.Interface) : list LogEntry :=
  if negb (String.eqb (v1.Interface_Model iface) "e1000")
     && negb (String.eqb (v1.Interface_Model iface) "rtl8139")
  then [downgradeNotice iface] else [].

(** The source of a record the vhost-user arm has not written. *)
Definition noSource : api.InterfaceSource :=
  {| api.InterfaceSource_Type := ""; api.InterfaceSource_Path := "";
     api.InterfaceSource_Mode := "" |}.

(** The record emitted for a slirp-bound interface. *)
Definition slirpRecord {CPU} (ext : Collaborators CPU) (c : ConverterContext)
           (iface : v1.Interface) : api.Interface :=
  {| api.Interface_Type := "user";
     api.Interface_Model :=
       Some {| api.Model_Type := translateModel ext c (effectiveModel iface) |};
     api.Interface_Alias := aliasOf iface;
     api.Interface_Driver := None;
     api.Interface_Address :=
       if negb (String.eqb (v1.Interface_PciAddress iface) "")
       then fst (NewPciAddressField ext (v1.Interface_PciAddress iface)) else None;
     api.Interface_BootOrder := None;
     api.Interface_Rom := None;
     api.Interface_Source := noSource;
     api.Interface_Target := None |}.

(** What a successful conversion requires of an interface: its name is
    the name of an indexed network and, unless it is SR-IOV-bound, it
    passes the checks, with a Multus network when it reaches the macvtap
    arm. *)
Definition convertible {CPU} (ext : Collaborators CPU) (virtioNetProhibited : bool)
           (networks : gmap string v1.Network) (iface : v1.Interface) : Prop :=
  exists net,
    networks !! v1.Interface_Name iface = Some net
    /\ (v1.Interface_SRIOV iface = None ->
        passesChecks ext virtioNetProhibited iface
        /\ (macvtapBound iface -> v1.Network_Multus net <> None)).

(** The arms of the dispatch whose outcome depends on nothing outside
    the spec: the interface is SR-IOV-bound, or reaches the
    bridge/masquerade arm or the macvtap arm, or has no binding. *)
Definition plainlyBound (iface : v1.Interface) : Prop :=
  v1.Interface_SRIOV iface <> None \/ bridgeBound iface \/ macvtapBound iface
  \/ unbound iface.

(** The fields every emitted record takes from its interface whatever
    the binding: alias, model, PCI address, and the driver, which is the
    fixed-queue-size one in the vhost-user arm and the multi-queue one
    (or none) elsewhere. *)
Definition commonFields {CPU} (ext : Collaborators CPU)
           (vmi : v1.VirtualMachineInstance CPU) (c : ConverterContext)
           (iface : v1.Interface) (d : api.Interface) : Prop :=
  api.Interface_Alias d = aliasOf iface
  /\ api.Interface_Model d
     = Some {| api.Model_Type := translateModel ext c (effectiveModel iface) |}
  /\ api.Interface_Address d
     = (if negb (String.eqb (v1.Interface_PciAddress iface) "")
        then fst (NewPciAddressField ext (v1.Interface_PciAddress iface))
        else None)
  /\ (vhostuserBound iface -> api.Interface_Driver d = Some vhostuserDriver)
  /\ (~ vhostuserBound iface ->
      api.Interface_Driver d =
        if String.eqb (effectiveModel iface) "virtio" && multiQueueRequested vmi
        then Some (vhostDriver (N.min (CalculateRequestedVCPUs ext (getCPUTopology ext vmi))
                                      (multiQueueMaxQueues ext)))
        else None).

(** What the arm an interface reaches writes into its record: type,
    boot order and ROM entry, and a source and target in the vhost-user
    arm only. *)
Definition armFields {CPU} (ext : Collaborators CPU) (c : ConverterContext)
           (iface : v1.Interface) (d : api.Interface) : Prop :=
  (bridgeBound iface \/ macvtapBound iface ->
   api.Interface_Type d = "ethernet"
   /\ api.Interface_BootOrder d
      = (api.Build_BootOrder <$> v1.Interface_BootOrder iface)
   /\ api.Interface_Rom d
      = (if v1.Interface_BootOrder iface is Some _ then None
         else Some {| api.Rom_Enabled := "no" |})
   /\ api.Interface_Source d = noSource /\ api.Interface_Target d = None)
  /\ (slirpBound iface -> d = slirpRecord ext c iface)
  /\ (unbound iface ->
      api.Interface_Type d = ""
      /\ api.Interface_BootOrder d = None /\ api.Interface_Rom d = None
      /\ api.Interface_Source d = noSource /\ api.Interface_Target d = None)
  /\ (vhostuserBound iface ->
      api.Interface_Type d = "vhostuser"
      /\ api.Interface_BootOrder d = None /\ api.Interface_Rom d = None).

(** The record of a vhost-user-bound interface: the pod interface name
    resolved without error, the discovered entry of that name found, and
    the socket of that entry in source and target. *)
Definition vhostuserFields {CPU} (ext : Collaborators CPU)
           (vmi : v1.VirtualMachineInstance CPU) (c : ConverterContext)
           (iface : v1.Interface) (d : api.Interface) : Prop :=
  vhostuserBound iface ->
  exists podInterfaceName vhostPath vhostMode,
    getPodInterfaceName vmi (v1.Interface_Name iface) = Done (podInterfaceName, None)
    /\ getVhostuserInfo podInterfaceName c = (vhostPath, vhostMode, None)
    /\ api.Interface_Source d =
         {| api.InterfaceSource_Type := "unix";
            api.InterfaceSource_Path :=
              if Go.Contains vhostPath "/" then vhostPath
              else VhostuserSocketDir ext +:+ vhostPath;
            api.InterfaceSource_Mode := vhostMode |}
    /\ api.Interface_Target d
       = Some {| api.InterfaceTarget_Device := List.last (Go.Split vhostPath "/") "" |}.

(** ** Properties *)

(** *** The effective model, [getInterfaceType] *)

Lemma getInterfaceType_value iface w :
  exists w', getInterfaceType iface w = (w', Done (effectiveModel iface))
             /\ domain w' = domain w.
Proof.
  unfold getInterfaceType, effectiveModel.
  destruct (v1.Interface_Slirp iface);
    repeat match goal with
           | |- context [if ?b then _ else _] => destruct b
           end; run_M; eauto.
Qed.

(** *** Pod interface names *)

Section PodInterfaceName.

Context {CPU : Type}.
Implicit Types (vmi : v1.VirtualMachineInstance CPU) (network : v1.Network).

Lemma findMultusIndex_from_ordinal networks : forall idx i network,
  networks !! i = Some network ->
  isSecondaryMultusNetwork network = true ->
  (forall j other, (j < i)%nat -> networks !! j = Some other ->
                   isSecondaryMultusNetwork other = true ->
                   v1.Network_Name other <> v1.Network_Name network) ->
  findMultusIndex_from idx networks network = (idx + secondaryOrdinal networks i)%Z.
Proof.
  unfold secondaryOrdinal.
  induction networks as [|n networks IH]; intros idx i network Hi Hsec Hfirst.
  - destruct i; discriminate.
  - destruct i as [|i]; simpl in Hi.
    + injection Hi as ->. simpl. rewrite Hsec, String.eqb_refl. lia.
    + simpl findMultusIndex_from.
      change (take (S i) (n :: networks)) with (n :: take i networks).
      rewrite filter_cons.
      assert (Hrest : forall j other, (j < i)%nat -> networks !! j = Some other ->
                        isSecondaryMultusNetwork other = true ->
                        v1.Network_Name other <> v1.Network_Name network).
      { intros j other Hj Hl. apply (Hfirst (S j)); [lia|exact Hl]. }
      destruct (isSecondaryMultusNetwork n) eqn:Hn.
      * assert (Hne : v1.Network_Name n <> v1.Network_Name network)
          by (apply (Hfirst 0%nat); [lia|reflexivity|exact Hn]).
        apply String.eqb_neq in Hne. rewrite Hne.
        rewrite (IH _ i network Hi Hsec Hrest).
        destruct (decide (true = true)); [|congruence]. simpl length. lia.
      * rewrite (IH _ i network Hi Hsec Hrest).
        destruct (decide (false = true)); [congruence|]. reflexivity.
Qed.

Lemma secondaryOrdinal_pos networks i : (1 <= secondaryOrdinal networks i)%Z.
Proof. unfold secondaryOrdinal. lia. Qed.

Lemma ComposePodInterfaceName_primary vmi network :
  isSecondaryMultusNetwork network = false ->
  ComposePodInterfaceName vmi network = ("eth0", None).
Proof. intros H. unfold ComposePodInterfaceName. now rewrite H. Qed.

Lemma ComposePodInterfaceName_secondary vmi network i :
  v1.Spec_Networks vmi !! i = Some network ->
  isSecondaryMultusNetwork network = true ->
  (forall j other, (j < i)%nat -> v1.Spec_Networks vmi !! j = Some other ->
                   isSecondaryMultusNetwork other = true ->
                   v1.Network_Name other <> v1.Network_Name network) ->
  ComposePodInterfaceName vmi network =
    ("net" +:+ Go.Sprintf_d (secondaryOrdinal (v1.Spec_Networks vmi) i), None).
Proof.
  intros Hi Hsec Hfirst. unfold ComposePodInterfaceName, findMultusIndex.
  rewrite Hsec, (findMultusIndex_from_ordinal _ 0 i network Hi Hsec Hfirst).
  pose proof (secondaryOrdinal_pos (v1.Spec_Networks vmi) i).
  destruct (Z.eqb_spec (0 + secondaryOrdinal (v1.Spec_Networks vmi) i) (-1)); [lia|].
  reflexivity.
Qed.

Lemma FindInterfaceByNetworkName_in_Some interfaces network :
  (exists iface, In iface interfaces /\ v1.Interface_Name iface = v1.Network_Name network) ->
  exists iface, FindInterfaceByNetworkName_in interfaces network = Some iface
                /\ v1.Interface_Name iface = v1.Network_Name network.
Proof.
  induction interfaces as [|x interfaces IH]; intros [iface [Hin Hname]]; [destruct Hin|].
  simpl. destruct (String.eqb_spec (v1.Interface_Name x) (v1.Network_Name network)) as [E|E].
  - eauto.
  - destruct Hin as [->|Hin]; [contradiction|]. apply IH. eauto.
Qed.

Lemma secondary_hasNetworkType network :
  isSecondaryMultusNetwork network = true -> hasNetworkType network = true.
Proof.
  unfold isSecondaryMultusNetwork, hasNetworkType.
  destruct (v1.Network_Pod network), (v1.Network_Multus network); congruence.
Qed.

(** [getPodInterfaceName] over a tail of the network list: it answers
    with the first network that has a source kind and carries the
    name, provided every network with a source kind up to there is the
    network of some interface. *)
Lemma getPodInterfaceName_in_first vmi ifaceName networks : forall i network,
  networks !! i = Some network ->
  hasNetworkType network = true ->
  v1.Network_Name network = ifaceName ->
  (forall j other, (j < i)%nat -> networks !! j = Some other ->
                   hasNetworkType other = true -> v1.Network_Name other <> ifaceName) ->
  (forall j other, (j <= i)%nat -> networks !! j = Some other ->
                   hasNetworkType other = true ->
                   exists iface, In iface (v1.Spec_Domain_Devices_Interfaces vmi)
                                 /\ v1.Interface_Name iface = v1.Network_Name other) ->
  getPodInterfaceName_in vmi networks ifaceName =
    match ComposePodInterfaceName vmi network with
    | (_, Some e) => Done ("", Some e)
    | (podIfaceName, None) => Done (podIfaceName, None)
    end.
Proof.
  induction networks as [|n networks IH]; intros i network Hi Hty Hname Hfirst Hattached.
  - destruct i; discriminate.
  - destruct i as [|i]; simpl in Hi.
    + injection Hi as ->. simpl.
      destruct (FindInterfaceByNetworkName_in_Some
                  (v1.Spec_Domain_Devices_Interfaces vmi) network) as [iface [Hf Hn]].
      { apply (Hattached 0%nat); [lia|reflexivity|exact Hty]. }
      unfold hasNetworkType in Hty. unfold FindInterfaceByNetworkName.
      destruct (v1.Network_Pod network), (v1.Network_Multus network); try discriminate;
        rewrite Hf, Hn, Hname, String.eqb_refl;
        destruct (ComposePodInterfaceName vmi network) as [? []]; reflexivity.
    + assert (IH' : getPodInterfaceName_in vmi networks ifaceName =
                      match ComposePodInterfaceName vmi network with
                      | (_, Some e) => Done ("", Some e)
                      | (podIfaceName, None) => Done (podIfaceName, None)
                      end).
      { apply (IH i); auto.
        - intros j other Hj Hl. apply (Hfirst (S j)); [lia|exact Hl].
        - intros j other Hj Hl. apply (Hattached (S j)); [lia|exact Hl]. }
      simpl. destruct (hasNetworkType n) eqn:Hn.
      * destruct (FindInterfaceByNetworkName_in_Some
                    (v1.Spec_Domain_Devices_Interfaces vmi) n) as [iface [Hf Hfn]].
        { apply (Hattached 0%nat); [lia|reflexivity|exact Hn]. }
        assert (Hne : v1.Network_Name n <> ifaceName)
          by (apply (Hfirst 0%nat); [lia|reflexivity|exact Hn]).
        apply String.eqb_neq in Hne.
        unfold hasNetworkType in Hn. unfold FindInterfaceByNetworkName.
        destruct (v1.Network_Pod n), (v1.Network_Multus n); try discriminate;
          rewrite Hf, Hfn, Hne; exact IH'.
      * unfold hasNetworkType in Hn.
        destruct (v1.Network_Pod n), (v1.Network_Multus n); try discriminate. exact IH'.
Qed.

End PodInterfaceName.

(** C2.  [ComposePodInterfaceName] answers eth0 for every network that is
    not a secondary multi-network attachment, wherever it stands, and
    net<k> for a secondary one, [k] being its 1-based position among the
    secondary attachments in declaration order (the network being the
    first secondary one of its name).  [getPodInterfaceName] resolves an
    interface name to the first declared network of that name that has a
    source kind and answers the same, when each network with a source
    kind up to that one is the network of an interface.  Both are
    functions of the spec and the name. *)
Theorem pod_interface_name_is_ordinal {CPU : Type}
        (vmi : v1.VirtualMachineInstance CPU) (network : v1.Network) (i : nat) :
  (isSecondaryMultusNetwork network = false ->
   ComposePodInterfaceName vmi network = (PrimaryPodInterfaceName, None))
  /\ (v1.Spec_Networks vmi !! i = Some network ->
      isSecondaryMultusNetwork network = true ->
      (forall j other, (j < i)%nat -> v1.Spec_Networks vmi !! j = Some other ->
                       isSecondaryMultusNetwork other = true ->
                       v1.Network_Name other <> v1.Network_Name network) ->
      ComposePodInterfaceName vmi network =
        ("net" +:+ Go.Sprintf_d (secondaryOrdinal (v1.Spec_Networks vmi) i), None))
  /\ (v1.Spec_Networks vmi !! i = Some network ->
      hasNetworkType network = true ->
      (forall j other, (j < i)%nat -> v1.Spec_Networks vmi !! j = Some other ->
                       hasNetworkType other = true ->
                       v1.Network_Name other <> v1.Network_Name network) ->
      (forall j other, (j <= i)%nat -> v1.Spec_Networks vmi !! j = Some other ->
                       hasNetworkType other = true ->
                       exists iface, In iface (v1.Spec_Domain_Devices_Interfaces vmi)
                                     /\ v1.Interface_Name iface = v1.Network_Name other) ->
      getPodInterfaceName vmi (v1.Network_Name network) =
        Done (if isSecondaryMultusNetwork network
              then "net" +:+ Go.Sprintf_d (secondaryOrdinal (v1.Spec_Networks vmi) i)
              else PrimaryPodInterfaceName, None)).
Proof.
  split; [apply ComposePodInterfaceName_primary|].
  split; [apply ComposePodInterfaceName_secondary|].
  intros Hi Hty Hfirst Hattached. unfold getPodInterfaceName.
  rewrite (getPodInterfaceName_in_first vmi _ _ i network Hi Hty eq_refl Hfirst Hattached).
  destruct (isSecondaryMultusNetwork network) eqn:Hsec.
  - rewrite (ComposePodInterfaceName_secondary vmi network i Hi Hsec); [reflexivity|].
    intros j other Hj Hl Hs. apply (Hfirst j other Hj Hl). now apply secondary_hasNetworkType.
  - now rewrite ComposePodInterfaceName_primary.
Qed.

(** *** Port forwards, [configPortForward] *)

Section PortForward.

Lemma append_cons (ch : ascii) (a b : string) :
  String ch a +:+ b = String ch (a +:+ b).
Proof. reflexivity. Qed.

Lemma append_assoc (a b c : string) : (a +:+ b) +:+ c = a +:+ (b +:+ c).
Proof.
  induction a as [|ch a IH]; [reflexivity|].
  rewrite !append_cons. now f_equal.
Qed.

Lemma append_nil_r (a : string) : a +:+ "" = a.
Proof.
  induction a as [|ch a IH]; [reflexivity|].
  rewrite append_cons. now f_equal.
Qed.

Lemma Contains_append_here (a b : string) (ch : ascii) :
  Go.Contains (a +:+ String ch b) ch = true.
Proof.
  induction a as [|x a IH].
  - change (Ascii.eqb ch ch || Go.Contains b ch = true). now rewrite Ascii.eqb_refl.
  - rewrite append_cons. simpl. rewrite IH. apply orb_true_r.
Qed.

(** A decimal numeral has no dash in it, and determines the number. *)
Lemma string_of_uint_no_dash (d : Decimal.uint) :
  Go.Contains (NilEmpty.string_of_uint d) "-" = false.
Proof. induction d; simpl; auto. Qed.

Lemma Sprintf_u_inj (m n : N) : Go.Sprintf_u m = Go.Sprintf_u n -> m = n.
Proof.
  unfold Go.Sprintf_u. intros H.
  assert (Hd : N.to_uint m = N.to_uint n).
  { apply (f_equal NilEmpty.uint_of_string) in H. rewrite !NilEmpty.usu in H. congruence. }
  apply (f_equal N.of_uint) in Hd. now rewrite !DecimalN.Unsigned.of_to in Hd.
Qed.

Lemma append_dash_inj (s1 : string) : forall s2 t1 t2,
  Go.Contains t1 "-" = false -> Go.Contains t2 "-" = false ->
  s1 +:+ String "-" t1 = s2 +:+ String "-" t2 -> s1 = s2 /\ t1 = t2.
Proof.
  induction s1 as [|c s1 IH]; intros [|c2 s2] t1 t2 H1 H2 E;
    rewrite ?append_cons in E;
    change ("" +:+ String "-" t1) with (String "-" t1) in E;
    change ("" +:+ String "-" t2) with (String "-" t2) in E.
  - injection E as ->. auto.
  - injection E as <- ->. now rewrite Contains_append_here in H1.
  - injection E as -> <-. now rewrite Contains_append_here in H2.
  - injection E as -> E. destruct (IH _ _ _ H1 H2 E) as [-> ->]. auto.
Qed.

(** The string key stands for the pair: distinct pairs have distinct
    keys. *)
Lemma portConfig_inj (p q : string * N) : portConfig p = portConfig q -> p = q.
Proof.
  destruct p as [pp pn], q as [qp qn]. unfold portConfig. simpl. intros E.
  apply append_dash_inj in E; try apply string_of_uint_no_dash.
  destruct E as [-> E]. now rewrite (Sprintf_u_inj _ _ E).
Qed.

Lemma firstSeen_elem_of {A} `{EqDecision A} (l : list A) (x : A) :
  x ∈ firstSeen l <-> x ∈ l.
Proof.
  induction l as [|y l IH]; simpl; [reflexivity|].
  rewrite !elem_of_cons, list_elem_of_filter, IH.
  destruct (decide (x = y)); intuition.
Qed.

Lemma firstSeen_NoDup {A} `{EqDecision A} (l : list A) : NoDup (firstSeen l).
Proof.
  induction l as [|y l IH]; simpl; [constructor|].
  constructor; [|now apply NoDup_filter].
  rewrite list_elem_of_filter. intros [Hne _]. now apply Hne.
Qed.

Lemma filter_free {B} (key : B -> string) (S : gset string) (l : list B) :
  S = ∅ -> filter (fun x => key x ∉ S) l = l.
Proof.
  intros ->. induction l as [|x l IH]; [reflexivity|].
  rewrite filter_cons_True by set_solver. now f_equal.
Qed.

Lemma concatStrings_cons (x : string) (l : list string) :
  concatStrings (x :: l) = x +:+ concatStrings l.
Proof. reflexivity. Qed.

(** The loop, started with the keys [configuredPorts] already taken:
    it appends the clause of each pair whose key is still free, once,
    in first-seen order. *)
Lemma configPortForward_from_clauses (ports : list v1.Port) :
  forall (configuredPorts : gset string) (qemuArg : api.Arg),
  Forall (fun p => v1.Port_Port p <> 0%N) ports ->
  configPortForward_from configuredPorts qemuArg ports =
    ({| api.Arg_Value :=
          api.Arg_Value qemuArg +:+
          concatStrings (hostfwd <$> filter (fun pair => portConfig pair ∉ configuredPorts)
                                            (firstSeen (forwardPair <$> ports))) |},
     None).
Proof.
  induction ports as [|p ports IH]; intros S qemuArg Hnz.
  - simpl. rewrite append_nil_r. now destruct qemuArg.
  - inversion Hnz as [|? ? Hp Hrest]; subst.
    simpl configPortForward_from. apply N.eqb_neq in Hp. rewrite Hp.
    change (if String.eqb (v1.Port_Protocol p) "" then api.DefaultProtocol
            else v1.Port_Protocol p) with (forwardProtocol p).
    change (forwardProtocol p +:+ "-" +:+ Go.Sprintf_u (v1.Port_Port p))
      with (portConfig (forwardPair p)).
    rewrite fmap_cons. simpl firstSeen. rewrite filter_cons.
    destruct (decide (portConfig (forwardPair p) ∈ S)) as [Hin|Hnin].
    + rewrite (IH S qemuArg Hrest).
      destruct (decide (portConfig (forwardPair p) ∉ S)); [contradiction|].
      rewrite list_filter_filter_l; [reflexivity|].
      intros x Hx ->. contradiction.
    + rewrite (IH _ _ Hrest).
      destruct (decide (portConfig (forwardPair p) ∉ S)); [|contradiction].
      rewrite fmap_cons, concatStrings_cons. simpl api.Arg_Value.
      rewrite list_filter_filter.
      rewrite (list_filter_iff
                 (fun pair => portConfig pair ∉ ({[portConfig (forwardPair p)]} ∪ S))
                 (fun pair => (portConfig pair ∉ S) /\ pair <> forwardPair p)).
      * f_equal. f_equal. rewrite append_assoc. reflexivity.
      * intros x. rewrite not_elem_of_union, not_elem_of_singleton.
        split; intros [H1 H2]; split; auto.
        -- intros ->. now apply H1.
        -- intros E. apply H2. now apply portConfig_inj.
Qed.

Lemma configPortForward_from_port_zero (ports : list v1.Port) :
  forall (configuredPorts : gset string) (qemuArg : api.Arg),
  Exists (fun p => v1.Port_Port p = 0%N) ports ->
  snd (configPortForward_from configuredPorts qemuArg ports)
    = Some "Port must be configured".
Proof.
  induction ports as [|p ports IH]; intros S qemuArg Hex; [inversion Hex|].
  simpl. destruct (N.eqb_spec (v1.Port_Port p) 0) as [E|E]; [reflexivity|].
  assert (Hrest : Exists (fun p => v1.Port_Port p = 0%N) ports)
    by (inversion Hex; [contradiction|assumption]).
  destruct (decide _); now apply IH.
Qed.

End PortForward.

(** C4.  With every forwarded port different from 0, [configPortForward]
    succeeds and appends to the argument, for the forwards taken as
    (protocol, port) pairs with an empty protocol read as TCP, the clause
    [,hostfwd=<lowercase protocol>::<port>-:<port>] of each distinct pair
    exactly once, in the order in which the pairs are first seen; a port
    0 anywhere makes it fail with [Port must be configured]; and the
    ports [{80, ""}; {80, "TCP"}] give the single clause
    [hostfwd=tcp::80-:80]. *)
Theorem configPortForward_first_seen (qemuArg : api.Arg) (iface : v1.Interface) :
  let pairs := forwardPair <$> v1.Interface_Ports iface in
  (forall p, forwardPair p =
             (if String.eqb (v1.Port_Protocol p) "" then "TCP" else v1.Port_Protocol p,
              v1.Port_Port p))
  /\ (Forall (fun p => v1.Port_Port p <> 0%N) (v1.Interface_Ports iface) ->
      configPortForward qemuArg iface =
        ({| api.Arg_Value :=
              api.Arg_Value qemuArg +:+ concatStrings (hostfwd <$> firstSeen pairs) |}, None))
  /\ NoDup (firstSeen pairs)
  /\ (forall pair, pair ∈ firstSeen pairs <-> pair ∈ pairs)
  /\ (Exists (fun p => v1.Port_Port p = 0%N) (v1.Interface_Ports iface) ->
      snd (configPortForward qemuArg iface) = Some "Port must be configured")
  /\ (v1.Interface_Ports iface =
        [ {| v1.Port_Protocol := ""; v1.Port_Port := 80 |};
          {| v1.Port_Protocol := "TCP"; v1.Port_Port := 80 |} ] ->
      configPortForward qemuArg iface =
        ({| api.Arg_Value := api.Arg_Value qemuArg +:+ ",hostfwd=tcp::80-:80" |}, None)).
Proof.
  intros pairs. split; [reflexivity|].
  assert (Hall : Forall (fun p => v1.Port_Port p <> 0%N) (v1.Interface_Ports iface) ->
                 configPortForward qemuArg iface =
                   ({| api.Arg_Value :=
                         api.Arg_Value qemuArg +:+ concatStrings (hostfwd <$> firstSeen pairs) |},
                    None)).
  { intros Hnz. unfold configPortForward.
    rewrite (configPortForward_from_clauses _ ∅ qemuArg Hnz).
    now rewrite (filter_free portConfig ∅ _ eq_refl). }
  split; [exact Hall|].
  split; [apply firstSeen_NoDup|].
  split; [apply firstSeen_elem_of|].
  split; [apply configPortForward_from_port_zero|].
  intros Hports. rewrite Hall.
  - subst pairs. rewrite Hports. reflexivity.
  - rewrite Hports. repeat constructor; discriminate.
Qed.

(** *** The loop of [createDomainInterfaces] *)

Section Dispatcher.

Context {CPU : Type} (ext : Collaborators CPU).
Implicit Types (vmi : v1.VirtualMachineInstance CPU) (c : ConverterContext)
         (iface : v1.Interface) (w : World).

Lemma CalculateNetworkQueues_value vmi w :
  exists w', CalculateNetworkQueues ext vmi w =
               (w', Done (N.min (CalculateRequestedVCPUs ext (getCPUTopology ext vmi))
                                (multiQueueMaxQueues ext)))
             /\ domain w' = domain w.
Proof.
  unfold CalculateNetworkQueues.
  destruct (N.ltb_spec (multiQueueMaxQueues ext)
                       (CalculateRequestedVCPUs ext (getCPUTopology ext vmi))); run_M.
  - rewrite N.min_r by lia. eauto.
  - rewrite N.min_l by lia. eauto.
Qed.

(** What one turn of the loop can end in: a return of the nil slice
    with an error, the slice as it was for an SR-IOV interface, or the
    slice with one more record whose alias is the interface name. *)
Lemma createDomainInterfaces_body_shape vmi c prohibited networks acc iface w w' r :
  createDomainInterfaces_body ext vmi c prohibited networks acc iface w = (w', Done r) ->
  match r with
  | Return res => res.1 = [] /\ res.2 <> None
  | Next acc' =>
      if v1.Interface_SRIOV iface is Some _ then acc' = acc
      else exists d, acc' = acc ++ [d]
                     /\ api.Interface_Alias d
                        = Some (api.NewUserDefinedAlias (v1.Interface_Name iface))
  end.
Proof.
  unfold createDomainInterfaces_body.
  destruct (networks !! v1.Interface_Name iface) as [net|];
    [|intros [= <- <-]; split; [reflexivity|discriminate]].
  destruct (v1.Interface_SRIOV iface); [intros [= <- <-]; reflexivity|].
  unfold bind at 1.
  destruct (getInterfaceType_value iface w) as [w1 [-> _]].
  destruct (String.eqb (effectiveModel iface) "virtio" && prohibited);
    [intros [= <- <-]; split; [reflexivity|discriminate]|].
  unfold bind at 1.
  destruct (CalculateNetworkQueues_value vmi w1) as [w2 [Hq _]].
  match goal with
  | |- context [if ?b then _ else _] => destruct b
  end.
  all: run_M; rewrite ?Hq.
  all: repeat match goal with
         | |- context [match ?x with _ => _ end] =>
             lazymatch x with
             | context [match _ with _ => _ end] => fail
             | _ => destruct x eqn:?
             end
         end.
  all: try (intros [= <- <-]; simpl; try (split; [reflexivity|discriminate]);
            unfold bootOrderOrRom;
            repeat match goal with
                   | |- context [match ?x with _ => _ end] => destruct x
                   end; eexists; split; reflexivity).
  all: try discriminate.
Qed.

Lemma createDomainInterfaces_loop_aliases vmi c prohibited networks interfaces :
  forall acc w w' l,
  createDomainInterfaces_loop ext vmi c prohibited networks acc interfaces w
    = (w', Done (l, None)) ->
  api.Interface_Alias <$> l =
    (api.Interface_Alias <$> acc)
    ++ (aliasOf <$> filter (fun iface => v1.Interface_SRIOV iface = None) interfaces).
Proof.
  induction interfaces as [|iface interfaces IH]; intros acc w w' l.
  - intros [= <- <-]. simpl. now rewrite app_nil_r.
  - simpl. unfold bind at 1.
    destruct (createDomainInterfaces_body ext vmi c prohibited networks acc iface w)
      as [w1 [[acc'|res]|]] eqn:Hbody; [| |discriminate].
    + intros Hloop. apply IH in Hloop. rewrite Hloop.
      apply createDomainInterfaces_body_shape in Hbody.
      rewrite filter_cons.
      destruct (v1.Interface_SRIOV iface) eqn:Hs.
      * subst acc'. destruct (decide (Some u = None)); [discriminate|reflexivity].
      * destruct Hbody as [d [-> Hd]]. destruct (decide (None = None)); [|congruence].
        rewrite fmap_app, fmap_cons, <- app_assoc. simpl. now rewrite Hd.
    + apply createDomainInterfaces_body_shape in Hbody. destruct Hbody as [_ Hne].
      intros [= <- ->]. contradiction.
Qed.

Lemma createDomainInterfaces_loop_error vmi c prohibited networks interfaces :
  forall acc w w' l e,
  createDomainInterfaces_loop ext vmi c prohibited networks acc interfaces w
    = (w', Done (l, Some e)) ->
  l = [].
Proof.
  induction interfaces as [|iface interfaces IH]; intros acc w w' l e.
  - intros [= <- <-].
  - simpl. unfold bind at 1.
    destruct (createDomainInterfaces_body ext vmi c prohibited networks acc iface w)
      as [w1 [[acc'|res]|]] eqn:Hbody; [| |discriminate].
    + apply IH.
    + apply createDomainInterfaces_body_shape in Hbody. destruct Hbody as [Hnil _].
      intros [= <- ->]. exact Hnil.
Qed.

(** Once a turn of the loop returns, what follows in the interface
    list is not looked at. *)
Lemma createDomainInterfaces_loop_abort vmi c prohibited networks before iface after :
  forall acc w w1 acc1 w2 res,
  createDomainInterfaces_loop ext vmi c prohibited networks acc before w
    = (w1, Done (acc1, None)) ->
  createDomainInterfaces_body ext vmi c prohibited networks acc1 iface w1
    = (w2, Done (Return res)) ->
  createDomainInterfaces_loop ext vmi c prohibited networks acc
                              (before ++ iface :: after) w
    = (w2, Done res).
Proof.
  induction before as [|b before IH]; intros acc w w1 acc1 w2 res.
  - intros [= <- <-] Hbody. simpl. unfold bind at 1. now rewrite Hbody.
  - intros Hloop Hbody. simpl in Hloop |- *.
    unfold bind in Hloop at 1. unfold bind at 1.
    destruct (createDomainInterfaces_body ext vmi c prohibited networks acc b w)
      as [w0 [[acc'|res0]|]] eqn:Hb; [| |discriminate].
    + now apply (IH acc' w0 w1 acc1).
    + injection Hloop as <- E. apply createDomainInterfaces_body_shape in Hb.
      destruct Hb as [_ Hne]. rewrite E in Hne. now contradiction Hne.
Qed.

Lemma append_QEMUArg_domain arg w w' :
  append_QEMUArg arg w = (w', Done tt) ->
  exists cmd, api.DomainSpec_QEMUCmd (api.Domain_Spec (domain w)) = Some cmd
              /\ api.DomainSpec_QEMUCmd (api.Domain_Spec (domain w'))
                 = Some {| api.Commandline_QEMUArg := api.Commandline_QEMUArg cmd ++ [arg] |}
              /\ logs w' = logs w.
Proof.
  unfold append_QEMUArg, api.set_QEMUArg. run_M.
  destruct (api.DomainSpec_QEMUCmd (api.Domain_Spec (domain w))) as [cmd|]; [|discriminate].
  intros [= <-]. simpl. eauto.
Qed.

Lemma GetResolvConfDetailsFromPod_domain w w' r :
  GetResolvConfDetailsFromPod ext w = (w', r) -> domain w' = domain w.
Proof.
  unfold GetResolvConfDetailsFromPod.
  destruct (ReadFile ext (resolvConf ext)) as [b [e|]]; [now intros [= <- _]|].
  destruct (ParseNameservers ext b) as [ns [e|]]; [now intros [= <- _]|].
  destruct (ParseSearchDomains ext b) as [sd [e|]]; [now intros [= <- _]|].
  run_M. now intros [= <- _].
Qed.

(** [createSlirpNetwork] touches the domain only after its last check:
    when it returns an error the domain is as it found it, and when it
    succeeds exactly one [-netdev] pair has been appended. *)
Lemma createSlirpNetwork_domain iface net w w' err :
  createSlirpNetwork ext iface net w = (w', Done err) ->
  match err with
  | Some _ => domain w' = domain w
  | None =>
      exists cmd value,
        api.DomainSpec_QEMUCmd (api.Domain_Spec (domain w)) = Some cmd
        /\ api.DomainSpec_QEMUCmd (api.Domain_Spec (domain w'))
           = Some {| api.Commandline_QEMUArg :=
                       api.Commandline_QEMUArg cmd
                       ++ [ {| api.Arg_Value := "-netdev" |}; {| api.Arg_Value := value |} ] |}
  end.
Proof.
  unfold createSlirpNetwork. unfold bind at 1. unfold lift.
  destruct (configVMCIDR ext _ net) as [[arg1 [e|]]|]; [| |discriminate].
  { intros [= <- <-]. reflexivity. }
  unfold bind at 1. unfold configDNSSearchName. unfold bind at 1.
  destruct (GetResolvConfDetailsFromPod ext w) as [w1 [[[ns doms] [e|]]|]] eqn:Hres;
    [| |discriminate]; apply GetResolvConfDetailsFromPod_domain in Hres.
  { unfold ret. intros [= <- <-]. exact Hres. }
  unfold ret at 1.
  destruct (configPortForward _ iface) as [arg3 [e|]].
  { unfold ret. intros [= <- <-]. exact Hres. }
  unfold bind at 1.
  destruct (append_QEMUArg _ w1) as [w2 [[]|]] eqn:H1; [|discriminate].
  unfold bind at 1.
  destruct (append_QEMUArg arg3 w2) as [w3 [[]|]] eqn:H2; [|discriminate].
  unfold ret. intros [= <- <-].
  apply append_QEMUArg_domain in H1, H2.
  destruct H1 as [cmd [Hc [Hc1 _]]], H2 as [cmd2 [Hc2 [Hc3 _]]].
  rewrite Hc1 in Hc2. injection Hc2 as <-. simpl in Hc3.
  exists cmd, (api.Arg_Value arg3). rewrite Hres in Hc. split; [exact Hc|].
  rewrite Hc3, <- app_assoc. now destruct arg3.
Qed.

End Dispatcher.

(** C1.  Whenever [createDomainInterfaces] returns without an error (so
    network-type validation passed and every interface found its
    network), the aliases of the returned records are, in order, the
    names of the interfaces whose SR-IOV binding is not set: one record
    per such interface, in the relative order of the spec. *)
Theorem createDomainInterfaces_one_record_per_non_sriov {CPU : Type}
        (ext : Collaborators CPU) (vmi : v1.VirtualMachineInstance CPU)
        (c : ConverterContext) (virtioNetProhibited : bool) (w w' : World)
        (domainInterfaces : list api.Interface) :
  createDomainInterfaces ext vmi c virtioNetProhibited w
    = (w', Done (domainInterfaces, None)) ->
  let emitting := filter (fun iface => v1.Interface_SRIOV iface = None)
                         (v1.Spec_Domain_Devices_Interfaces vmi) in
  api.Interface_Alias <$> domainInterfaces
    = (fun iface => Some (api.NewUserDefinedAlias (v1.Interface_Name iface))) <$> emitting
  /\ length domainInterfaces = length emitting
  /\ validateNetworksTypes (v1.Spec_Networks vmi) = None.
Proof.
  intros H emitting. unfold createDomainInterfaces in H.
  destruct (validateNetworksTypes (v1.Spec_Networks vmi)); [discriminate|].
  apply createDomainInterfaces_loop_aliases in H. simpl in H.
  split; [exact H|]. split; [|reflexivity].
  apply (f_equal length) in H. now rewrite !length_fmap in H.
Qed.

(** *** Path segments, [strings.Split] *)

Section SplitProps.

Lemma Split_no_sep (s : string) (sep : ascii) :
  Go.Contains s sep = false -> Go.Split s sep = [s].
Proof.
  induction s as [|ch s IH]; simpl; [reflexivity|].
  intros H. apply orb_false_iff in H as [Hch Hs]. rewrite Hch, (IH Hs). reflexivity.
Qed.

Lemma Split_with_sep (s : string) (sep : ascii) :
  Go.Contains s sep = true ->
  (2 <= length (Go.Split s sep))%nat
  /\ Go.Contains (List.last (Go.Split s sep) "") sep = false
  /\ exists dir, s = (dir +:+ String sep "") +:+ List.last (Go.Split s sep) "".
Proof.
  induction s as [|ch s IH]; simpl; [discriminate|].
  destruct (Ascii.eqb_spec ch sep) as [->|Hne]; simpl.
  - intros _. destruct (Go.Contains s sep) eqn:Hs.
    + destruct (IH eq_refl) as [Hlen [Hlast [dir Hdir]]].
      destruct (Go.Split s sep) as [|p [|q l]] eqn:E; simpl in Hlen; try lia.
      split; [simpl; lia|]. split; [exact Hlast|].
      exists (String sep dir). rewrite !append_cons. f_equal. exact Hdir.
    + rewrite (Split_no_sep _ _ Hs). simpl. split; [lia|]. split; [exact Hs|].
      exists "". reflexivity.
  - intros Hs. destruct (IH Hs) as [Hlen [Hlast [dir Hdir]]].
    destruct (Go.Split s sep) as [|p [|q l]] eqn:E; simpl in Hlen; try lia.
    split; [simpl; lia|]. split; [exact Hlast|].
    exists (String ch dir). rewrite !append_cons. f_equal. exact Hdir.
Qed.

Lemma Split_length_one (s : string) (sep : ascii) :
  (length (Go.Split s sep) =? 1)%nat = negb (Go.Contains s sep).
Proof.
  destruct (Go.Contains s sep) eqn:Hs.
  - destruct (Split_with_sep _ _ Hs) as [Hlen _]. simpl. apply Nat.eqb_neq. lia.
  - now rewrite (Split_no_sep _ _ Hs).
Qed.

(** The last piece is the final path segment: it has no separator in
    it, and the path is the segment itself or a directory part ending
    in the separator followed by the segment. *)
Lemma Split_last_segment (s : string) (sep : ascii) :
  Go.Contains (List.last (Go.Split s sep) "") sep = false
  /\ (s = List.last (Go.Split s sep) ""
      \/ exists dir, s = (dir +:+ String sep "") +:+ List.last (Go.Split s sep) "").
Proof.
  destruct (Go.Contains s sep) eqn:Hs.
  - destruct (Split_with_sep _ _ Hs) as [_ [H1 H2]]. auto.
  - rewrite (Split_no_sep _ _ Hs). simpl. auto.
Qed.

End SplitProps.

(** *** The vhost-user socket resolver, [getVhostuserInfo] *)

Section VhostuserInfo.

Lemma getVhostuserInfo_in_ok entries ifaceName :
  snd (getVhostuserInfo_in entries ifaceName) = None
  <-> exists entry, In entry entries /\ vhostuserEntryFor ifaceName entry.
Proof.
  unfold vhostuserEntryFor.
  induction entries as [|x entries IH]; simpl.
  - split; [discriminate|]. intros [? [[] _]].
  - unfold netutil.DeviceInfoTypeVHostUser.
    destruct (String.eqb_spec (netutil.InterfaceData_DeviceType x) "vhost-user") as [Ht|Ht].
    + destruct (String.eqb_spec
                  (List.last (Go.Split (netutil.NetworkStatus_Name
                                          (netutil.InterfaceData_NetworkStatus x)) "/") "")
                  ifaceName) as [Hn|Hn].
      * simpl. split; [|reflexivity]. intros _. exists x. auto.
      * rewrite IH. split.
        -- intros [e [Hin He]]. exists e. auto.
        -- intros [e [[<-|Hin] [He1 He2]]]; [contradiction|]. exists e. auto.
    + rewrite IH. split.
      * intros [e [Hin He]]. exists e. auto.
      * intros [e [[<-|Hin] [He1 He2]]]; [contradiction|]. exists e. auto.
Qed.

Lemma getVhostuserInfo_ok ifaceName c :
  snd (getVhostuserInfo ifaceName c) = None
  <-> exists resp entry,
        PodNetInterfaces c = Some resp
        /\ In entry (netutil.InterfaceResponse_Interface resp)
        /\ vhostuserEntryFor ifaceName entry.
Proof.
  unfold getVhostuserInfo. destruct (PodNetInterfaces c) as [resp|]; simpl.
  - rewrite getVhostuserInfo_in_ok. split.
    + intros [e [H1 H2]]. exists resp, e. auto.
    + intros [r [e [[= <-] [H1 H2]]]]. exists e. auto.
  - split; [discriminate|]. intros [r [e [[=] _]]].
Qed.

End VhostuserInfo.

(** *** The arms of the dispatch *)

(** Runs a turn of the loop up to the dispatch on the binding, for an
    interface that finds its network, is not SR-IOV-bound and passes the
    checks. *)
Ltac through_checks ext vmi iface Hnet Hsriov Hvirtio Hpci w w1 :=
  unfold createDomainInterfaces_body;
  rewrite Hnet, Hsriov;
  unfold bind at 1;
  let Hd := fresh "Hd" in
  destruct (getInterfaceType_value iface w) as [w1 [-> Hd]];
  rewrite Hvirtio;
  unfold bind at 1;
  match goal with
  | |- context [if ?b then _ else _] =>
      let Hmq := fresh "Hmq" in destruct b eqn:Hmq
  end;
  [ let w2 := fresh "w2" in
    let Hq := fresh "Hq" in
    let Hd2 := fresh "Hd2" in
    unfold bind at 1;
    destruct (CalculateNetworkQueues_value ext vmi w1) as [w2 [Hq Hd2]];
    rewrite Hq; unfold ret at 1; rewrite Hd in Hd2
  | unfold ret at 1 ];
  (destruct Hpci as [Hpci|Hpci];
   [ rewrite Hpci, String.eqb_refl
   | destruct (negb (String.eqb (v1.Interface_PciAddress iface) ""));
     [ destruct (NewPciAddressField ext (v1.Interface_PciAddress iface)) as [? [?|]];
       [discriminate Hpci|]
     | ] ]);
  cbv beta iota delta [negb orb].

Section Arms.

Context {CPU : Type} (ext : Collaborators CPU).
Implicit Types (vmi : v1.VirtualMachineInstance CPU) (c : ConverterContext)
         (iface : v1.Interface) (w : World).

Lemma vhostuser_arm vmi c prohibited networks acc iface w net podName perr :
  networks !! v1.Interface_Name iface = Some net ->
  vhostuserBound iface ->
  passesChecks ext prohibited iface ->
  getPodInterfaceName vmi (v1.Interface_Name iface) = Done (podName, perr) ->
  exists w1 base,
    createDomainInterfaces_body ext vmi c prohibited networks acc iface w =
      (let w2 := if perr is Some _
                 then {| domain := domain w1; logs := logs w1 ++ [nicFailure iface] |}
                 else w1 in
       match getVhostuserInfo podName c with
       | (_, _, Some e) =>
           ({| domain := domain w2; logs := logs w2 ++ [infoFailure e] |},
            Done (Return ([], Some e)))
       | (vhostPath, vhostMode, None) =>
           (w2,
            Done (Next (acc ++ [
              api.set_Driver vhostuserDriver
                (api.set_Target
                   {| api.InterfaceTarget_Device := List.last (Go.Split vhostPath "/") "" |}
                   (api.set_Source
                      {| api.InterfaceSource_Type := "unix";
                         api.InterfaceSource_Path :=
                           if Go.Contains vhostPath "/" then vhostPath
                           else VhostuserSocketDir ext +:+ vhostPath;
                         api.InterfaceSource_Mode := vhostMode |}
                      (api.set_Type "vhostuser" base))) ])))
       end)
    /\ domain w1 = domain w
    /\ api.Interface_Alias base = aliasOf iface
    /\ api.Interface_Model base
       = Some {| api.Model_Type := translateModel ext c (effectiveModel iface) |}.
Proof.
  intros Hnet (Hsriov & Hb & Hm & Hs & Hmv & Hv) [Hvirtio Hpci] Hpod.
  destruct (v1.Interface_Vhostuser iface) as [u|] eqn:Hvu; [clear Hv|congruence].
  through_checks ext vmi iface Hnet Hsriov Hvirtio Hpci w w1.
  all: rewrite Hb, Hm, Hs, Hmv, Hvu; cbv beta iota delta [negb orb].
  all: unfold bind at 1, lift at 1; rewrite Hpod.
  all: do 2 eexists;
    (split;
     [ destruct perr; run_M;
       destruct (getVhostuserInfo podName c) as [[vhostPath vhostMode] [e'|]]; simpl;
       rewrite ?Split_length_one; try reflexivity;
       destruct (Go.Contains vhostPath "/"); reflexivity
     | split; [eassumption|split; reflexivity] ]).
Qed.

(** The record of an interface that is not SR-IOV-bound, when the
    turn of the loop ends with one: its alias, its model, and its
    driver, which the vhost-user arm replaces. *)
Lemma createDomainInterfaces_body_record vmi c prohibited networks acc iface w w' acc' :
  createDomainInterfaces_body ext vmi c prohibited networks acc iface w
    = (w', Done (Next acc')) ->
  v1.Interface_SRIOV iface = None ->
  exists d,
    acc' = acc ++ [d]
    /\ api.Interface_Alias d = aliasOf iface
    /\ api.Interface_Model d
       = Some {| api.Model_Type := translateModel ext c (effectiveModel iface) |}
    /\ (~ vhostuserBound iface ->
        api.Interface_Driver d =
          if String.eqb (effectiveModel iface) "virtio" && multiQueueRequested vmi
          then Some (vhostDriver (N.min (CalculateRequestedVCPUs ext (getCPUTopology ext vmi))
                                        (multiQueueMaxQueues ext)))
          else None)
    /\ (vhostuserBound iface -> api.Interface_Driver d = Some vhostuserDriver).
Proof.
  unfold createDomainInterfaces_body, multiQueueRequested. intros H Hsriov. revert H.
  destruct (networks !! v1.Interface_Name iface) as [net|]; [|discriminate].
  rewrite Hsriov.
  unfold bind at 1.
  destruct (getInterfaceType_value iface w) as [w1 [-> _]].
  destruct (String.eqb (effectiveModel iface) "virtio" && prohibited); [discriminate|].
  unfold bind at 1.
  destruct (CalculateNetworkQueues_value ext vmi w1) as [w2 [Hq _]].
  match goal with
  | |- context [if ?b then _ else _] => destruct b eqn:Hmq
  end.
  all: run_M; rewrite ?Hq.
  all: repeat match goal with
         | |- context [match ?x with _ => _ end] =>
             lazymatch x with
             | context [match _ with _ => _ end] => fail
             | _ => destruct x eqn:?
             end
         end.
  all: try discriminate.
  all: intros [= <- <-]; eexists; split; [reflexivity|].
  all: unfold bootOrderOrRom;
    repeat match goal with
           | |- context [match ?x with _ => _ end] => destruct x
           end; simpl.
  all: split; [reflexivity|]; split; [reflexivity|].
  all: split;
    [ intros Hnv; try reflexivity; exfalso; apply Hnv; unfold vhostuserBound;
      repeat split; congruence
    | intros (_ & ? & ? & ? & ? & ?); try reflexivity; exfalso; congruence ].
Qed.

End Arms.

Section MacvtapArm.

Context {CPU : Type} (ext : Collaborators CPU).
Implicit Types (vmi : v1.VirtualMachineInstance CPU) (c : ConverterContext)
         (iface : v1.Interface) (w : World).

Lemma macvtap_arm vmi c prohibited networks acc iface w net :
  networks !! v1.Interface_Name iface = Some net ->
  macvtapBound iface ->
  passesChecks ext prohibited iface ->
  exists w1 base,
    createDomainInterfaces_body ext vmi c prohibited networks acc iface w =
      (w1,
       match v1.Network_Multus net with
       | None => Done (Return ([], Some ("macvtap interface " +:+ v1.Interface_Name iface
                                         +:+ " requires Multus meta-cni")))
       | Some _ =>
           Done (Next (acc ++ [bootOrderOrRom iface (api.set_Type "ethernet" base)]))
       end)
    /\ domain w1 = domain w
    /\ api.Interface_BootOrder base = None
    /\ api.Interface_Rom base = None.
Proof.
  intros Hnet (Hsriov & Hb & Hm & Hs & Hv) [Hvirtio Hpci].
  destruct (v1.Interface_Macvtap iface) as [u|] eqn:Hmv; [clear Hv|congruence].
  through_checks ext vmi iface Hnet Hsriov Hvirtio Hpci w w1.
  all: rewrite Hb, Hm, Hs, Hmv; cbv beta iota delta [negb orb].
  all: do 2 eexists;
    (split; [destruct (v1.Network_Multus net); unfold ret; reflexivity
            |split; [eassumption|split; reflexivity]]).
Qed.

(** A failing check before the dispatch ends the turn with an error. *)
Lemma createDomainInterfaces_body_check_fails vmi c prohibited networks acc iface w net :
  networks !! v1.Interface_Name iface = Some net ->
  v1.Interface_SRIOV iface = None ->
  passesChecks ext prohibited iface
  \/ exists w' e, createDomainInterfaces_body ext vmi c prohibited networks acc iface w
                  = (w', Done (Return ([], Some e))).
Proof.
  intros Hnet Hsriov. unfold passesChecks.
  destruct (String.eqb (effectiveModel iface) "virtio" && prohibited) eqn:Hvirtio.
  - right. unfold createDomainInterfaces_body. rewrite Hnet, Hsriov. unfold bind at 1.
    destruct (getInterfaceType_value iface w) as [w1 [-> Hd]]. rewrite Hvirtio.
    unfold ret. eauto.
  - destruct (String.eqb_spec (v1.Interface_PciAddress iface) "") as [Hpci|Hpci]; [auto|].
    destruct (NewPciAddressField ext (v1.Interface_PciAddress iface)) as [addr [e|]] eqn:Hnew;
      [|auto].
    right. unfold createDomainInterfaces_body. rewrite Hnet, Hsriov. unfold bind at 1.
    destruct (getInterfaceType_value iface w) as [w1 [-> Hd]]. rewrite Hvirtio.
    apply String.eqb_neq in Hpci. rewrite Hpci, Hnew. cbv beta iota delta [negb].
    unfold bind at 1.
    match goal with
    | |- context [if ?b then _ else _] => destruct b
    end.
    + unfold bind at 1.
      destruct (CalculateNetworkQueues_value ext vmi w1) as [w2 [-> Hd2]].
      unfold ret. eauto.
    + unfold ret. eauto.
Qed.

End MacvtapArm.

(** C6, as the code has it.  For every slirp-bound interface whose
    requested model is neither e1000 nor rtl8139 (the unset model and
    virtio included) the effective model is e1000, the call completes,
    and exactly one line is written to the log, at severity info
    ([log.Log.Infof]); for every interface that is not slirp-bound the
    effective model is the explicit model when set and virtio when unset,
    and nothing is logged.  The record emitted for an interface carries
    as model type what [translateModel] makes of its effective model. *)
Theorem getInterfaceType_effective_model {CPU : Type} (ext : Collaborators CPU)
        (vmi : v1.VirtualMachineInstance CPU) (c : ConverterContext)
        (virtioNetProhibited : bool) (networks : gmap string v1.Network)
        (domainInterfaces acc' : list api.Interface) (iface : v1.Interface) (w w' : World) :
  (v1.Interface_Slirp iface <> None ->
   v1.Interface_Model iface <> "e1000" -> v1.Interface_Model iface <> "rtl8139" ->
   getInterfaceType iface w =
     ({| domain := domain w; logs := logs w ++ [downgradeNotice iface] |}, Done "e1000")
   /\ severity (downgradeNotice iface) = INFO)
  /\ (v1.Interface_Slirp iface = None ->
      getInterfaceType iface w =
        (w, Done (if String.eqb (v1.Interface_Model iface) "" then "virtio"
                  else v1.Interface_Model iface)))
  /\ (v1.Interface_SRIOV iface = None ->
      createDomainInterfaces_body ext vmi c virtioNetProhibited networks
                                  domainInterfaces iface w
        = (w', Done (Next acc')) ->
      exists d ifaceType w1,
        acc' = domainInterfaces ++ [d]
        /\ getInterfaceType iface w = (w1, Done ifaceType)
        /\ api.Interface_Model d
           = Some {| api.Model_Type := translateModel ext c ifaceType |}).
Proof.
  split; [|split].
  - intros Hs H1 H2. split; [|reflexivity].
    unfold getInterfaceType. destruct (v1.Interface_Slirp iface); [|congruence].
    apply String.eqb_neq in H1, H2. rewrite H1, H2. reflexivity.
  - intros Hs. unfold getInterfaceType. rewrite Hs.
    destruct (String.eqb (v1.Interface_Model iface) ""); reflexivity.
  - intros Hsriov Hbody.
    destruct (createDomainInterfaces_body_record ext vmi c virtioNetProhibited networks
                domainInterfaces iface w w' acc' Hbody Hsriov) as [d [Hacc [_ [Hmodel _]]]].
    destruct (getInterfaceType_value iface w) as [w1 [Hval _]].
    exists d, (effectiveModel iface), w1. auto.
Qed.

Lemma getInterfaceType_effective_model_witness :
  let iface := SampleHost.slirp "default" "virtio" [] in
  let spec := SampleHost.vmi [SampleHost.podNetwork "default"] [iface] None 1 in
  let run := createDomainInterfaces_body SampleHost.host spec SampleHost.noContext false
               (indexNetworksByName (v1.Spec_Networks spec)) [] iface SampleHost.world0 in
  let acc' := match snd run with Done (Next acc') => acc' | _ => [] end in
  (getInterfaceType iface SampleHost.world0 =
     ({| domain := SampleHost.emptyDomain; logs := [downgradeNotice iface] |}, Done "e1000")
   /\ severity (downgradeNotice iface) = INFO)
  /\ getInterfaceType (SampleHost.bridge "default" "") SampleHost.world0 =
       (SampleHost.world0, Done "virtio")
  /\ exists d, acc' = [d]
               /\ api.Interface_Model d = Some {| api.Model_Type := "e1000" |}.
Proof.
  intros iface spec run acc'.
  split; [|split].
  - apply (proj1 (getInterfaceType_effective_model
                    SampleHost.host spec SampleHost.noContext false ∅ [] [] iface
                    SampleHost.world0 SampleHost.world0));
      simpl; congruence.
  - apply (proj1 (proj2 (getInterfaceType_effective_model
                           SampleHost.host spec SampleHost.noContext false ∅ [] []
                           (SampleHost.bridge "default" "")
                           SampleHost.world0 SampleHost.world0))).
    reflexivity.
  - destruct (proj2 (proj2 (getInterfaceType_effective_model
                              SampleHost.host spec SampleHost.noContext false
                              (indexNetworksByName (v1.Spec_Networks spec)) [] acc' iface
                              SampleHost.world0 (fst run)))
                    eq_refl ltac:(vm_compute; reflexivity))
      as (d & ifaceType & w1 & Hacc & Hval & Hmodel).
    exists d. split; [exact Hacc|].
    injection Hval as _ <-. exact Hmodel.
Defined.

(** C6 as stated fails: the slirp-bound interface with model virtio is
    downgraded to e1000, and no line of severity warning is in the log
    afterwards. *)
Lemma getInterfaceType_logs_no_warning :
  let after := fst (getInterfaceType (SampleHost.slirp "default" "virtio" [])
                                     SampleHost.world0) in
  snd (getInterfaceType (SampleHost.slirp "default" "virtio" []) SampleHost.world0)
    = Done "e1000"
  /\ ~ (exists e, In e (logs after) /\ severity e = WARNING).
Proof.
  split; [reflexivity|].
  intros [e [[<-|[]] Hsev]]. discriminate Hsev.
Qed.

(** C7, as the code has it.  A macvtap-bound interface whose network has
    no Multus source (a pod network) makes the conversion fail, with
    [macvtap interface <name> requires Multus meta-cni] when nothing
    before the dispatch fails; on a network with a Multus source, marked
    default or not, and with the earlier checks passed, the record is
    emitted with type ethernet, the boot order when one is set, and the
    expansion ROM disabled when none is. *)
Theorem macvtap_requires_multus {CPU : Type} (ext : Collaborators CPU)
        (vmi : v1.VirtualMachineInstance CPU) (c : ConverterContext)
        (virtioNetProhibited : bool) (networks : gmap string v1.Network)
        (domainInterfaces : list api.Interface) (iface : v1.Interface)
        (net : v1.Network) (w : World) :
  networks !! v1.Interface_Name iface = Some net ->
  macvtapBound iface ->
  (v1.Network_Multus net = None ->
   exists w' e,
     createDomainInterfaces_body ext vmi c virtioNetProhibited networks
                                 domainInterfaces iface w
       = (w', Done (Return ([], Some e)))
     /\ (passesChecks ext virtioNetProhibited iface ->
         e = "macvtap interface " +:+ v1.Interface_Name iface +:+ " requires Multus meta-cni"))
  /\ (v1.Network_Multus net <> None ->
      passesChecks ext virtioNetProhibited iface ->
      exists w' d,
        createDomainInterfaces_body ext vmi c virtioNetProhibited networks
                                    domainInterfaces iface w
          = (w', Done (Next (domainInterfaces ++ [d])))
        /\ api.Interface_Type d = "ethernet"
        /\ api.Interface_BootOrder d
           = (order ← v1.Interface_BootOrder iface; Some {| api.BootOrder_Order := order |})
        /\ api.Interface_Rom d
           = (if v1.Interface_BootOrder iface is Some _ then None
              else Some {| api.Rom_Enabled := "no" |})).
Proof.
  intros Hnet Hbound. split.
  - intros Hmultus.
    destruct (createDomainInterfaces_body_check_fails
                ext vmi c virtioNetProhibited networks domainInterfaces iface w net
                Hnet (proj1 Hbound))
      as [Hchecks|[w' [e Hfail]]].
    + destruct (macvtap_arm ext vmi c virtioNetProhibited networks domainInterfaces
                            iface w net Hnet Hbound Hchecks) as [w1 [base [Hrun _]]].
      rewrite Hmultus in Hrun. exists w1. eexists. split; [exact Hrun|reflexivity].
    + exists w', e. split; [exact Hfail|]. intros Hchecks.
      destruct (macvtap_arm ext vmi c virtioNetProhibited networks domainInterfaces
                            iface w net Hnet Hbound Hchecks) as [w1 [base [Hrun _]]].
      rewrite Hmultus, Hfail in Hrun. congruence.
  - intros Hmultus Hchecks.
    destruct (macvtap_arm ext vmi c virtioNetProhibited networks domainInterfaces
                          iface w net Hnet Hbound Hchecks)
      as [w1 [base [Hrun [_ [Hboot Hrom]]]]].
    destruct (v1.Network_Multus net); [|congruence].
    exists w1. eexists. split; [exact Hrun|].
    unfold bootOrderOrRom. destruct (v1.Interface_BootOrder iface); simpl;
      rewrite ?Hboot, ?Hrom; repeat split.
Qed.

(** C7 as stated fails on a Multus network marked as default: it is not
    a secondary multi-network attachment, and the macvtap-bound interface
    on it is converted without an error. *)
Lemma macvtap_on_default_multus_succeeds :
  let net := SampleHost.multusNetwork "fast" true in
  let spec := SampleHost.vmi [net] [SampleHost.macvtap "fast" None] None 1 in
  isSecondaryMultusNetwork net = false
  /\ exists l, snd (createDomainInterfaces SampleHost.host spec SampleHost.noContext false
                                           SampleHost.world0)
               = Done (l, None)
               /\ api.Interface_Type <$> l = ["ethernet"].
Proof.
  split; [reflexivity|]. eexists. split; vm_compute; reflexivity.
Qed.

Section PodNameFailure.

Context {CPU : Type}.
Implicit Types (vmi : v1.VirtualMachineInstance CPU).

(** Every error return of [getPodInterfaceName] carries the empty
    name. *)
Lemma getPodInterfaceName_in_error_name vmi networks ifaceName podName e :
  getPodInterfaceName_in vmi networks ifaceName = Done (podName, Some e) -> podName = "".
Proof.
  induction networks as [|n networks IH]; simpl.
  - now intros [= <- _].
  - destruct (v1.Network_Pod n), (v1.Network_Multus n); try exact IH;
      (destruct (FindInterfaceByNetworkName vmi n) as [iface|]; [|discriminate];
       destruct (String.eqb (v1.Interface_Name iface) ifaceName); [|exact IH];
       destruct (ComposePodInterfaceName vmi n) as [? [?|]]; now intros [= <- _]).
Qed.

Lemma findMultusIndex_from_found networks : forall idx network,
  In network networks ->
  isSecondaryMultusNetwork network = true ->
  (idx < findMultusIndex_from idx networks network)%Z.
Proof.
  induction networks as [|n networks IH]; intros idx network Hin Hsec; [destruct Hin|].
  simpl. destruct (isSecondaryMultusNetwork n) eqn:Hn.
  - destruct (String.eqb_spec (v1.Network_Name n) (v1.Network_Name network)) as [E|E]; [lia|].
    destruct Hin as [->|Hin]; [contradiction|].
    specialize (IH (idx + 1)%Z network Hin Hsec). lia.
  - destruct Hin as [->|Hin]; [congruence|]. now apply IH.
Qed.

Lemma ComposePodInterfaceName_declared vmi network :
  In network (v1.Spec_Networks vmi) -> snd (ComposePodInterfaceName vmi network) = None.
Proof.
  intros Hin. unfold ComposePodInterfaceName, findMultusIndex.
  destruct (isSecondaryMultusNetwork network) eqn:Hsec; [|reflexivity].
  pose proof (findMultusIndex_from_found _ 0%Z network Hin Hsec).
  destruct (Z.eqb_spec (findMultusIndex_from 0 (v1.Spec_Networks vmi) network) (-1));
    [lia|reflexivity].
Qed.

Lemma validateNetworksTypes_typed networks :
  validateNetworksTypes networks = None ->
  forall network, In network networks -> hasNetworkType network = true.
Proof.
  unfold hasNetworkType.
  induction networks as [|n networks IH]; simpl; intros Hv network Hin; [destruct Hin|].
  destruct Hin as [<-|Hin].
  - destruct (v1.Network_Pod n), (v1.Network_Multus n); congruence.
  - destruct (v1.Network_Pod n), (v1.Network_Multus n); try discriminate; now apply IH.
Qed.

Lemma indexNetworksByName_declared networks : forall (index : gmap string v1.Network) name net,
  foldl (fun netsByName network => <[v1.Network_Name network := network]> netsByName)
        index networks !! name = Some net ->
  index !! name = Some net \/ (In net networks /\ v1.Network_Name net = name).
Proof.
  induction networks as [|n networks IH]; intros index name net; simpl; [auto|].
  intros H. apply IH in H. destruct H as [H|[H1 H2]]; [|auto].
  destruct (decide (v1.Network_Name n = name)) as [E|E].
  - rewrite E, lookup_insert_eq in H. injection H as <-. auto.
  - rewrite lookup_insert_ne in H by exact E. auto.
Qed.

(** After a successful validation [getPodInterfaceName] does not return
    an error for a name the network index resolves: it answers or it
    does not return. *)
Lemma getPodInterfaceName_no_error_after_validation vmi ifaceName net :
  validateNetworksTypes (v1.Spec_Networks vmi) = None ->
  indexNetworksByName (v1.Spec_Networks vmi) !! ifaceName = Some net ->
  forall podName e, getPodInterfaceName vmi ifaceName <> Done (podName, Some e).
Proof.
  intros Hval Hidx podName e. unfold getPodInterfaceName.
  pose proof (validateNetworksTypes_typed _ Hval) as Htyped.
  apply indexNetworksByName_declared in Hidx.
  destruct Hidx as [Hidx|Hdecl]; [now rewrite lookup_empty in Hidx|].
  assert (Hsub : forall n, In n (v1.Spec_Networks vmi) -> In n (v1.Spec_Networks vmi)) by auto.
  revert Hsub Hdecl. generalize (v1.Spec_Networks vmi) at 1 3 4.
  induction l as [|n l IH]; intros Hsub [Hin Hname]; [destruct Hin|].
  simpl.
  assert (Hn : hasNetworkType n = true) by (apply Htyped, Hsub; now left).
  assert (Hstep :
            match FindInterfaceByNetworkName vmi n with
            | Some iface =>
                if String.eqb (v1.Interface_Name iface) ifaceName
                then let '(podIfaceName, err) := ComposePodInterfaceName vmi n in
                     match err with
                     | Some e => Done ("", Some e)
                     | None => Done (podIfaceName, None)
                     end
                else getPodInterfaceName_in vmi l ifaceName
            | None => Panic nilDeref
            end <> Done (podName, Some e)).
  { unfold FindInterfaceByNetworkName.
    destruct (FindInterfaceByNetworkName_in (v1.Spec_Domain_Devices_Interfaces vmi) n)
      as [iface|] eqn:Hfind; [|discriminate].
    destruct (String.eqb_spec (v1.Interface_Name iface) ifaceName) as [E|E].
    - pose proof (ComposePodInterfaceName_declared vmi n (Hsub n (or_introl eq_refl))) as Hc.
      destruct (ComposePodInterfaceName vmi n) as [p [err|]]; [discriminate Hc|discriminate].
    - apply IH; [intros m Hm; apply Hsub; now right|].
      destruct Hin as [->|Hin]; [|auto].
      exfalso. apply E. rewrite <- Hname.
      clear -Hfind. induction (v1.Spec_Domain_Devices_Interfaces vmi) as [|x xs IHx];
        simpl in Hfind; [discriminate|].
      destruct (String.eqb_spec (v1.Interface_Name x) (v1.Network_Name net)) as [Ex|Ex];
        [now injection Hfind as <-|now apply IHx]. }
  unfold hasNetworkType in Hn.
  destruct (v1.Network_Pod n), (v1.Network_Multus n); try discriminate; exact Hstep.
Qed.

End PodNameFailure.

(** C3.  For a vhost-user-bound interface whose network is declared,
    with the checks before the dispatch passed and the device-info lookup
    for its pod interface name successful, the record is emitted with
    type vhostuser, target device the final segment of the reported
    socket path, source of kind unix whose path is the reported path when
    it contains a slash and the socket directory followed by it when it
    does not, the reported mode, and a driver with receive and transmit
    queue sizes 1024; the path /var/run/vhu/vhu1.sock gives the device
    vhu1.sock and is kept as the source path. *)
Theorem vhostuser_record_fields {CPU : Type} (ext : Collaborators CPU)
        (vmi : v1.VirtualMachineInstance CPU) (c : ConverterContext)
        (virtioNetProhibited : bool) (networks : gmap string v1.Network)
        (domainInterfaces : list api.Interface) (iface : v1.Interface)
        (net : v1.Network) (w : World)
        (podInterfaceName : string) (podErr : option error) (vhostPath vhostMode : string) :
  networks !! v1.Interface_Name iface = Some net ->
  vhostuserBound iface ->
  passesChecks ext virtioNetProhibited iface ->
  getPodInterfaceName vmi (v1.Interface_Name iface) = Done (podInterfaceName, podErr) ->
  getVhostuserInfo podInterfaceName c = (vhostPath, vhostMode, None) ->
  exists w' d vhostDevice,
    createDomainInterfaces_body ext vmi c virtioNetProhibited networks
                                domainInterfaces iface w
      = (w', Done (Next (domainInterfaces ++ [d])))
    /\ api.Interface_Type d = "vhostuser"
    /\ api.Interface_Target d = Some {| api.InterfaceTarget_Device := vhostDevice |}
    /\ Go.Contains vhostDevice "/" = false
    /\ (vhostPath = vhostDevice \/ exists dir, vhostPath = (dir +:+ "/") +:+ vhostDevice)
    /\ api.Interface_Source d =
         {| api.InterfaceSource_Type := "unix";
            api.InterfaceSource_Path :=
              if Go.Contains vhostPath "/" then vhostPath
              else VhostuserSocketDir ext +:+ vhostPath;
            api.InterfaceSource_Mode := vhostMode |}
    /\ api.Interface_Driver d =
         Some {| api.InterfaceDriver_Name := "";
                 api.InterfaceDriver_Queues := None;
                 api.InterfaceDriver_RxQueueSize := Some 1024%N;
                 api.InterfaceDriver_TxQueueSize := Some 1024%N |}
    /\ (vhostPath = "/var/run/vhu/vhu1.sock" ->
        vhostDevice = "vhu1.sock"
        /\ api.InterfaceSource_Path (api.Interface_Source d) = "/var/run/vhu/vhu1.sock").
Proof.
  intros Hnet Hbound Hchecks Hpod Hinfo.
  destruct (vhostuser_arm ext vmi c virtioNetProhibited networks domainInterfaces iface w net
                          podInterfaceName podErr Hnet Hbound Hchecks Hpod)
    as [w1 [base [Hrun _]]].
  rewrite Hinfo in Hrun. cbv zeta in Hrun.
  eexists. eexists. exists (List.last (Go.Split vhostPath "/") "").
  split; [exact Hrun|].
  destruct (Split_last_segment vhostPath "/") as [Hseg Hdir].
  repeat (split; [first [reflexivity|assumption]|]).
  intros ->. split; reflexivity.
Qed.

(** C5, as the code has it.  When the effective model is virtio,
    multi-queue is requested and a record is emitted for an interface
    that is not vhost-user-bound, the record's driver has backend name
    vhost and as queue count the requested vCPU count capped at the
    tap-device maximum, 8 for a request of 64 with maximum 8; for a
    vhost-user-bound interface the driver is the one with the two fixed
    queue sizes, without backend name or queue count. *)
Theorem virtio_multiqueue_driver {CPU : Type} (ext : Collaborators CPU)
        (vmi : v1.VirtualMachineInstance CPU) (c : ConverterContext)
        (virtioNetProhibited : bool) (networks : gmap string v1.Network)
        (domainInterfaces acc' : list api.Interface) (iface : v1.Interface)
        (w w' : World) :
  effectiveModel iface = "virtio" ->
  multiQueueRequested vmi = true ->
  v1.Interface_SRIOV iface = None ->
  createDomainInterfaces_body ext vmi c virtioNetProhibited networks
                              domainInterfaces iface w
    = (w', Done (Next acc')) ->
  let requested := CalculateRequestedVCPUs ext (getCPUTopology ext vmi) in
  exists d,
    acc' = domainInterfaces ++ [d]
    /\ (~ vhostuserBound iface ->
        api.Interface_Driver d =
          Some {| api.InterfaceDriver_Name := "vhost";
                  api.InterfaceDriver_Queues :=
                    Some (N.min requested (multiQueueMaxQueues ext));
                  api.InterfaceDriver_RxQueueSize := None;
                  api.InterfaceDriver_TxQueueSize := None |}
        /\ (requested = 64%N -> multiQueueMaxQueues ext = 8%N ->
            api.InterfaceDriver_Queues <$> api.Interface_Driver d = Some (Some 8%N)))
    /\ (vhostuserBound iface -> api.Interface_Driver d = Some vhostuserDriver).
Proof.
  intros Hvirtio Hmq Hsriov Hbody requested.
  destruct (createDomainInterfaces_body_record ext vmi c virtioNetProhibited networks
              domainInterfaces iface w w' acc' Hbody Hsriov)
    as [d [Hacc [_ [_ [Hdrv Hvh]]]]].
  exists d. split; [exact Hacc|]. split; [|exact Hvh].
  intros Hnv. specialize (Hdrv Hnv). rewrite Hvirtio, Hmq in Hdrv. simpl in Hdrv.
  split; [exact Hdrv|].
  intros Hreq Hmax. rewrite Hdrv. subst requested. simpl. now rewrite Hreq, Hmax.
Qed.

(** C5 as stated fails on a vhost-user-bound interface: its effective
    model is virtio, multi-queue is requested and virtio emulation is not
    prohibited, and the emitted record's driver has no backend name and
    no queue count. *)
Lemma vhostuser_driver_is_not_vhost :
  let iface := SampleHost.vhostuser "fast" "" in
  let spec := SampleHost.vmi [SampleHost.multusNetwork "fast" false] [iface] (Some true) 64 in
  let ctx := SampleHost.context
               [SampleHost.vhostEntry "ns/net1" "/var/run/vhu/vhu1.sock" "server"] in
  effectiveModel iface = "virtio"
  /\ multiQueueRequested spec = true
  /\ exists d, snd (createDomainInterfaces (SampleHost.collaborators 8) spec ctx false
                                           SampleHost.world0)
               = Done ([d], None)
               /\ api.InterfaceDriver_Name <$> api.Interface_Driver d <> Some "vhost"
               /\ api.InterfaceDriver_Queues <$> api.Interface_Driver d <> Some (Some 8%N).
Proof.
  split; [reflexivity|]. split; [reflexivity|].
  eexists. split; [vm_compute; reflexivity|]. split; discriminate.
Qed.

(** C8, as the code has it.  A failed network-type validation returns
    the nil slice and the error and changes nothing.  Whenever
    [createDomainInterfaces] returns an error, the slice returned with it
    is nil.  The first turn of the loop that returns ends the call with
    what it returns, whatever interfaces follow.  A call of
    [createSlirpNetwork] that returns an error leaves the domain as it
    found it. *)
Theorem createDomainInterfaces_error_returns_nil {CPU : Type} (ext : Collaborators CPU)
        (vmi : v1.VirtualMachineInstance CPU) (c : ConverterContext)
        (virtioNetProhibited : bool) (w : World) :
  (forall e, validateNetworksTypes (v1.Spec_Networks vmi) = Some e ->
             createDomainInterfaces ext vmi c virtioNetProhibited w = (w, Done ([], Some e)))
  /\ (forall w' l e,
        createDomainInterfaces ext vmi c virtioNetProhibited w = (w', Done (l, Some e)) ->
        l = [])
  /\ (forall before iface after w1 acc1 w2 res,
        validateNetworksTypes (v1.Spec_Networks vmi) = None ->
        v1.Spec_Domain_Devices_Interfaces vmi = before ++ iface :: after ->
        createDomainInterfaces_loop ext vmi c virtioNetProhibited
                                    (indexNetworksByName (v1.Spec_Networks vmi)) [] before w
          = (w1, Done (acc1, None)) ->
        createDomainInterfaces_body ext vmi c virtioNetProhibited
                                    (indexNetworksByName (v1.Spec_Networks vmi)) acc1 iface w1
          = (w2, Done (Return res)) ->
        createDomainInterfaces ext vmi c virtioNetProhibited w = (w2, Done res)
        /\ res.1 = [] /\ res.2 <> None)
  /\ (forall iface net w' e,
        createSlirpNetwork ext iface net w = (w', Done (Some e)) -> domain w' = domain w).
Proof.
  split; [|split; [|split]].
  - intros e He. unfold createDomainInterfaces. now rewrite He.
  - intros w' l e. unfold createDomainInterfaces.
    destruct (validateNetworksTypes (v1.Spec_Networks vmi)).
    + now intros [= _ <- _].
    + apply createDomainInterfaces_loop_error.
  - intros before iface after w1 acc1 w2 res Hval Hifaces Hloop Hbody.
    unfold createDomainInterfaces. rewrite Hval, Hifaces.
    split; [now apply (createDomainInterfaces_loop_abort ext vmi c _ _ _ _ _ _ _ w1 acc1)|].
    exact (createDomainInterfaces_body_shape ext _ _ _ _ _ _ _ _ _ Hbody).
  - intros iface net w' e H.
    exact (createSlirpNetwork_domain ext iface net w w' (Some e) H).
Qed.

(** C8 as stated fails: the second interface has no network, the call
    returns only that error, and the [-netdev] pair appended for the
    slirp-bound interface before it is still in the domain. *)
Lemma createDomainInterfaces_error_keeps_netdev :
  let spec := SampleHost.vmi [SampleHost.podNetwork "default"]
                             [SampleHost.slirp "default" "e1000" [];
                              SampleHost.bridge "nonet" ""] None 1 in
  let before := {| domain := SampleHost.allocateQEMUCmd SampleHost.emptyDomain; logs := [] |} in
  let run := createDomainInterfaces SampleHost.host spec SampleHost.noContext false before in
  snd run = Done ([], Some "failed to find network nonet")
  /\ api.DomainSpec_QEMUCmd (api.Domain_Spec (domain before))
     = Some {| api.Commandline_QEMUArg := [] |}
  /\ api.DomainSpec_QEMUCmd (api.Domain_Spec (domain (fst run)))
     = Some {| api.Commandline_QEMUArg :=
                 [ {| api.Arg_Value := "-netdev" |};
                   {| api.Arg_Value :=
                        "user,id=default,net=10.0.2.0/24,dnssearch=svc.cluster.local" |} ] |}
  /\ domain (fst run) <> domain before.
Proof.
  repeat split; try (vm_compute; reflexivity). vm_compute. discriminate.
Qed.


(** C10 on the code.  With a declared pod network that is the network of
    no interface, [getPodInterfaceName] reads [iface.Name] through the
    nil pointer [FindInterfaceByNetworkName] returned: the call neither
    returns a name nor an error, and the conversion of the vhost-user-
    bound interface of the spec ends the same way. *)
Theorem getPodInterfaceName_nil_dereference :
  let spec := SampleHost.vmi [SampleHost.podNetwork "default";
                              SampleHost.multusNetwork "fast" false]
                             [SampleHost.vhostuser "fast" ""] None 1 in
  validateNetworksTypes (v1.Spec_Networks spec) = None
  /\ FindInterfaceByNetworkName spec (SampleHost.podNetwork "default") = None
  /\ getPodInterfaceName spec "fast" = Panic nilDeref
  /\ snd (createDomainInterfaces
            SampleHost.host spec
            (SampleHost.context
               [SampleHost.vhostEntry "ns/net1" "/var/run/vhu/vhu1.sock" "server"])
            false SampleHost.world0)
     = Panic nilDeref.
Proof.
  repeat split; vm_compute; reflexivity.
Qed.

(** *** The properties on concrete specs *)

Lemma createDomainInterfaces_one_record_per_non_sriov_witness :
  let spec := SampleHost.vmi [SampleHost.podNetwork "default";
                              SampleHost.multusNetwork "sr" false;
                              SampleHost.multusNetwork "fast" false]
                             [SampleHost.bridge "default" ""; SampleHost.sriov "sr";
                              SampleHost.macvtap "fast" None] None 1 in
  let run := createDomainInterfaces SampleHost.host spec SampleHost.noContext false
                                    SampleHost.world0 in
  let l := match snd run with Done (l, _) => l | Panic _ => [] end in
  run = (fst run, Done (l, None))
  /\ api.Interface_Alias <$> l
     = [Some (api.NewUserDefinedAlias "default"); Some (api.NewUserDefinedAlias "fast")]
  /\ length l = 2%nat.
Proof.
  intros spec run l.
  assert (H : run = (fst run, Done (l, None))) by (vm_compute; reflexivity).
  split; [exact H|].
  destruct (createDomainInterfaces_one_record_per_non_sriov
              SampleHost.host spec SampleHost.noContext false SampleHost.world0
              (fst run) l H) as [Ha [Hl _]].
  split; [exact Ha|exact Hl].
Defined.

Lemma pod_interface_name_is_ordinal_witness :
  let red := SampleHost.multusNetwork "red" false in
  let spec := SampleHost.vmi [SampleHost.podNetwork "default";
                              SampleHost.multusNetwork "mgmt" true;
                              SampleHost.multusNetwork "blue" false; red]
                             [SampleHost.bridge "default" ""; SampleHost.bridge "mgmt" "";
                              SampleHost.bridge "blue" ""; SampleHost.bridge "red" ""]
                             None 1 in
  ComposePodInterfaceName spec (SampleHost.multusNetwork "mgmt" true) = ("eth0", None)
  /\ ComposePodInterfaceName spec red = ("net2", None)
  /\ getPodInterfaceName spec "red" = Done ("net2", None).
Proof.
  intros red spec.
  split; [|split].
  - exact (proj1 (pod_interface_name_is_ordinal spec (SampleHost.multusNetwork "mgmt" true) 1)
                 eq_refl).
  - apply (proj1 (proj2 (pod_interface_name_is_ordinal spec red 3))); [reflexivity..|].
    intros [|[|[|j]]] other Hj Hl Hs; simpl in Hl; [injection Hl as <-; discriminate..|lia].
  - apply (proj2 (proj2 (pod_interface_name_is_ordinal spec red 3))); [reflexivity..| |].
    + intros [|[|[|j]]] other Hj Hl Hs; simpl in Hl; [injection Hl as <-; discriminate..|lia].
    + intros [|[|[|[|j]]]] other Hj Hl Hs; simpl in Hl; [injection Hl as <-..|lia];
        [ exists (SampleHost.bridge "default" "") | exists (SampleHost.bridge "mgmt" "")
        | exists (SampleHost.bridge "blue" "") | exists (SampleHost.bridge "red" "") ];
        (split; [simpl; tauto|reflexivity]).
Defined.

Lemma vhostuser_record_fields_witness :
  let iface := SampleHost.vhostuser "fast" "" in
  let spec := SampleHost.vmi [SampleHost.multusNetwork "fast" false] [iface] None 1 in
  let ctx := SampleHost.context
               [SampleHost.vhostEntry "ns/net1" "/var/run/vhu/vhu1.sock" "server"] in
  exists w' d,
    createDomainInterfaces_body SampleHost.host spec ctx false
      (indexNetworksByName (v1.Spec_Networks spec)) [] iface SampleHost.world0
      = (w', Done (Next [d]))
    /\ api.Interface_Target d = Some {| api.InterfaceTarget_Device := "vhu1.sock" |}
    /\ api.Interface_Source d =
         {| api.InterfaceSource_Type := "unix";
            api.InterfaceSource_Path := "/var/run/vhu/vhu1.sock";
            api.InterfaceSource_Mode := "server" |}
    /\ api.Interface_Driver d = Some vhostuserDriver.
Proof.
  intros iface spec ctx.
  destruct (vhostuser_record_fields
              SampleHost.host spec ctx false (indexNetworksByName (v1.Spec_Networks spec))
              [] iface (SampleHost.multusNetwork "fast" false) SampleHost.world0
              "net1" None "/var/run/vhu/vhu1.sock" "server")
    as (w' & d & dev & Hrun & _ & Htarget & _ & _ & Hsource & Hdriver & Hexample).
  - vm_compute; reflexivity.
  - repeat split; first [reflexivity|discriminate].
  - split; [reflexivity|left; reflexivity].
  - vm_compute; reflexivity.
  - reflexivity.
  - exists w', d. split; [exact Hrun|].
    destruct (Hexample eq_refl) as [-> _].
    split; [exact Htarget|]. split; [exact Hsource|exact Hdriver].
Defined.

Lemma configPortForward_first_seen_witness :
  let arg := {| api.Arg_Value := "user,id=default" |} in
  let port p n := {| v1.Port_Protocol := p; v1.Port_Port := n |} in
  configPortForward arg (SampleHost.slirp "default" "e1000"
                           [port "UDP" 53%N; port "" 80%N; port "UDP" 53%N; port "TCP" 80%N])
    = ({| api.Arg_Value := "user,id=default,hostfwd=udp::53-:53,hostfwd=tcp::80-:80" |}, None)
  /\ snd (configPortForward arg (SampleHost.slirp "default" "e1000"
                                   [port "" 80%N; port "TCP" 0%N]))
     = Some "Port must be configured"
  /\ configPortForward arg (SampleHost.slirp "default" "e1000"
                              [port "" 80%N; port "TCP" 80%N])
     = ({| api.Arg_Value := "user,id=default,hostfwd=tcp::80-:80" |}, None).
Proof.
  intros arg port. split; [|split].
  - exact (proj1 (proj2 (configPortForward_first_seen arg
             (SampleHost.slirp "default" "e1000"
                [port "UDP" 53%N; port "" 80%N; port "UDP" 53%N; port "TCP" 80%N])))
             ltac:(repeat constructor; discriminate)).
  - exact (proj1 (proj2 (proj2 (proj2 (proj2 (configPortForward_first_seen arg
             (SampleHost.slirp "default" "e1000" [port "" 80%N; port "TCP" 0%N]))))))
             ltac:(right; left; reflexivity)).
  - exact (proj2 (proj2 (proj2 (proj2 (proj2 (configPortForward_first_seen arg
             (SampleHost.slirp "default" "e1000" [port "" 80%N; port "TCP" 80%N]))))))
             eq_refl).
Defined.

Lemma virtio_multiqueue_driver_witness :
  let iface := SampleHost.bridge "default" "" in
  let spec := SampleHost.vmi [SampleHost.podNetwork "default"] [iface] (Some true) 64 in
  let run := createDomainInterfaces_body (SampleHost.collaborators 8) spec SampleHost.noContext
               false (indexNetworksByName (v1.Spec_Networks spec)) [] iface
               SampleHost.world0 in
  let acc' := match snd run with Done (Next acc') => acc' | _ => [] end in
  exists d, acc' = [d] /\ api.Interface_Driver d = Some (vhostDriver 8).
Proof.
  intros iface spec run acc'.
  destruct (virtio_multiqueue_driver
              (SampleHost.collaborators 8) spec SampleHost.noContext false
              (indexNetworksByName (v1.Spec_Networks spec)) [] acc' iface
              SampleHost.world0 (fst run))
    as [d [Hacc [Hdriver _]]].
  - reflexivity.
  - reflexivity.
  - reflexivity.
  - vm_compute; reflexivity.
  - exists d. split; [exact Hacc|].
    apply Hdriver. intros (_ & _ & _ & _ & _ & Hv). apply Hv. reflexivity.
Defined.

Lemma macvtap_requires_multus_witness :
  let iface := SampleHost.macvtap "fast" (Some 1%N) in
  (exists w',
     createDomainInterfaces_body SampleHost.host
       (SampleHost.vmi [SampleHost.podNetwork "fast"] [iface] None 1) SampleHost.noContext
       false (indexNetworksByName [SampleHost.podNetwork "fast"]) [] iface SampleHost.world0
     = (w', Done (Return ([], Some "macvtap interface fast requires Multus meta-cni"))))
  /\ (exists w' d,
        createDomainInterfaces_body SampleHost.host
          (SampleHost.vmi [SampleHost.multusNetwork "fast" false] [iface] None 1)
          SampleHost.noContext false
          (indexNetworksByName [SampleHost.multusNetwork "fast" false]) [] iface
          SampleHost.world0
        = (w', Done (Next [d]))
        /\ api.Interface_Type d = "ethernet"
        /\ api.Interface_BootOrder d = Some {| api.BootOrder_Order := 1 |}
        /\ api.Interface_Rom d = None).
Proof.
  intros iface.
  assert (Hbound : macvtapBound iface)
    by (repeat split; first [reflexivity|discriminate]).
  assert (Hchecks : passesChecks SampleHost.host false iface)
    by (split; [reflexivity|left; reflexivity]).
  split.
  - destruct (proj1 (macvtap_requires_multus
                       SampleHost.host
                       (SampleHost.vmi [SampleHost.podNetwork "fast"] [iface] None 1)
                       SampleHost.noContext false
                       (indexNetworksByName [SampleHost.podNetwork "fast"]) [] iface
                       (SampleHost.podNetwork "fast") SampleHost.world0
                       ltac:(vm_compute; reflexivity) Hbound) eq_refl)
      as [w' [e [Hrun He]]].
    exists w'. rewrite (He Hchecks) in Hrun. exact Hrun.
  - apply (proj2 (macvtap_requires_multus
                    SampleHost.host
                    (SampleHost.vmi [SampleHost.multusNetwork "fast" false] [iface] None 1)
                    SampleHost.noContext false
                    (indexNetworksByName [SampleHost.multusNetwork "fast" false]) [] iface
                    (SampleHost.multusNetwork "fast" false) SampleHost.world0
                    ltac:(vm_compute; reflexivity) Hbound)).
    + discriminate.
    + exact Hchecks.
Defined.

Lemma createDomainInterfaces_error_returns_nil_witness :
  let both := {| v1.Network_Name := "net1";
                 v1.Network_Pod := Some {| v1.PodNetwork_VMNetworkCIDR := "" |};
                 v1.Network_Multus := Some {| v1.MultusNetwork_Default := false |} |} in
  let invalid := SampleHost.vmi [both] [SampleHost.bridge "net1" ""] None 1 in
  let spec := SampleHost.vmi [SampleHost.podNetwork "default"]
                             [SampleHost.slirp "default" "e1000" [];
                              SampleHost.bridge "nonet" ""] None 1 in
  let run := createDomainInterfaces SampleHost.host spec SampleHost.noContext false
                                    SampleHost.world0 in
  let zero := SampleHost.slirp "default" "e1000"
                [ {| v1.Port_Protocol := "TCP"; v1.Port_Port := 0 |} ] in
  let before := {| domain := SampleHost.allocateQEMUCmd SampleHost.emptyDomain; logs := [] |} in
  createDomainInterfaces SampleHost.host invalid SampleHost.noContext false SampleHost.world0
    = (SampleHost.world0, Done ([], Some "network net1 must have only one network type"))
  /\ match snd run with Done (l, _) => l | Panic _ => [] end = []
  /\ run = (fst run, Done ([], Some "failed to find network nonet"))
  /\ domain (fst (createSlirpNetwork SampleHost.host zero (SampleHost.podNetwork "default")
                                     before))
     = domain before.
Proof.
  intros both invalid spec run zero before.
  split; [|split; [|split]].
  - apply (proj1 (createDomainInterfaces_error_returns_nil
                    SampleHost.host invalid SampleHost.noContext false SampleHost.world0)).
    reflexivity.
  - apply (proj1 (proj2 (createDomainInterfaces_error_returns_nil
                           SampleHost.host spec SampleHost.noContext false SampleHost.world0))
             (fst run) _ "failed to find network nonet").
    vm_compute; reflexivity.
  - apply (proj1 (proj2 (proj2 (createDomainInterfaces_error_returns_nil
                                  SampleHost.host spec SampleHost.noContext false
                                  SampleHost.world0)))
             [SampleHost.slirp "default" "e1000" []] (SampleHost.bridge "nonet" "") []
             (fst run)
             (match snd (createDomainInterfaces_loop
                           SampleHost.host spec SampleHost.noContext false
                           (indexNetworksByName (v1.Spec_Networks spec)) []
                           [SampleHost.slirp "default" "e1000" []] SampleHost.world0) with
              | Done (l, _) => l
              | Panic _ => []
              end)
             (fst run) ([], Some "failed to find network nonet"));
      vm_compute; reflexivity.
  - apply (proj2 (proj2 (proj2 (createDomainInterfaces_error_returns_nil
                                  SampleHost.host spec SampleHost.noContext false before)))
             zero (SampleHost.podNetwork "default") _ "Port must be configured").
    vm_compute; reflexivity.
Defined.

(** ** Further properties of the converter *)

(** *** Validation and index of the networks *)

Lemma validateNetworksTypes_ok_iff (networks : list v1.Network) :
  validateNetworksTypes networks = None <-> Forall hasOneNetworkType networks.
Proof.
  unfold hasOneNetworkType. induction networks as [|n networks IH]; simpl.
  - split; [constructor|reflexivity].
  - destruct (v1.Network_Pod n) eqn:Hp, (v1.Network_Multus n) eqn:Hm.
    + split; [discriminate|]. inversion 1 as [|? ? [[_ H0]|[H0 _]]]; congruence.
    + rewrite IH. split.
      * intros H. constructor; [|exact H]. rewrite Hp, Hm. left. split; congruence.
      * now inversion 1.
    + rewrite IH. split.
      * intros H. constructor; [|exact H]. rewrite Hp, Hm. right. split; congruence.
      * now inversion 1.
    + split; [discriminate|]. inversion 1 as [|? ? [[H0 _]|[_ H0]]]; congruence.
Qed.

(** X1.  [validateNetworksTypes] accepts a network list exactly when
    every network has one and only one of the pod and Multus sources
    set; otherwise its error names the first network that has not, and
    says whether that one has both sources or none. *)
Theorem validateNetworksTypes_first_offender
        (before after : list v1.Network) (network : v1.Network) :
  (forall networks,
     validateNetworksTypes networks = None <-> Forall hasOneNetworkType networks)
  /\ (Forall hasOneNetworkType before ->
      v1.Network_Pod network <> None -> v1.Network_Multus network <> None ->
      validateNetworksTypes (before ++ network :: after)
        = Some ("network " +:+ v1.Network_Name network
                +:+ " must have only one network type"))
  /\ (Forall hasOneNetworkType before ->
      v1.Network_Pod network = None -> v1.Network_Multus network = None ->
      validateNetworksTypes (before ++ network :: after)
        = Some ("network " +:+ v1.Network_Name network +:+ " must have a network type")).
Proof.
  split; [exact validateNetworksTypes_ok_iff|].
  assert (Hskip : forall rest,
             Forall hasOneNetworkType before ->
             validateNetworksTypes (before ++ rest) = validateNetworksTypes rest).
  { intros rest. induction 1 as [|n l [[Hp Hm]|[Hp Hm]] _ IH]; [reflexivity| |]; simpl;
      destruct (v1.Network_Pod n), (v1.Network_Multus n); congruence. }
  split; intros Hb Hp Hm; rewrite (Hskip _ Hb); simpl;
    destruct (v1.Network_Pod network), (v1.Network_Multus network); congruence.
Qed.

Lemma validateNetworksTypes_first_offender_witness :
  let both := {| v1.Network_Name := "net1";
                 v1.Network_Pod := Some {| v1.PodNetwork_VMNetworkCIDR := "" |};
                 v1.Network_Multus := Some {| v1.MultusNetwork_Default := false |} |} in
  let none := {| v1.Network_Name := "net2"; v1.Network_Pod := None;
                 v1.Network_Multus := None |} in
  validateNetworksTypes [SampleHost.podNetwork "default"; both; none]
    = Some "network net1 must have only one network type"
  /\ validateNetworksTypes [SampleHost.podNetwork "default"; none; both]
     = Some "network net2 must have a network type".
Proof.
  intros both none.
  assert (Hb : Forall hasOneNetworkType [SampleHost.podNetwork "default"])
    by (constructor; [left; split; [discriminate|reflexivity]|constructor]).
  split.
  - exact (proj1 (proj2 (validateNetworksTypes_first_offender
                           [SampleHost.podNetwork "default"] [none] both))
                 Hb ltac:(discriminate) ltac:(discriminate)).
  - exact (proj2 (proj2 (validateNetworksTypes_first_offender
                           [SampleHost.podNetwork "default"] [both] none))
                 Hb eq_refl eq_refl).
Defined.

(** X2.  The index built by [indexNetworksByName] maps a name to the
    last network of the list that carries it, and to nothing when no
    network does. *)
Theorem indexNetworksByName_lookup (networks : list v1.Network) (name : string) :
  indexNetworksByName networks !! name
    = last (filter (fun network => v1.Network_Name network = name) networks).
Proof.
  unfold indexNetworksByName.
  assert (H : forall index : gmap string v1.Network,
             foldl (fun netsByName network => <[v1.Network_Name network := network]> netsByName)
                   index networks !! name
             = match last (filter (fun network => v1.Network_Name network = name) networks) with
               | Some network => Some network
               | None => index !! name
               end).
  { induction networks as [|n networks IH]; intros index; [reflexivity|].
    simpl foldl. rewrite IH, filter_cons.
    destruct (decide (v1.Network_Name n = name)) as [E|E].
    - rewrite last_cons.
      destruct (last (filter (fun network => v1.Network_Name network = name) networks));
        [reflexivity|]. now rewrite E, lookup_insert_eq.
    - destruct (last (filter (fun network => v1.Network_Name network = name) networks));
        [reflexivity|]. now rewrite lookup_insert_ne. }
  rewrite H, lookup_empty.
  now destruct (last (filter (fun network => v1.Network_Name network = name) networks)).
Qed.

(** *** Lookups by name *)

Lemma FindInterfaceByNetworkName_in_head (interfaces : list v1.Interface)
      (network : v1.Network) :
  FindInterfaceByNetworkName_in interfaces network
    = head (filter (fun iface => v1.Interface_Name iface = v1.Network_Name network)
                   interfaces).
Proof.
  induction interfaces as [|x l IH]; simpl; [reflexivity|].
  rewrite filter_cons.
  destruct (String.eqb_spec (v1.Interface_Name x) (v1.Network_Name network)) as [E|E];
    destruct (decide (v1.Interface_Name x = v1.Network_Name network));
    try contradiction; [reflexivity|exact IH].
Qed.

Lemma FindInterfaceByNetworkName_None {CPU : Type}
      (vmi : v1.VirtualMachineInstance CPU) (network : v1.Network) :
  FindInterfaceByNetworkName vmi network = None <-> ~ hasInterface vmi network.
Proof.
  unfold FindInterfaceByNetworkName, hasInterface.
  rewrite FindInterfaceByNetworkName_in_head, head_None. split.
  - intros H [iface [Hin Hn]].
    assert (Hf : iface ∈ filter (fun iface => v1.Interface_Name iface
                                            = v1.Network_Name network)
                                (v1.Spec_Domain_Devices_Interfaces vmi))
      by (apply list_elem_of_filter; split; [exact Hn|now apply list_elem_of_In]).
    rewrite H in Hf. now apply not_elem_of_nil in Hf.
  - intros H.
    destruct (filter (fun iface => v1.Interface_Name iface = v1.Network_Name network)
                     (v1.Spec_Domain_Devices_Interfaces vmi)) as [|x l] eqn:E; [reflexivity|].
    exfalso. apply H. exists x.
    assert (Hx : x ∈ x :: l) by apply list_elem_of_here. rewrite <- E in Hx.
    apply list_elem_of_filter in Hx. destruct Hx as [Hn Hin].
    split; [now apply list_elem_of_In|exact Hn].
Qed.

(** X3.  [FindInterfaceByNetworkName] returns the first interface of the
    spec that carries the network's name; it returns nil exactly when no
    interface does. *)
Theorem FindInterfaceByNetworkName_first {CPU : Type}
        (vmi : v1.VirtualMachineInstance CPU) (network : v1.Network) :
  FindInterfaceByNetworkName vmi network
    = head (filter (fun iface => v1.Interface_Name iface = v1.Network_Name network)
                   (v1.Spec_Domain_Devices_Interfaces vmi))
  /\ (FindInterfaceByNetworkName vmi network = None <-> ~ hasInterface vmi network).
Proof.
  split; [apply FindInterfaceByNetworkName_in_head|apply FindInterfaceByNetworkName_None].
Qed.

Section MultusIndex.

Context {CPU : Type}.
Implicit Types (vmi : v1.VirtualMachineInstance CPU) (network : v1.Network).

Lemma findMultusIndex_from_range networks : forall idx network,
  findMultusIndex_from idx networks network = (-1)%Z
  \/ (idx < findMultusIndex_from idx networks network
      <= idx + Z.of_nat (length (filter (fun n => isSecondaryMultusNetwork n = true)
                                        networks)))%Z.
Proof.
  induction networks as [|n networks IH]; intros idx network; simpl; [auto|].
  rewrite filter_cons. destruct (isSecondaryMultusNetwork n) eqn:Hn.
  - destruct (decide (true = true)); [|congruence]. simpl length.
    destruct (String.eqb (v1.Network_Name n) (v1.Network_Name network)); [right; lia|].
    destruct (IH (idx + 1)%Z network) as [H|H]; [auto|right; lia].
  - destruct (decide (false = true)); [congruence|]. apply IH.
Qed.

Lemma findMultusIndex_from_missing networks : forall idx network,
  (0 <= idx)%Z ->
  (findMultusIndex_from idx networks network = (-1)%Z
   <-> forall other, In other networks -> isSecondaryMultusNetwork other = true ->
                     v1.Network_Name other <> v1.Network_Name network).
Proof.
  induction networks as [|n networks IH]; intros idx network Hidx; simpl.
  - split; [intros _ ? []|reflexivity].
  - destruct (isSecondaryMultusNetwork n) eqn:Hn.
    + destruct (String.eqb_spec (v1.Network_Name n) (v1.Network_Name network)) as [E|E].
      * split; [lia|]. intros H. exfalso. apply (H n); auto.
      * rewrite IH by lia. split.
        -- intros H other [<-|Hin] Hs; [exact E|now apply H].
        -- intros H other Hin. apply H. now right.
    + rewrite IH by lia. split.
      * intros H other [<-|Hin] Hs; [congruence|now apply H].
      * intros H other Hin. apply H. now right.
Qed.

Lemma findMultusIndex_from_same networks : forall idx a b,
  (0 <= idx)%Z ->
  findMultusIndex_from idx networks a <> (-1)%Z ->
  findMultusIndex_from idx networks a = findMultusIndex_from idx networks b ->
  v1.Network_Name a = v1.Network_Name b.
Proof.
  induction networks as [|n networks IH]; intros idx a b Hidx; simpl; [congruence|].
  destruct (isSecondaryMultusNetwork n); [|now apply IH].
  destruct (String.eqb_spec (v1.Network_Name n) (v1.Network_Name a)) as [Ea|Ea];
    destruct (String.eqb_spec (v1.Network_Name n) (v1.Network_Name b)) as [Eb|Eb].
  - congruence.
  - intros _ H. destruct (findMultusIndex_from_range networks (idx + 1)%Z b); lia.
  - intros _ H. destruct (findMultusIndex_from_range networks (idx + 1)%Z a); lia.
  - apply IH. lia.
Qed.

Lemma Sprintf_d_inj (a b : Z) : Go.Sprintf_d a = Go.Sprintf_d b -> a = b.
Proof.
  unfold Go.Sprintf_d. intros H. apply DecimalZ.to_int_inj.
  assert (Hn : forall z, Z.to_int z <> Decimal.Pos Decimal.Nil
                         /\ Z.to_int z <> Decimal.Neg Decimal.Nil).
  { intros [|p|p]; split; try discriminate; simpl; intros [= E];
      now apply DecimalPos.Unsigned.to_uint_nonnil in E. }
  apply (f_equal NilZero.int_of_string) in H.
  rewrite !NilZero.isi in H by apply Hn. congruence.
Qed.

End MultusIndex.

(** X4.  [findMultusIndex] answers -1 exactly when no secondary Multus
    network of the spec carries the name looked for, and otherwise a
    position between 1 and the number of secondary networks;
    [ComposePodInterfaceName] fails, with the empty name and
    [Network name <name> not found], exactly when it is given a
    secondary network whose name no secondary network of the spec
    carries. *)
Theorem findMultusIndex_missing_iff {CPU : Type}
        (vmi : v1.VirtualMachineInstance CPU) (network : v1.Network) :
  let missing := forall other, In other (v1.Spec_Networks vmi) ->
                               isSecondaryMultusNetwork other = true ->
                               v1.Network_Name other <> v1.Network_Name network in
  (findMultusIndex vmi network = (-1)%Z <-> missing)
  /\ (findMultusIndex vmi network = (-1)%Z
      \/ (1 <= findMultusIndex vmi network
          <= Z.of_nat (length (filter (fun n => isSecondaryMultusNetwork n = true)
                                      (v1.Spec_Networks vmi))))%Z)
  /\ (snd (ComposePodInterfaceName vmi network) <> None
      <-> isSecondaryMultusNetwork network = true /\ missing)
  /\ (snd (ComposePodInterfaceName vmi network) <> None ->
      ComposePodInterfaceName vmi network
        = ("", Some ("Network name " +:+ v1.Network_Name network +:+ " not found"))).
Proof.
  intros missing. unfold findMultusIndex.
  pose proof (findMultusIndex_from_missing (v1.Spec_Networks vmi) 0%Z network
                ltac:(lia)) as Hm.
  split; [exact Hm|].
  split; [destruct (findMultusIndex_from_range (v1.Spec_Networks vmi) 0%Z network);
          [auto|right; lia]|].
  unfold ComposePodInterfaceName, findMultusIndex.
  destruct (isSecondaryMultusNetwork network); simpl.
  - destruct (Z.eqb_spec (findMultusIndex_from 0 (v1.Spec_Networks vmi) network) (-1))
      as [E|E]; simpl.
    + split; [|reflexivity].
      split; [intros _; split; [reflexivity|exact (proj1 Hm E)]|discriminate].
    + split; [|congruence]. split; [congruence|]. intros [_ H]. exfalso. exact (E (proj2 Hm H)).
  - split; [|congruence]. split; [congruence|]. intros [H _]. discriminate H.
Qed.

(** X5.  Declared secondary Multus networks of different names never
    share a pod interface name, and none of them gets the primary name
    eth0. *)
Theorem ComposePodInterfaceName_no_collision {CPU : Type}
        (vmi : v1.VirtualMachineInstance CPU) (a b : v1.Network) :
  In a (v1.Spec_Networks vmi) -> In b (v1.Spec_Networks vmi) ->
  isSecondaryMultusNetwork a = true -> isSecondaryMultusNetwork b = true ->
  v1.Network_Name a <> v1.Network_Name b ->
  snd (ComposePodInterfaceName vmi a) = None
  /\ snd (ComposePodInterfaceName vmi b) = None
  /\ fst (ComposePodInterfaceName vmi a) <> fst (ComposePodInterfaceName vmi b)
  /\ fst (ComposePodInterfaceName vmi a) <> PrimaryPodInterfaceName.
Proof.
  intros Ha Hb Hsa Hsb Hne.
  pose proof (ComposePodInterfaceName_declared vmi a Ha) as Hea.
  pose proof (ComposePodInterfaceName_declared vmi b Hb) as Heb.
  split; [exact Hea|]. split; [exact Heb|].
  unfold ComposePodInterfaceName, findMultusIndex in *. rewrite Hsa, Hsb in *.
  destruct (Z.eqb_spec (findMultusIndex_from 0 (v1.Spec_Networks vmi) a) (-1)) as [Ea|Ea];
    [discriminate Hea|].
  destruct (Z.eqb_spec (findMultusIndex_from 0 (v1.Spec_Networks vmi) b) (-1)) as [Eb|Eb];
    [discriminate Heb|].
  simpl. split; [|discriminate].
  intros H. apply Hne.
  apply (findMultusIndex_from_same (v1.Spec_Networks vmi) 0%Z a b); [lia|exact Ea|].
  apply Sprintf_d_inj.
  change ("net" +:+ Go.Sprintf_d (findMultusIndex_from 0 (v1.Spec_Networks vmi) a))
    with (String "n" (String "e" (String "t"
            (Go.Sprintf_d (findMultusIndex_from 0 (v1.Spec_Networks vmi) a))))) in H.
  change ("net" +:+ Go.Sprintf_d (findMultusIndex_from 0 (v1.Spec_Networks vmi) b))
    with (String "n" (String "e" (String "t"
            (Go.Sprintf_d (findMultusIndex_from 0 (v1.Spec_Networks vmi) b))))) in H.
  congruence.
Qed.

Lemma ComposePodInterfaceName_no_collision_witness :
  let blue := SampleHost.multusNetwork "blue" false in
  let red := SampleHost.multusNetwork "red" false in
  let spec := SampleHost.vmi [SampleHost.podNetwork "default"; blue; red] [] None 1 in
  fst (ComposePodInterfaceName spec blue) <> fst (ComposePodInterfaceName spec red)
  /\ fst (ComposePodInterfaceName spec blue) <> "eth0".
Proof.
  intros blue red spec.
  destruct (ComposePodInterfaceName_no_collision spec blue red) as (_ & _ & H1 & H2).
  - simpl; tauto.
  - simpl; tauto.
  - reflexivity.
  - reflexivity.
  - discriminate.
  - split; [exact H1|exact H2].
Defined.

Lemma findMultusIndex_missing_iff_witness :
  let spec := SampleHost.vmi [SampleHost.podNetwork "default";
                              SampleHost.multusNetwork "blue" false] [] None 1 in
  ComposePodInterfaceName spec (SampleHost.multusNetwork "red" false)
    = ("", Some "Network name red not found").
Proof.
  intros spec.
  apply (proj2 (proj2 (proj2 (findMultusIndex_missing_iff
                                spec (SampleHost.multusNetwork "red" false))))).
  vm_compute. discriminate.
Defined.

(** *** The outcomes of [getPodInterfaceName] *)

Section PodInterfaceOutcomes.

Context {CPU : Type}.
Implicit Types (vmi : v1.VirtualMachineInstance CPU) (network : v1.Network).

(** Networks the scan of [getPodInterfaceName] passes over: without a
    source kind, or the network of some interface and not of the name
    looked for. *)
Lemma getPodInterfaceName_in_skip vmi ifaceName before : forall rest,
  (forall network, In network before -> hasNetworkType network = true ->
                   hasInterface vmi network /\ v1.Network_Name network <> ifaceName) ->
  getPodInterfaceName_in vmi (before ++ rest) ifaceName
    = getPodInterfaceName_in vmi rest ifaceName.
Proof.
  induction before as [|n before IH]; intros rest Hskip; [reflexivity|].
  assert (IH' := IH rest (fun m Hm => Hskip m (or_intror Hm))).
  simpl. destruct (hasNetworkType n) eqn:Hn.
  - destruct (Hskip n (or_introl eq_refl) Hn) as [Hif Hne].
    destruct (FindInterfaceByNetworkName_in_Some
                (v1.Spec_Domain_Devices_Interfaces vmi) n Hif) as [iface [Hf Hfn]].
    apply String.eqb_neq in Hne. unfold hasNetworkType in Hn.
    unfold FindInterfaceByNetworkName.
    destruct (v1.Network_Pod n), (v1.Network_Multus n); try discriminate;
      rewrite Hf, Hfn, Hne; exact IH'.
  - unfold hasNetworkType in Hn.
    destruct (v1.Network_Pod n), (v1.Network_Multus n); try discriminate. exact IH'.
Qed.

End PodInterfaceOutcomes.

(** X6.  When every network with a source kind is the network of some
    interface and none of them carries the name looked for (networks
    without a source kind are passed over), [getPodInterfaceName] returns
    the empty name and the error [Interface <name> not found]. *)
Theorem getPodInterfaceName_not_found {CPU : Type}
        (vmi : v1.VirtualMachineInstance CPU) (ifaceName : string) :
  (forall network, In network (v1.Spec_Networks vmi) -> hasNetworkType network = true ->
                   hasInterface vmi network /\ v1.Network_Name network <> ifaceName) ->
  getPodInterfaceName vmi ifaceName
    = Done ("", Some ("Interface " +:+ ifaceName +:+ " not found")).
Proof.
  intros Hskip. unfold getPodInterfaceName.
  rewrite <- (app_nil_r (v1.Spec_Networks vmi)).
  now rewrite (getPodInterfaceName_in_skip vmi ifaceName _ [] Hskip).
Qed.

Lemma getPodInterfaceName_not_found_witness :
  let untyped := {| v1.Network_Name := "fast"; v1.Network_Pod := None;
                    v1.Network_Multus := None |} in
  let spec := SampleHost.vmi [SampleHost.podNetwork "default"; untyped]
                             [SampleHost.bridge "default" ""; SampleHost.vhostuser "fast" ""]
                             None 1 in
  getPodInterfaceName spec "fast" = Done ("", Some "Interface fast not found").
Proof.
  intros untyped spec.
  apply (getPodInterfaceName_not_found spec "fast").
  intros network [<-|[<-|[]]] Hty; [|discriminate Hty].
  split; [|discriminate].
  exists (SampleHost.bridge "default" ""). split; [simpl; tauto|reflexivity].
Defined.

(** X7.  [getPodInterfaceName] does not return when its scan, before it
    meets a network of the name looked for, reaches a network with a
    source kind that is the network of no interface: it reads the name
    of the nil interface there.  This holds whatever the name looked
    for, and also when that very network carries it. *)
Theorem getPodInterfaceName_panics_on_unattached_network {CPU : Type}
        (vmi : v1.VirtualMachineInstance CPU) (ifaceName : string)
        (before after : list v1.Network) (network : v1.Network) :
  v1.Spec_Networks vmi = before ++ network :: after ->
  (forall other, In other before -> hasNetworkType other = true ->
                 hasInterface vmi other /\ v1.Network_Name other <> ifaceName) ->
  hasNetworkType network = true ->
  ~ hasInterface vmi network ->
  getPodInterfaceName vmi ifaceName = Panic nilDeref.
Proof.
  intros Hnets Hskip Hty Hno. unfold getPodInterfaceName.
  rewrite Hnets, (getPodInterfaceName_in_skip vmi ifaceName before _ Hskip).
  simpl.
  apply FindInterfaceByNetworkName_None in Hno.
  unfold hasNetworkType in Hty.
  destruct (v1.Network_Pod network), (v1.Network_Multus network); try discriminate;
    now rewrite Hno.
Qed.

Lemma getPodInterfaceName_panics_on_unattached_network_witness :
  let spec := SampleHost.vmi [SampleHost.multusNetwork "blue" false;
                              SampleHost.podNetwork "default";
                              SampleHost.multusNetwork "fast" false]
                             [SampleHost.bridge "blue" ""; SampleHost.vhostuser "fast" ""]
                             None 1 in
  getPodInterfaceName spec "fast" = Panic nilDeref
  /\ getPodInterfaceName spec "default" = Panic nilDeref.
Proof.
  intros spec.
  assert (Hskip : forall name, name <> "blue" ->
            forall other, In other [SampleHost.multusNetwork "blue" false] ->
                          hasNetworkType other = true ->
                          hasInterface spec other /\ v1.Network_Name other <> name).
  { intros name Hname other [<-|[]] _. split; [|now intros <-].
    exists (SampleHost.bridge "blue" ""). split; [simpl; tauto|reflexivity]. }
  assert (Hno : ~ hasInterface spec (SampleHost.podNetwork "default")).
  { intros [iface [[<-|[<-|[]]] Hn]]; discriminate Hn. }
  split.
  - apply (getPodInterfaceName_panics_on_unattached_network
             spec "fast" [SampleHost.multusNetwork "blue" false]
             [SampleHost.multusNetwork "fast" false] (SampleHost.podNetwork "default"));
      [reflexivity|apply Hskip; discriminate|reflexivity|exact Hno].
  - apply (getPodInterfaceName_panics_on_unattached_network
             spec "default" [SampleHost.multusNetwork "blue" false]
             [SampleHost.multusNetwork "fast" false] (SampleHost.podNetwork "default"));
      [reflexivity|apply Hskip; discriminate|reflexivity|exact Hno].
Defined.

(** *** [getVhostuserInfo] and [CalculateNetworkQueues] *)

Lemma getVhostuserInfo_in_first (before : list netutil.InterfaceData) : forall rest ifaceName,
  (forall other, In other before -> ~ vhostuserEntryFor ifaceName other) ->
  getVhostuserInfo_in (before ++ rest) ifaceName = getVhostuserInfo_in rest ifaceName.
Proof.
  unfold vhostuserEntryFor.
  induction before as [|x before IH]; intros rest ifaceName Hno; [reflexivity|].
  simpl. unfold netutil.DeviceInfoTypeVHostUser.
  assert (IH' := IH rest ifaceName (fun o Ho => Hno o (or_intror Ho))).
  destruct (String.eqb_spec (netutil.InterfaceData_DeviceType x) "vhost-user") as [Ht|Ht];
    [|exact IH'].
  destruct (String.eqb_spec
              (List.last (Go.Split (netutil.NetworkStatus_Name
                                      (netutil.InterfaceData_NetworkStatus x)) "/") "")
              ifaceName) as [Hn|Hn]; [|exact IH'].
  exfalso. apply (Hno x); auto. now left.
Qed.

(** X8.  [getVhostuserInfo] answers with the socket path and mode of the
    first discovered entry of device type vhost-user whose network
    status name ends in the segment looked for, later entries
    notwithstanding; without such an entry it returns empty strings and
    [Unable to get vhostuser interface info for <name>], and with a nil
    [PodNetInterfaces] empty strings and the error that says so. *)
Theorem getVhostuserInfo_first_match (ifaceName : string) (c : ConverterContext)
        (before after : list netutil.InterfaceData) (entry : netutil.InterfaceData) :
  (PodNetInterfaces c
     = Some {| netutil.InterfaceResponse_Interface := before ++ entry :: after |} ->
   (forall other, In other before -> ~ vhostuserEntryFor ifaceName other) ->
   vhostuserEntryFor ifaceName entry ->
   getVhostuserInfo ifaceName c
     = (netutil.VhostDevice_Path
          (netutil.DeviceInfo_VhostUser
             (netutil.NetworkStatus_DeviceInfo (netutil.InterfaceData_NetworkStatus entry))),
        netutil.VhostDevice_Mode
          (netutil.DeviceInfo_VhostUser
             (netutil.NetworkStatus_DeviceInfo (netutil.InterfaceData_NetworkStatus entry))),
        None))
  /\ (forall resp,
        PodNetInterfaces c = Some resp ->
        (forall other, In other (netutil.InterfaceResponse_Interface resp) ->
                       ~ vhostuserEntryFor ifaceName other) ->
        getVhostuserInfo ifaceName c
          = ("", "", Some ("Unable to get vhostuser interface info for " +:+ ifaceName)))
  /\ (PodNetInterfaces c = None ->
      getVhostuserInfo ifaceName c
        = ("", "", Some "PodNetInterfaces cannot be nil for vhostuser interface")).
Proof.
  unfold getVhostuserInfo. split; [|split].
  - intros -> Hno [Ht Hn]. simpl.
    rewrite (getVhostuserInfo_in_first before _ ifaceName Hno). simpl.
    unfold netutil.DeviceInfoTypeVHostUser. now rewrite Ht, Hn, !String.eqb_refl.
  - intros resp -> Hno.
    rewrite <- (app_nil_r (netutil.InterfaceResponse_Interface resp)).
    now rewrite (getVhostuserInfo_in_first _ [] ifaceName Hno).
  - now intros ->.
Qed.

Lemma getVhostuserInfo_first_match_witness :
  let other := {| netutil.InterfaceData_DeviceType := "pci";
                  netutil.InterfaceData_NetworkStatus :=
                    netutil.InterfaceData_NetworkStatus
                      (SampleHost.vhostEntry "ns/net1" "/tmp/pci" "client") |} in
  let first := SampleHost.vhostEntry "ns/net1" "/var/run/vhu/vhu1.sock" "server" in
  let second := SampleHost.vhostEntry "net1" "vhu2.sock" "client" in
  getVhostuserInfo "net1" (SampleHost.context [other; first; second])
    = ("/var/run/vhu/vhu1.sock", "server", None)
  /\ getVhostuserInfo "net2" (SampleHost.context [other; first; second])
     = ("", "", Some "Unable to get vhostuser interface info for net2")
  /\ getVhostuserInfo "net1" SampleHost.noContext
     = ("", "", Some "PodNetInterfaces cannot be nil for vhostuser interface").
Proof.
  intros other first second. split; [|split].
  - apply (proj1 (getVhostuserInfo_first_match
                    "net1" (SampleHost.context [other; first; second])
                    [other] [second] first)).
    + reflexivity.
    + intros o [<-|[]] [Ht _]. discriminate Ht.
    + split; reflexivity.
  - apply (proj1 (proj2 (getVhostuserInfo_first_match
                           "net2" (SampleHost.context [other; first; second])
                           [] [] first))
             {| netutil.InterfaceResponse_Interface := [other; first; second] |}).
    + reflexivity.
    + intros o [<-|[<-|[<-|[]]]] [Ht Hn]; first [discriminate Ht|discriminate Hn].
  - apply (proj2 (proj2 (getVhostuserInfo_first_match
                           "net1" SampleHost.noContext [] [] first))).
    reflexivity.
Defined.

(** X9.  [CalculateNetworkQueues] returns the requested vCPU count when
    it does not exceed [multiQueueMaxQueues] and that maximum otherwise,
    so never more than the maximum; it writes one line at verbosity 3
    exactly when it caps, and leaves the domain alone. *)
Theorem CalculateNetworkQueues_capped {CPU : Type} (ext : Collaborators CPU)
        (vmi : v1.VirtualMachineInstance CPU) (w : World) :
  let requested := CalculateRequestedVCPUs ext (getCPUTopology ext vmi) in
  exists queues w',
    CalculateNetworkQueues ext vmi w = (w', Done queues)
    /\ (queues <= multiQueueMaxQueues ext)%N
    /\ queues = (if (requested <=? multiQueueMaxQueues ext)%N then requested
                 else multiQueueMaxQueues ext)
    /\ domain w' = domain w
    /\ logs w' =
         logs w ++
         (if (requested <=? multiQueueMaxQueues ext)%N then []
          else [ {| severity := INFO; verbosity := Some 3%nat;
                    message :=
                      "Capped the number of queues to be the current maximum of tap device queues: "
                      +:+ Go.Sprintf_u (multiQueueMaxQueues ext) |} ]).
Proof.
  intros requested. unfold CalculateNetworkQueues. fold requested.
  destruct (N.ltb_spec (multiQueueMaxQueues ext) requested) as [H|H];
    destruct (N.leb_spec requested (multiQueueMaxQueues ext)) as [H'|H']; try lia; run_M.
  - do 2 eexists. repeat split; lia.
  - do 2 eexists. repeat split; [exact H'|now rewrite app_nil_r].
Qed.

(** *** The user-mode network argument *)

Section SlirpArgument.

Context {CPU : Type} (ext : Collaborators CPU).
Implicit Types (w : World) (iface : v1.Interface).

Lemma dnssearch_fold (doms : list string) : forall qemuArg : api.Arg,
  foldl (fun arg dom => {| api.Arg_Value := api.Arg_Value arg +:+ ",dnssearch=" +:+ dom |})
        qemuArg doms
  = {| api.Arg_Value := api.Arg_Value qemuArg +:+ concatStrings (dnssearch <$> doms) |}.
Proof.
  induction doms as [|d doms IH]; intros qemuArg; simpl.
  - change (concatStrings []) with "". rewrite append_nil_r. now destruct qemuArg.
  - rewrite IH. simpl. rewrite append_assoc. reflexivity.
Qed.

Lemma GetResolvConfDetailsFromPod_ok w b nameservers searchDomains :
  ReadFile ext (resolvConf ext) = (b, None) ->
  ParseNameservers ext b = (nameservers, None) ->
  ParseSearchDomains ext b = (searchDomains, None) ->
  GetResolvConfDetailsFromPod ext w
    = ({| domain := domain w;
          logs := logs w ++ resolvConfLines ext nameservers searchDomains |},
       Done (nameservers, searchDomains, None)).
Proof.
  intros Hr Hn Hs. unfold GetResolvConfDetailsFromPod. rewrite Hr, Hn, Hs. run_M.
  now rewrite <- app_assoc.
Qed.

End SlirpArgument.

(** X10.  [GetResolvConfDetailsFromPod] always returns and never touches
    the domain.  The first failing step among reading the file, parsing
    the nameservers and parsing the search domains gives the error, and
    then both slices are nil and nothing is logged; when all three
    succeed, the parsed nameservers and search domains are returned and
    exactly two info lines are logged. *)
Theorem GetResolvConfDetailsFromPod_outcome {CPU : Type} (ext : Collaborators CPU)
        (w : World) :
  let read := ReadFile ext (resolvConf ext) in
  let nameservers := ParseNameservers ext (fst read) in
  let searchDomains := ParseSearchDomains ext (fst read) in
  let firstError :=
    match snd read, snd nameservers, snd searchDomains with
    | Some e, _, _ => Some e
    | None, Some e, _ => Some e
    | None, None, err => err
    end in
  GetResolvConfDetailsFromPod ext w
    = match firstError with
      | Some e => (w, Done ([], [], Some e))
      | None =>
          ({| domain := domain w;
              logs := logs w ++ resolvConfLines ext (fst nameservers) (fst searchDomains) |},
           Done (fst nameservers, fst searchDomains, None))
      end.
Proof.
  intros read nameservers searchDomains firstError.
  subst firstError nameservers searchDomains read. unfold GetResolvConfDetailsFromPod.
  destruct (ReadFile ext (resolvConf ext)) as [b [e|]]; simpl; [reflexivity|].
  destruct (ParseNameservers ext b) as [ns [e|]]; simpl; [reflexivity|].
  destruct (ParseSearchDomains ext b) as [sd [e|]]; simpl; [reflexivity|].
  run_M. now rewrite <- app_assoc.
Qed.

(** X11.  On a pod network whose CIDR is empty or parses, with the
    resolver configuration read and parsed, no forwarded port 0 and a
    domain that has a command line, [createSlirpNetwork] succeeds and
    appends to the domain's arguments exactly the pair [-netdev] and
    [user,id=<name>,net=<cidr>] followed by one [,dnssearch=] clause per
    search domain in order and by the [,hostfwd=] clauses of the distinct
    forwards in first-seen order; the CIDR is the configured one, or the
    default when none is configured. *)
Theorem createSlirpNetwork_appends_netdev {CPU : Type} (ext : Collaborators CPU)
        (iface : v1.Interface) (network : v1.Network) (w : World)
        (pod : v1.PodNetwork) (b : string) (nameservers searchDomains : list string)
        (cmd : api.Commandline) :
  v1.Network_Pod network = Some pod ->
  (v1.PodNetwork_VMNetworkCIDR pod = ""
   \/ ParseCIDR ext (v1.PodNetwork_VMNetworkCIDR pod) = None) ->
  ReadFile ext (resolvConf ext) = (b, None) ->
  ParseNameservers ext b = (nameservers, None) ->
  ParseSearchDomains ext b = (searchDomains, None) ->
  Forall (fun p => v1.Port_Port p <> 0%N) (v1.Interface_Ports iface) ->
  api.DomainSpec_QEMUCmd (api.Domain_Spec (domain w)) = Some cmd ->
  let cidr := if String.eqb (v1.PodNetwork_VMNetworkCIDR pod) "" then DefaultVMCIDR ext
              else v1.PodNetwork_VMNetworkCIDR pod in
  let value :=
    "user,id=" +:+ v1.Interface_Name iface +:+ ",net=" +:+ cidr
    +:+ concatStrings (dnssearch <$> searchDomains)
    +:+ concatStrings (hostfwd <$> firstSeen (forwardPair <$> v1.Interface_Ports iface)) in
  createSlirpNetwork ext iface network w
    = ({| domain :=
            {| api.Domain_Spec :=
                 {| api.DomainSpec_QEMUCmd :=
                      Some {| api.Commandline_QEMUArg :=
                                api.Commandline_QEMUArg cmd
                                ++ [ {| api.Arg_Value := "-netdev" |};
                                     {| api.Arg_Value := value |} ] |} |} |};
          logs := logs w ++ resolvConfLines ext nameservers searchDomains |},
       Done None).
Proof.
  intros Hpod Hcidr Hr Hn Hs Hports Hcmd cidr value.
  unfold createSlirpNetwork.
  assert (Hvm : configVMCIDR ext
                  {| api.Arg_Value := "user,id=" +:+ v1.Interface_Name iface |} network
                = Done ({| api.Arg_Value :=
                             ("user,id=" +:+ v1.Interface_Name iface) +:+ ",net=" +:+ cidr |},
                        None)).
  { unfold configVMCIDR. rewrite Hpod. subst cidr.
    destruct (String.eqb_spec (v1.PodNetwork_VMNetworkCIDR pod) "") as [E|E]; simpl;
      [reflexivity|].
    destruct Hcidr as [Hc|Hc]; [contradiction|]. now rewrite Hc. }
  unfold bind at 1, lift. rewrite Hvm.
  unfold bind at 1, configDNSSearchName. unfold bind at 1.
  rewrite (GetResolvConfDetailsFromPod_ok ext w b nameservers searchDomains Hr Hn Hs).
  unfold ret at 1. rewrite dnssearch_fold. simpl api.Arg_Value.
  unfold configPortForward.
  rewrite (configPortForward_from_clauses _ ∅ _ Hports).
  rewrite (filter_free portConfig ∅ _ eq_refl). simpl api.Arg_Value.
  unfold append_QEMUArg, api.set_QEMUArg. run_M. rewrite Hcmd. simpl.
  subst value. rewrite <- !app_assoc. simpl.
  rewrite !append_assoc. reflexivity.
Qed.

Lemma createSlirpNetwork_appends_netdev_witness :
  let port p n := {| v1.Port_Protocol := p; v1.Port_Port := n |} in
  let iface := SampleHost.slirp "default" "e1000"
                 [port "" 80%N; port "UDP" 53%N; port "TCP" 80%N] in
  let before := {| domain := SampleHost.allocateQEMUCmd SampleHost.emptyDomain; logs := [] |} in
  api.DomainSpec_QEMUCmd
    (api.Domain_Spec
       (domain (fst (createSlirpNetwork SampleHost.host iface
                       (SampleHost.podNetwork "default") before))))
  = Some {| api.Commandline_QEMUArg :=
              [ {| api.Arg_Value := "-netdev" |};
                {| api.Arg_Value :=
                     "user,id=default,net=10.0.2.0/24,dnssearch=svc.cluster.local,hostfwd=tcp::80-:80,hostfwd=udp::53-:53" |} ] |}.
Proof.
  intros port iface before.
  rewrite (createSlirpNetwork_appends_netdev
             SampleHost.host iface (SampleHost.podNetwork "default") before
             {| v1.PodNetwork_VMNetworkCIDR := "" |} "nameserver 10.96.0.10"
             ["10.96.0.10"] ["svc.cluster.local"] {| api.Commandline_QEMUArg := [] |}).
  - reflexivity.
  - reflexivity.
  - left; reflexivity.
  - reflexivity.
  - reflexivity.
  - reflexivity.
  - repeat constructor; discriminate.
  - reflexivity.
Defined.

(** X12.  How [createSlirpNetwork] fails.  On a network without a pod
    source it dereferences the nil [network.Pod] and does not return.  A
    configured CIDR that does not parse gives [Failed parsing CIDR
    <cidr>]; an error of the resolver-configuration read is returned as
    it is; a forwarded port 0 gives [Port must be configured].  In each
    of these cases the domain is not touched.  When every step succeeds
    but the domain has no command line, appending to it does not
    return. *)
Theorem createSlirpNetwork_failures {CPU : Type} (ext : Collaborators CPU)
        (iface : v1.Interface) (network : v1.Network) (w : World) :
  let cidrParses pod :=
    v1.PodNetwork_VMNetworkCIDR pod = ""
    \/ ParseCIDR ext (v1.PodNetwork_VMNetworkCIDR pod) = None in
  (v1.Network_Pod network = None ->
   createSlirpNetwork ext iface network w = (w, Panic nilDeref))
  /\ (forall pod e,
        v1.Network_Pod network = Some pod ->
        v1.PodNetwork_VMNetworkCIDR pod <> "" ->
        ParseCIDR ext (v1.PodNetwork_VMNetworkCIDR pod) = Some e ->
        createSlirpNetwork ext iface network w
          = (w, Done (Some ("Failed parsing CIDR " +:+ v1.PodNetwork_VMNetworkCIDR pod))))
  /\ (forall pod w' nameservers searchDomains e,
        v1.Network_Pod network = Some pod -> cidrParses pod ->
        GetResolvConfDetailsFromPod ext w = (w', Done (nameservers, searchDomains, Some e)) ->
        createSlirpNetwork ext iface network w = (w', Done (Some e)))
  /\ (forall pod w' nameservers searchDomains,
        v1.Network_Pod network = Some pod -> cidrParses pod ->
        GetResolvConfDetailsFromPod ext w = (w', Done (nameservers, searchDomains, None)) ->
        Exists (fun p => v1.Port_Port p = 0%N) (v1.Interface_Ports iface) ->
        createSlirpNetwork ext iface network w = (w', Done (Some "Port must be configured")))
  /\ (forall pod w' nameservers searchDomains,
        v1.Network_Pod network = Some pod -> cidrParses pod ->
        GetResolvConfDetailsFromPod ext w = (w', Done (nameservers, searchDomains, None)) ->
        Forall (fun p => v1.Port_Port p <> 0%N) (v1.Interface_Ports iface) ->
        api.DomainSpec_QEMUCmd (api.Domain_Spec (domain w)) = None ->
        createSlirpNetwork ext iface network w = (w', Panic nilDeref)).
Proof.
  intros cidrParses.
  assert (Hvm : forall pod,
             v1.Network_Pod network = Some pod -> cidrParses pod ->
             exists arg,
               configVMCIDR ext {| api.Arg_Value := "user,id=" +:+ v1.Interface_Name iface |}
                            network = Done (arg, None)).
  { intros pod Hpod Hc. unfold configVMCIDR. rewrite Hpod.
    destruct (String.eqb_spec (v1.PodNetwork_VMNetworkCIDR pod) ""); simpl; [eauto|].
    destruct Hc as [Hc|Hc]; [contradiction|]. rewrite Hc. eauto. }
  split; [|split; [|split; [|split]]].
  - intros Hpod. unfold createSlirpNetwork, configVMCIDR. now rewrite Hpod.
  - intros pod e Hpod Hne He. unfold createSlirpNetwork, configVMCIDR.
    apply String.eqb_neq in Hne. rewrite Hpod, Hne, He. reflexivity.
  - intros pod w' ns sd e Hpod Hc Hres. destruct (Hvm pod Hpod Hc) as [arg Harg].
    unfold createSlirpNetwork. unfold bind at 1, lift. rewrite Harg.
    unfold bind at 1, configDNSSearchName. unfold bind at 1. now rewrite Hres.
  - intros pod w' ns sd Hpod Hc Hres Hzero. destruct (Hvm pod Hpod Hc) as [arg Harg].
    unfold createSlirpNetwork. unfold bind at 1, lift. rewrite Harg.
    unfold bind at 1, configDNSSearchName. unfold bind at 1. rewrite Hres.
    unfold ret at 1.
    pose proof (configPortForward_from_port_zero
                  (v1.Interface_Ports iface) ∅
                  (foldl (fun arg dom =>
                            {| api.Arg_Value := api.Arg_Value arg +:+ ",dnssearch=" +:+ dom |})
                         arg sd) Hzero) as Hport.
    unfold configPortForward.
    destruct (configPortForward_from _ _ _) as [arg' err]. simpl in Hport. now rewrite Hport.
  - intros pod w' ns sd Hpod Hc Hres Hports Hcmd. destruct (Hvm pod Hpod Hc) as [arg Harg].
    unfold createSlirpNetwork. unfold bind at 1, lift. rewrite Harg.
    unfold bind at 1, configDNSSearchName. unfold bind at 1. rewrite Hres.
    unfold ret at 1. unfold configPortForward.
    rewrite (configPortForward_from_clauses _ ∅ _ Hports).
    apply GetResolvConfDetailsFromPod_domain in Hres.
    unfold append_QEMUArg. run_M. rewrite Hres, Hcmd. reflexivity.
Qed.

Lemma createSlirpNetwork_failures_witness :
  let iface := SampleHost.slirp "default" "e1000"
                 [ {| v1.Port_Protocol := "TCP"; v1.Port_Port := 0 |} ] in
  let badCIDR := {| v1.Network_Name := "default";
                    v1.Network_Pod := Some {| v1.PodNetwork_VMNetworkCIDR := "10.0.2.0" |};
                    v1.Network_Multus := None |} in
  createSlirpNetwork SampleHost.host iface (SampleHost.multusNetwork "default" false)
                     SampleHost.world0
    = (SampleHost.world0, Panic nilDeref)
  /\ createSlirpNetwork SampleHost.host iface badCIDR SampleHost.world0
     = (SampleHost.world0, Done (Some "Failed parsing CIDR 10.0.2.0"))
  /\ snd (createSlirpNetwork SampleHost.host iface (SampleHost.podNetwork "default")
                             SampleHost.world0)
     = Done (Some "Port must be configured")
  /\ snd (createSlirpNetwork SampleHost.host (SampleHost.slirp "default" "e1000" [])
                             (SampleHost.podNetwork "default") SampleHost.world0)
     = Panic nilDeref.
Proof.
  intros iface badCIDR. split; [|split; [|split]].
  - apply (proj1 (createSlirpNetwork_failures
                    SampleHost.host iface (SampleHost.multusNetwork "default" false)
                    SampleHost.world0)).
    reflexivity.
  - apply (proj1 (proj2 (createSlirpNetwork_failures
                           SampleHost.host iface badCIDR SampleHost.world0))
             {| v1.PodNetwork_VMNetworkCIDR := "10.0.2.0" |}
             "invalid CIDR address: 10.0.2.0");
      [reflexivity|discriminate|reflexivity].
  - rewrite (proj1 (proj2 (proj2 (proj2 (createSlirpNetwork_failures
                                           SampleHost.host iface
                                           (SampleHost.podNetwork "default")
                                           SampleHost.world0))))
               {| v1.PodNetwork_VMNetworkCIDR := "" |}
               (fst (GetResolvConfDetailsFromPod SampleHost.host SampleHost.world0))
               ["10.96.0.10"] ["svc.cluster.local"]);
      [reflexivity|reflexivity|left; reflexivity|reflexivity|left; reflexivity].
  - rewrite (proj2 (proj2 (proj2 (proj2 (createSlirpNetwork_failures
                                           SampleHost.host
                                           (SampleHost.slirp "default" "e1000" [])
                                           (SampleHost.podNetwork "default")
                                           SampleHost.world0))))
               {| v1.PodNetwork_VMNetworkCIDR := "" |}
               (fst (GetResolvConfDetailsFromPod SampleHost.host SampleHost.world0))
               ["10.96.0.10"] ["svc.cluster.local"]);
      [reflexivity|reflexivity|left; reflexivity|reflexivity|constructor|reflexivity].
Defined.

(** *** More arms of the dispatch *)

Section MoreArms.

Context {CPU : Type} (ext : Collaborators CPU).
Implicit Types (vmi : v1.VirtualMachineInstance CPU) (c : ConverterContext)
         (iface : v1.Interface) (w : World).

Lemma effectiveModel_slirp iface :
  v1.Interface_Slirp iface <> None ->
  (effectiveModel iface = "e1000" \/ effectiveModel iface = "rtl8139")
  /\ String.eqb (effectiveModel iface) "virtio" = false.
Proof.
  unfold effectiveModel. destruct (v1.Interface_Slirp iface); [intros _|congruence].
  destruct (String.eqb_spec (v1.Interface_Model iface) "e1000") as [->|];
    destruct (String.eqb_spec (v1.Interface_Model iface) "rtl8139") as [E|]; simpl; auto.
  rewrite E. auto.
Qed.

Lemma getInterfaceType_slirp iface w :
  v1.Interface_Slirp iface <> None ->
  getInterfaceType iface w
    = ({| domain := domain w; logs := logs w ++ slirpNotice iface |},
       Done (effectiveModel iface)).
Proof.
  unfold getInterfaceType, effectiveModel, slirpNotice.
  destruct (v1.Interface_Slirp iface); [intros _|congruence].
  destruct (negb (String.eqb (v1.Interface_Model iface) "e1000")
            && negb (String.eqb (v1.Interface_Model iface) "rtl8139")); run_M.
  - reflexivity.
  - rewrite app_nil_r. now destruct w.
Qed.

Lemma slirp_arm vmi c prohibited networks acc iface w net :
  networks !! v1.Interface_Name iface = Some net ->
  slirpBound iface ->
  pciAddressParses ext iface ->
  createDomainInterfaces_body ext vmi c prohibited networks acc iface w
    = (match createSlirpNetwork ext iface net
               {| domain := initializeQEMUCmdAndQEMUArg ext (domain w);
                  logs := logs w ++ slirpNotice iface |} with
       | (w2, Done (Some e)) => (w2, Done (Return ([], Some e)))
       | (w2, Done None) => (w2, Done (Next (acc ++ [slirpRecord ext c iface])))
       | (w2, Panic reason) => (w2, Panic reason)
       end).
Proof.
  intros Hnet (Hsriov & Hb & Hm & Hs) Hpci.
  destruct (effectiveModel_slirp iface Hs) as [_ Hnv].
  unfold createDomainInterfaces_body, slirpRecord. rewrite Hnet, Hsriov.
  unfold bind at 1. rewrite (getInterfaceType_slirp iface w Hs), Hnv.
  cbv beta iota delta [andb]. unfold bind at 1, ret at 1.
  destruct (v1.Interface_Slirp iface) as [u|] eqn:Hsl; [clear Hs|congruence].
  destruct Hpci as [Hpci|Hpci];
    [ rewrite Hpci, String.eqb_refl
    | destruct (negb (String.eqb (v1.Interface_PciAddress iface) ""));
      [ destruct (NewPciAddressField ext (v1.Interface_PciAddress iface)) as [? [?|]];
        [discriminate Hpci|]
      | ] ].
  all: cbv beta iota delta [negb orb]; rewrite Hb, Hm; cbv beta iota delta [negb orb].
  all: run_M; destruct (createSlirpNetwork ext iface net _) as [w2 [[e|]|]]; reflexivity.
Qed.

Lemma bridge_arm vmi c prohibited networks acc iface w net :
  networks !! v1.Interface_Name iface = Some net ->
  bridgeBound iface ->
  passesChecks ext prohibited iface ->
  exists w1 base,
    createDomainInterfaces_body ext vmi c prohibited networks acc iface w
      = (w1, Done (Next (acc ++ [bootOrderOrRom iface (api.set_Type "ethernet" base)])))
    /\ domain w1 = domain w
    /\ api.Interface_BootOrder base = None
    /\ api.Interface_Rom base = None
    /\ api.Interface_Source base = noSource
    /\ api.Interface_Target base = None.
Proof.
  intros Hnet [Hsriov Hbm] [Hvirtio Hpci].
  assert (Hor : (if v1.Interface_Bridge iface is Some _ then true else false)
                || (if v1.Interface_Masquerade iface is Some _ then true else false) = true).
  { destruct (v1.Interface_Bridge iface), (v1.Interface_Masquerade iface);
      try reflexivity. destruct Hbm; congruence. }
  through_checks ext vmi iface Hnet Hsriov Hvirtio Hpci w w1.
  all: fold (orb (if v1.Interface_Bridge iface is Some _ then true else false)
                 (if v1.Interface_Masquerade iface is Some _ then true else false)).
  all: rewrite Hor.
  all: do 2 eexists; (split; [unfold ret; reflexivity|split; [eassumption|repeat split]]).
Qed.

Lemma unbound_arm vmi c prohibited networks acc iface w net :
  networks !! v1.Interface_Name iface = Some net ->
  unbound iface ->
  passesChecks ext prohibited iface ->
  exists w1 base,
    createDomainInterfaces_body ext vmi c prohibited networks acc iface w
      = (w1, Done (Next (acc ++ [base])))
    /\ domain w1 = domain w
    /\ api.Interface_Type base = ""
    /\ api.Interface_BootOrder base = None
    /\ api.Interface_Rom base = None
    /\ api.Interface_Source base = noSource
    /\ api.Interface_Target base = None.
Proof.
  intros Hnet (Hsriov & Hb & Hm & Hs & Hmv & Hv) [Hvirtio Hpci].
  through_checks ext vmi iface Hnet Hsriov Hvirtio Hpci w w1.
  all: rewrite Hb, Hm, Hs, Hmv, Hv; cbv beta iota delta [negb orb].
  all: do 2 eexists; (split; [unfold ret; reflexivity|split; [eassumption|repeat split]]).
Qed.

End MoreArms.

(** X13.  For an interface that reaches the slirp arm, with a declared
    network and a PCI address that parses, a turn of the loop first
    passes the domain through [initializeQEMUCmdAndQEMUArg] and then
    runs [createSlirpNetwork]: an error of that call ends the
    conversion, and otherwise a record of type user is emitted whose
    model is translated from e1000 or rtl8139 and which has no driver,
    boot order or ROM entry.  Neither the prohibition of virtio
    emulation nor the multi-queue request has any part in it. *)
Theorem slirp_record {CPU : Type} (ext : Collaborators CPU)
        (vmi : v1.VirtualMachineInstance CPU) (c : ConverterContext)
        (virtioNetProhibited : bool) (networks : gmap string v1.Network)
        (domainInterfaces : list api.Interface) (iface : v1.Interface)
        (net : v1.Network) (w : World) :
  networks !! v1.Interface_Name iface = Some net ->
  slirpBound iface ->
  pciAddressParses ext iface ->
  createDomainInterfaces_body ext vmi c virtioNetProhibited networks
                              domainInterfaces iface w
    = (match createSlirpNetwork ext iface net
               {| domain := initializeQEMUCmdAndQEMUArg ext (domain w);
                  logs := logs w ++ slirpNotice iface |} with
       | (w2, Done (Some e)) => (w2, Done (Return ([], Some e)))
       | (w2, Done None) =>
           (w2, Done (Next (domainInterfaces ++ [slirpRecord ext c iface])))
       | (w2, Panic reason) => (w2, Panic reason)
       end)
  /\ (effectiveModel iface = "e1000" \/ effectiveModel iface = "rtl8139")
  /\ (forall (vmi' : v1.VirtualMachineInstance CPU) prohibited',
        createDomainInterfaces_body ext vmi' c prohibited' networks domainInterfaces iface w
        = createDomainInterfaces_body ext vmi c virtioNetProhibited networks
                                      domainInterfaces iface w).
Proof.
  intros Hnet Hbound Hpci.
  split; [now apply slirp_arm|].
  split; [exact (proj1 (effectiveModel_slirp iface (proj2 (proj2 (proj2 Hbound)))))|].
  intros vmi' prohibited'.
  now rewrite !(slirp_arm ext _ c _ networks domainInterfaces iface w net Hnet Hbound Hpci).
Qed.

Lemma slirp_record_witness :
  let iface := SampleHost.slirp "default" "virtio" [] in
  let spec := SampleHost.vmi [SampleHost.podNetwork "default"] [iface] (Some true) 4 in
  let run := createDomainInterfaces_body SampleHost.host spec SampleHost.noContext true
               (indexNetworksByName (v1.Spec_Networks spec)) [] iface SampleHost.world0 in
  snd run = Done (Next [slirpRecord SampleHost.host SampleHost.noContext iface])
  /\ api.Interface_Model (slirpRecord SampleHost.host SampleHost.noContext iface)
     = Some {| api.Model_Type := "e1000" |}
  /\ length (match api.DomainSpec_QEMUCmd (api.Domain_Spec (domain (fst run))) with
             | Some cmd => api.Commandline_QEMUArg cmd
             | None => []
             end) = 2%nat.
Proof.
  intros iface spec run.
  destruct (slirp_record SampleHost.host spec SampleHost.noContext true
              (indexNetworksByName (v1.Spec_Networks spec)) [] iface
              (SampleHost.podNetwork "default") SampleHost.world0) as [Hrun _].
  - vm_compute; reflexivity.
  - repeat split; first [reflexivity|discriminate].
  - left; reflexivity.
  - subst run. rewrite Hrun. vm_compute. repeat split.
Defined.

(** X15.  For an interface that is not SR-IOV-bound and has its bridge
    or its masquerade binding set, whatever its other bindings, with a
    declared network and the checks passed, the record is emitted with
    type ethernet, with the boot order when one is set and with the ROM
    disabled when none is (never both), without source path or target;
    the domain is not touched. *)
Theorem bridge_masquerade_record {CPU : Type} (ext : Collaborators CPU)
        (vmi : v1.VirtualMachineInstance CPU) (c : ConverterContext)
        (virtioNetProhibited : bool) (networks : gmap string v1.Network)
        (domainInterfaces : list api.Interface) (iface : v1.Interface)
        (net : v1.Network) (w : World) :
  networks !! v1.Interface_Name iface = Some net ->
  bridgeBound iface ->
  passesChecks ext virtioNetProhibited iface ->
  exists w' d,
    createDomainInterfaces_body ext vmi c virtioNetProhibited networks
                                domainInterfaces iface w
      = (w', Done (Next (domainInterfaces ++ [d])))
    /\ domain w' = domain w
    /\ api.Interface_Type d = "ethernet"
    /\ api.Interface_BootOrder d
       = (order ← v1.Interface_BootOrder iface; Some {| api.BootOrder_Order := order |})
    /\ api.Interface_Rom d
       = (if v1.Interface_BootOrder iface is Some _ then None
          else Some {| api.Rom_Enabled := "no" |})
    /\ api.Interface_Source d = noSource
    /\ api.Interface_Target d = None.
Proof.
  intros Hnet Hbound Hchecks.
  destruct (bridge_arm ext vmi c virtioNetProhibited networks domainInterfaces iface w net
                       Hnet Hbound Hchecks)
    as (w1 & base & Hrun & Hdom & Hboot & Hrom & Hsrc & Htg).
  exists w1. eexists. split; [exact Hrun|]. split; [exact Hdom|].
  unfold bootOrderOrRom. destruct (v1.Interface_BootOrder iface); simpl;
    rewrite ?Hboot, ?Hrom, ?Hsrc, ?Htg; repeat split.
Qed.

Lemma bridge_masquerade_record_witness :
  let iface := {| v1.Interface_Name := "eth1"; v1.Interface_Model := "";
                  v1.Interface_PciAddress := ""; v1.Interface_BootOrder := None;
                  v1.Interface_Ports := [];
                  v1.Interface_Bridge := Some tt; v1.Interface_Slirp := Some tt;
                  v1.Interface_Masquerade := None; v1.Interface_SRIOV := None;
                  v1.Interface_Macvtap := None; v1.Interface_Vhostuser := Some tt |} in
  let spec := SampleHost.vmi [SampleHost.podNetwork "eth1"] [iface] None 1 in
  exists w' d,
    createDomainInterfaces_body SampleHost.host spec SampleHost.noContext false
      (indexNetworksByName (v1.Spec_Networks spec)) [] iface SampleHost.world0
      = (w', Done (Next [d]))
    /\ domain w' = SampleHost.emptyDomain
    /\ api.Interface_Type d = "ethernet"
    /\ api.Interface_BootOrder d = None
    /\ api.Interface_Rom d = Some {| api.Rom_Enabled := "no" |}.
Proof.
  intros iface spec.
  destruct (bridge_masquerade_record
              SampleHost.host spec SampleHost.noContext false
              (indexNetworksByName (v1.Spec_Networks spec)) [] iface
              (SampleHost.podNetwork "eth1") SampleHost.world0)
    as (w' & d & Hrun & Hdom & Hty & Hboot & Hrom & _).
  - vm_compute; reflexivity.
  - split; [reflexivity|left; discriminate].
  - split; [reflexivity|left; reflexivity].
  - exists w', d. repeat split; assumption.
Defined.

(** X16.  An interface with no binding set at all, with a declared
    network and the checks passed, is not rejected: a record is emitted
    for it with the empty type, without boot order, ROM entry, source
    path or target, and the domain is not touched. *)
Theorem unbound_interface_record {CPU : Type} (ext : Collaborators CPU)
        (vmi : v1.VirtualMachineInstance CPU) (c : ConverterContext)
        (virtioNetProhibited : bool) (networks : gmap string v1.Network)
        (domainInterfaces : list api.Interface) (iface : v1.Interface)
        (net : v1.Network) (w : World) :
  networks !! v1.Interface_Name iface = Some net ->
  unbound iface ->
  passesChecks ext virtioNetProhibited iface ->
  exists w' d,
    createDomainInterfaces_body ext vmi c virtioNetProhibited networks
                                domainInterfaces iface w
      = (w', Done (Next (domainInterfaces ++ [d])))
    /\ domain w' = domain w
    /\ api.Interface_Type d = ""
    /\ api.Interface_BootOrder d = None
    /\ api.Interface_Rom d = None
    /\ api.Interface_Source d = noSource
    /\ api.Interface_Target d = None.
Proof.
  intros Hnet Hbound Hchecks.
  exact (unbound_arm ext vmi c virtioNetProhibited networks domainInterfaces iface w net
                     Hnet Hbound Hchecks).
Qed.

Lemma unbound_interface_record_witness :
  let iface := {| v1.Interface_Name := "eth1"; v1.Interface_Model := "e1000";
                  v1.Interface_PciAddress := ""; v1.Interface_BootOrder := Some 1%N;
                  v1.Interface_Ports := [];
                  v1.Interface_Bridge := None; v1.Interface_Slirp := None;
                  v1.Interface_Masquerade := None; v1.Interface_SRIOV := None;
                  v1.Interface_Macvtap := None; v1.Interface_Vhostuser := None |} in
  let spec := SampleHost.vmi [SampleHost.podNetwork "eth1"] [iface] None 1 in
  exists w' d,
    createDomainInterfaces_body SampleHost.host spec SampleHost.noContext true
      (indexNetworksByName (v1.Spec_Networks spec)) [] iface SampleHost.world0
      = (w', Done (Next [d]))
    /\ api.Interface_Type d = ""
    /\ api.Interface_BootOrder d = None.
Proof.
  intros iface spec.
  destruct (unbound_interface_record
              SampleHost.host spec SampleHost.noContext true
              (indexNetworksByName (v1.Spec_Networks spec)) [] iface
              (SampleHost.podNetwork "eth1") SampleHost.world0)
    as (w' & d & Hrun & _ & Hty & Hboot & _).
  - vm_compute; reflexivity.
  - repeat split.
  - split; [reflexivity|left; reflexivity].
  - exists w', d. repeat split; assumption.
Defined.

(** *** What the loop requires, keeps and skips *)

Section LoopProperties.

Context {CPU : Type} (ext : Collaborators CPU).
Implicit Types (vmi : v1.VirtualMachineInstance CPU) (c : ConverterContext)
         (iface : v1.Interface) (w : World).

Lemma createDomainInterfaces_body_next_requires vmi c prohibited networks acc iface w w' acc' :
  createDomainInterfaces_body ext vmi c prohibited networks acc iface w
    = (w', Done (Next acc')) ->
  convertible ext prohibited networks iface.
Proof.
  intros Hbody. unfold convertible.
  destruct (networks !! v1.Interface_Name iface) as [net|] eqn:Hnet.
  - exists net. split; [reflexivity|]. intros Hsriov.
    destruct (createDomainInterfaces_body_check_fails
                ext vmi c prohibited networks acc iface w net Hnet Hsriov)
      as [Hchecks|[w2 [e Hfail]]]; [|congruence].
    split; [exact Hchecks|]. intros Hmv Hmultus.
    destruct (macvtap_arm ext vmi c prohibited networks acc iface w net Hnet Hmv Hchecks)
      as (w1 & base & Hrun & _).
    rewrite Hmultus in Hrun. congruence.
  - unfold createDomainInterfaces_body in Hbody. rewrite Hnet in Hbody. discriminate.
Qed.

Lemma createDomainInterfaces_loop_requires vmi c prohibited networks interfaces :
  forall acc w w' l,
  createDomainInterfaces_loop ext vmi c prohibited networks acc interfaces w
    = (w', Done (l, None)) ->
  Forall (convertible ext prohibited networks) interfaces.
Proof.
  induction interfaces as [|iface interfaces IH]; intros acc w w' l; [constructor|].
  simpl. unfold bind at 1.
  destruct (createDomainInterfaces_body ext vmi c prohibited networks acc iface w)
    as [w1 [[acc'|res]|]] eqn:Hbody; [| |discriminate].
  - intros Hloop. constructor; [|exact (IH _ _ _ _ Hloop)].
    exact (createDomainInterfaces_body_next_requires _ _ _ _ _ _ _ _ _ Hbody).
  - apply createDomainInterfaces_body_shape in Hbody. destruct Hbody as [_ Hne].
    intros [= _ E]. now rewrite E in Hne.
Qed.

(** A turn of the loop for an interface outside the slirp arm leaves the
    domain as it is, however the turn ends. *)
Lemma createDomainInterfaces_body_domain vmi c prohibited networks acc iface w :
  ~ slirpBound iface ->
  domain (fst (createDomainInterfaces_body ext vmi c prohibited networks acc iface w))
    = domain w.
Proof.
  intros Hns. unfold createDomainInterfaces_body.
  destruct (networks !! v1.Interface_Name iface) as [net|]; [|reflexivity].
  destruct (v1.Interface_SRIOV iface) eqn:Hsriov; [reflexivity|].
  unfold bind at 1.
  destruct (getInterfaceType_value iface w) as [w1 [-> Hd1]].
  destruct (String.eqb (effectiveModel iface) "virtio" && prohibited); [exact Hd1|].
  unfold bind at 1.
  destruct (CalculateNetworkQueues_value ext vmi w1) as [w2 [Hq Hd2]]. rewrite Hd1 in Hd2.
  match goal with
  | |- context [if ?b then _ else _] => destruct b
  end.
  all: unfold bind at 1; rewrite ?Hq; unfold ret at 1.
  all: destruct (negb (String.eqb (v1.Interface_PciAddress iface) ""));
    [destruct (NewPciAddressField ext (v1.Interface_PciAddress iface)) as [? [?|]]|];
    try assumption.
  all: destruct (v1.Interface_Bridge iface) eqn:Hb; [assumption|].
  all: destruct (v1.Interface_Masquerade iface) eqn:Hm; [assumption|].
  all: destruct (v1.Interface_Slirp iface) eqn:Hs;
    [exfalso; apply Hns; repeat split; congruence|].
  all: cbv beta iota delta [orb].
  all: destruct (v1.Interface_Macvtap iface);
    [destruct (v1.Network_Multus net); assumption|].
  all: destruct (v1.Interface_Vhostuser iface); [|assumption].
  all: unfold bind at 1, lift;
    destruct (getPodInterfaceName vmi (v1.Interface_Name iface)) as [[podName perr]|];
    [|assumption].
  all: destruct perr; run_M;
    destruct (getVhostuserInfo podName c) as [[vhostPath vhostMode] [e'|]]; assumption.
Qed.

Lemma createDomainInterfaces_loop_domain vmi c prohibited networks interfaces :
  forall acc w,
  Forall (fun iface => ~ slirpBound iface) interfaces ->
  domain (fst (createDomainInterfaces_loop ext vmi c prohibited networks acc interfaces w))
    = domain w.
Proof.
  induction interfaces as [|iface interfaces IH]; intros acc w Hall; [reflexivity|].
  inversion Hall as [|? ? Hns Hrest]; subst.
  pose proof (createDomainInterfaces_body_domain vmi c prohibited networks acc iface w Hns)
    as Hbody.
  simpl. unfold bind at 1.
  destruct (createDomainInterfaces_body ext vmi c prohibited networks acc iface w)
    as [w1 [[acc'|res]|]]; simpl in Hbody; [|exact Hbody|exact Hbody].
  rewrite (IH acc' w1 Hrest). exact Hbody.
Qed.

(** An SR-IOV-bound interface with an indexed network is passed over. *)
Lemma createDomainInterfaces_loop_skips_sriov vmi c prohibited networks interfaces :
  forall acc w,
  Forall (fun iface => v1.Interface_SRIOV iface <> None ->
                       is_Some (networks !! v1.Interface_Name iface)) interfaces ->
  createDomainInterfaces_loop ext vmi c prohibited networks acc interfaces w
    = createDomainInterfaces_loop ext vmi c prohibited networks acc
        (filter (fun iface => v1.Interface_SRIOV iface = None) interfaces) w.
Proof.
  induction interfaces as [|iface interfaces IH]; intros acc w Hall; [reflexivity|].
  inversion Hall as [|? ? Hnet Hrest]; subst.
  rewrite filter_cons. destruct (decide (v1.Interface_SRIOV iface = None)) as [Hs|Hs].
  - cbn [createDomainInterfaces_loop]. unfold bind.
    destruct (createDomainInterfaces_body ext vmi c prohibited networks acc iface w)
      as [w1 [[acc'|res]|]]; [now apply IH|reflexivity|reflexivity].
  - rewrite <- (IH acc w Hrest). simpl. unfold bind at 1.
    unfold createDomainInterfaces_body.
    destruct (Hnet Hs) as [net ->].
    destruct (v1.Interface_SRIOV iface); [reflexivity|congruence].
Qed.

End LoopProperties.

(** X14.  A conversion that succeeds has found, for every interface of
    the spec, SR-IOV-bound ones included, a declared network of its
    name; and every interface that is not SR-IOV-bound has passed the
    virtio check (its effective model is not virtio when virtio emulation
    is prohibited), has a PCI address that is empty or parses, and has a
    Multus network when it reaches the macvtap arm. *)
Theorem createDomainInterfaces_success_requires {CPU : Type} (ext : Collaborators CPU)
        (vmi : v1.VirtualMachineInstance CPU) (c : ConverterContext)
        (virtioNetProhibited : bool) (w w' : World)
        (domainInterfaces : list api.Interface) :
  createDomainInterfaces ext vmi c virtioNetProhibited w
    = (w', Done (domainInterfaces, None)) ->
  Forall hasOneNetworkType (v1.Spec_Networks vmi)
  /\ Forall (fun iface =>
               exists net,
                 In net (v1.Spec_Networks vmi)
                 /\ v1.Network_Name net = v1.Interface_Name iface
                 /\ (v1.Interface_SRIOV iface = None ->
                     (effectiveModel iface = "virtio" -> virtioNetProhibited = false)
                     /\ (v1.Interface_PciAddress iface = ""
                         \/ snd (NewPciAddressField ext (v1.Interface_PciAddress iface)) = None)
                     /\ (macvtapBound iface -> v1.Network_Multus net <> None)))
            (v1.Spec_Domain_Devices_Interfaces vmi).
Proof.
  unfold createDomainInterfaces. intros H.
  destruct (validateNetworksTypes (v1.Spec_Networks vmi)) eqn:Hval; [discriminate|].
  split; [now apply validateNetworksTypes_ok_iff|].
  apply createDomainInterfaces_loop_requires in H.
  eapply Forall_impl; [exact H|].
  intros iface [net [Hnet Hreq]]. exists net.
  apply indexNetworksByName_declared in Hnet.
  destruct Hnet as [Hnet|[Hin Hname]]; [now rewrite lookup_empty in Hnet|].
  split; [exact Hin|]. split; [exact Hname|].
  intros Hsriov. destruct (Hreq Hsriov) as [[Hvirtio Hpci] Hmv].
  split; [|split; [exact Hpci|exact Hmv]].
  intros Hv. rewrite Hv in Hvirtio. exact Hvirtio.
Qed.

Lemma createDomainInterfaces_success_requires_witness :
  let spec := SampleHost.vmi [SampleHost.podNetwork "default";
                              SampleHost.multusNetwork "sr" false]
                             [SampleHost.bridge "default" "e1000"; SampleHost.sriov "sr"]
                             None 1 in
  let run := createDomainInterfaces SampleHost.host spec SampleHost.noContext true
                                    SampleHost.world0 in
  let l := match snd run with Done (l, _) => l | Panic _ => [] end in
  Forall (fun iface => exists net, In net (v1.Spec_Networks spec)
                                   /\ v1.Network_Name net = v1.Interface_Name iface)
         (v1.Spec_Domain_Devices_Interfaces spec).
Proof.
  intros spec run l.
  destruct (createDomainInterfaces_success_requires
              SampleHost.host spec SampleHost.noContext true SampleHost.world0 (fst run) l)
    as [_ H].
  - vm_compute; reflexivity.
  - eapply Forall_impl; [exact H|]. intros iface [net [H1 [H2 _]]]. eauto.
Defined.

(** X17.  When no interface of the spec reaches the slirp arm, the
    domain is after the call what it was before it, whether the call
    succeeds, returns an error or does not return. *)
Theorem createDomainInterfaces_keeps_domain {CPU : Type} (ext : Collaborators CPU)
        (vmi : v1.VirtualMachineInstance CPU) (c : ConverterContext)
        (virtioNetProhibited : bool) (w : World) :
  Forall (fun iface => ~ slirpBound iface) (v1.Spec_Domain_Devices_Interfaces vmi) ->
  domain (fst (createDomainInterfaces ext vmi c virtioNetProhibited w)) = domain w.
Proof.
  intros Hall. unfold createDomainInterfaces.
  destruct (validateNetworksTypes (v1.Spec_Networks vmi)); [reflexivity|].
  now apply createDomainInterfaces_loop_domain.
Qed.

Lemma createDomainInterfaces_keeps_domain_witness :
  let spec := SampleHost.vmi [SampleHost.podNetwork "default";
                              SampleHost.multusNetwork "fast" false]
                             [SampleHost.bridge "default" ""; SampleHost.vhostuser "fast" ""]
                             (Some true) 4 in
  domain (fst (createDomainInterfaces
                 SampleHost.host spec
                 (SampleHost.context
                    [SampleHost.vhostEntry "ns/net1" "/var/run/vhu/vhu1.sock" "server"])
                 false SampleHost.world0))
  = SampleHost.emptyDomain.
Proof.
  intros spec.
  apply (createDomainInterfaces_keeps_domain SampleHost.host spec).
  constructor; [intros (_ & H & _); discriminate H|].
  constructor; [intros (_ & _ & _ & H); now apply H|constructor].
Defined.

(** X18.  SR-IOV-bound interfaces whose network is indexed have no part
    in the loop: it runs as it does on the list without them, for the
    same spec.  (An SR-IOV-bound interface without a network still ends
    the conversion with [failed to find network].) *)
Theorem createDomainInterfaces_loop_without_sriov {CPU : Type} (ext : Collaborators CPU)
        (vmi : v1.VirtualMachineInstance CPU) (c : ConverterContext)
        (virtioNetProhibited : bool) (networks : gmap string v1.Network)
        (domainInterfaces : list api.Interface) (interfaces : list v1.Interface)
        (w : World) :
  (Forall (fun iface => v1.Interface_SRIOV iface <> None ->
                        is_Some (networks !! v1.Interface_Name iface)) interfaces ->
   createDomainInterfaces_loop ext vmi c virtioNetProhibited networks
                               domainInterfaces interfaces w
   = createDomainInterfaces_loop ext vmi c virtioNetProhibited networks domainInterfaces
       (filter (fun iface => v1.Interface_SRIOV iface = None) interfaces) w)
  /\ (forall iface,
        networks !! v1.Interface_Name iface = None ->
        createDomainInterfaces_body ext vmi c virtioNetProhibited networks
                                    domainInterfaces iface w
        = (w, Done (Return ([], Some ("failed to find network "
                                      +:+ v1.Interface_Name iface))))).
Proof.
  split; [apply createDomainInterfaces_loop_skips_sriov|].
  intros iface Hnet. unfold createDomainInterfaces_body. now rewrite Hnet.
Qed.

Lemma createDomainInterfaces_loop_without_sriov_witness :
  let spec := SampleHost.vmi [SampleHost.podNetwork "default";
                              SampleHost.multusNetwork "sr" false]
                             [SampleHost.sriov "sr"; SampleHost.bridge "default" ""]
                             None 1 in
  createDomainInterfaces_loop SampleHost.host spec SampleHost.noContext false
    (indexNetworksByName (v1.Spec_Networks spec)) []
    [SampleHost.sriov "sr"; SampleHost.bridge "default" ""] SampleHost.world0
  = createDomainInterfaces_loop SampleHost.host spec SampleHost.noContext false
      (indexNetworksByName (v1.Spec_Networks spec)) []
      [SampleHost.bridge "default" ""] SampleHost.world0
  /\ snd (createDomainInterfaces_body SampleHost.host spec SampleHost.noContext false
            (indexNetworksByName (v1.Spec_Networks spec)) []
            (SampleHost.sriov "gone") SampleHost.world0)
     = Done (Return ([], Some "failed to find network gone")).
Proof.
  intros spec. split.
  - apply (proj1 (createDomainInterfaces_loop_without_sriov
                    SampleHost.host spec SampleHost.noContext false
                    (indexNetworksByName (v1.Spec_Networks spec)) []
                    [SampleHost.sriov "sr"; SampleHost.bridge "default" ""]
                    SampleHost.world0)).
    repeat constructor; intros _; vm_compute; eauto.
  - rewrite (proj2 (createDomainInterfaces_loop_without_sriov
                      SampleHost.host spec SampleHost.noContext false
                      (indexNetworksByName (v1.Spec_Networks spec)) [] []
                      SampleHost.world0) (SampleHost.sriov "gone"));
      [reflexivity|vm_compute; reflexivity].
Defined.

(** X19.  The PCI address.  The record emitted for an interface carries
    the address [device.NewPciAddressField] parsed from the interface's
    [PciAddress] when that is not empty, and no address when it is; when
    the address does not parse, the turn ends the conversion with
    [failed to configure interface <name>: <error>] and the domain
    untouched, before any binding is looked at. *)
Theorem pci_address_of_record {CPU : Type} (ext : Collaborators CPU)
        (vmi : v1.VirtualMachineInstance CPU) (c : ConverterContext)
        (virtioNetProhibited : bool) (networks : gmap string v1.Network)
        (domainInterfaces : list api.Interface) (iface : v1.Interface) (w : World) :
  (forall w' acc',
     createDomainInterfaces_body ext vmi c virtioNetProhibited networks
                                 domainInterfaces iface w
       = (w', Done (Next acc')) ->
     v1.Interface_SRIOV iface = None ->
     exists d,
       acc' = domainInterfaces ++ [d]
       /\ api.Interface_Address d
          = if negb (String.eqb (v1.Interface_PciAddress iface) "")
            then fst (NewPciAddressField ext (v1.Interface_PciAddress iface))
            else None)
  /\ (forall net addr e,
        networks !! v1.Interface_Name iface = Some net ->
        v1.Interface_SRIOV iface = None ->
        String.eqb (effectiveModel iface) "virtio" && virtioNetProhibited = false ->
        v1.Interface_PciAddress iface <> "" ->
        NewPciAddressField ext (v1.Interface_PciAddress iface) = (addr, Some e) ->
        exists w',
          createDomainInterfaces_body ext vmi c virtioNetProhibited networks
                                      domainInterfaces iface w
            = (w', Done (Return ([], Some ("failed to configure interface "
                                           +:+ v1.Interface_Name iface +:+ ": " +:+ e))))
          /\ domain w' = domain w).
Proof.
  split.
  - intros w' acc'. unfold createDomainInterfaces_body. intros H Hsriov. revert H.
    destruct (networks !! v1.Interface_Name iface) as [net|]; [|discriminate].
    rewrite Hsriov. unfold bind at 1.
    destruct (getInterfaceType_value iface w) as [w1 [-> _]].
    destruct (String.eqb (effectiveModel iface) "virtio" && virtioNetProhibited);
      [discriminate|].
    unfold bind at 1.
    destruct (CalculateNetworkQueues_value ext vmi w1) as [w2 [Hq _]].
    destruct (negb (String.eqb (v1.Interface_PciAddress iface) ""));
      [destruct (NewPciAddressField ext (v1.Interface_PciAddress iface)) as [addr [e|]]|].
    all: match goal with
         | |- context [if ?b then _ else _] => destruct b
         end.
    all: run_M; rewrite ?Hq.
    all: repeat match goal with
           | |- context [match ?x with _ => _ end] =>
               lazymatch x with
               | context [match _ with _ => _ end] => fail
               | _ => destruct x eqn:?
               end
           end.
    all: try discriminate.
    all: intros [= <- <-]; eexists; split; [reflexivity|].
    all: unfold bootOrderOrRom;
      repeat match goal with
             | |- context [match ?x with _ => _ end] => destruct x
             end; reflexivity.
  - intros net addr e Hnet Hsriov Hvirtio Hne Hnew.
    unfold createDomainInterfaces_body. rewrite Hnet, Hsriov. unfold bind at 1.
    destruct (getInterfaceType_value iface w) as [w1 [-> Hd]]. rewrite Hvirtio.
    apply String.eqb_neq in Hne. rewrite Hne, Hnew. cbv beta iota delta [negb].
    unfold bind at 1.
    match goal with
    | |- context [if ?b then _ else _] => destruct b
    end.
    + unfold bind at 1.
      destruct (CalculateNetworkQueues_value ext vmi w1) as [w2 [-> Hd2]].
      unfold ret. exists w2. split; [reflexivity|congruence].
    + unfold ret. exists w1. split; [reflexivity|exact Hd].
Qed.

Lemma pci_address_of_record_witness :
  let good := {| v1.Interface_Name := "default"; v1.Interface_Model := "";
                 v1.Interface_PciAddress := "0000:81:01.0"; v1.Interface_BootOrder := None;
                 v1.Interface_Ports := [];
                 v1.Interface_Bridge := Some tt; v1.Interface_Slirp := None;
                 v1.Interface_Masquerade := None; v1.Interface_SRIOV := None;
                 v1.Interface_Macvtap := None; v1.Interface_Vhostuser := None |} in
  let bad := {| v1.Interface_Name := "default"; v1.Interface_Model := "";
                v1.Interface_PciAddress := "81:01.0"; v1.Interface_BootOrder := None;
                v1.Interface_Ports := [];
                v1.Interface_Bridge := Some tt; v1.Interface_Slirp := None;
                v1.Interface_Masquerade := None; v1.Interface_SRIOV := None;
                v1.Interface_Macvtap := None; v1.Interface_Vhostuser := None |} in
  let spec := SampleHost.vmi [SampleHost.podNetwork "default"] [good] None 1 in
  let networks := indexNetworksByName (v1.Spec_Networks spec) in
  let run := createDomainInterfaces_body SampleHost.host spec SampleHost.noContext false
               networks [] good SampleHost.world0 in
  let acc' := match snd run with Done (Next acc') => acc' | _ => [] end in
  (exists d, acc' = [d]
             /\ api.Interface_Address d
                = Some {| api.Address_Type := "pci"; api.Address_Domain := "0x0000";
                          api.Address_Bus := "0x81"; api.Address_Slot := "0x01";
                          api.Address_Function := "0x0" |})
  /\ exists w',
       createDomainInterfaces_body SampleHost.host spec SampleHost.noContext false
                                   networks [] bad SampleHost.world0
       = (w', Done (Return ([], Some "failed to configure interface default: pci address is malformed: 81:01.0"))).
Proof.
  intros good bad spec networks run acc'. split.
  - destruct (proj1 (pci_address_of_record
                       SampleHost.host spec SampleHost.noContext false networks [] good
                       SampleHost.world0) (fst run) acc')
      as [d [Hacc Haddr]].
    + vm_compute; reflexivity.
    + reflexivity.
    + exists d. split; [exact Hacc|exact Haddr].
  - destruct (proj2 (pci_address_of_record
                       SampleHost.host spec SampleHost.noContext false networks [] bad
                       SampleHost.world0)
                (SampleHost.podNetwork "default") None "pci address is malformed: 81:01.0")
      as [w' [Hrun _]].
    + vm_compute; reflexivity.
    + reflexivity.
    + reflexivity.
    + discriminate.
    + reflexivity.
    + exists w'. exact Hrun.
Defined.

(** X20.  When virtio emulation is prohibited, an interface that is not
    SR-IOV-bound and whose effective model is virtio ends the conversion
    at once with [In-kernel virtio-net device emulation '/dev/vhost-net'
    not present]: its PCI address and its binding are not looked at, and
    neither the domain nor the log is touched. *)
Theorem virtio_prohibited_aborts {CPU : Type} (ext : Collaborators CPU)
        (vmi : v1.VirtualMachineInstance CPU) (c : ConverterContext)
        (networks : gmap string v1.Network)
        (domainInterfaces : list api.Interface) (iface : v1.Interface)
        (net : v1.Network) (w : World) :
  networks !! v1.Interface_Name iface = Some net ->
  v1.Interface_SRIOV iface = None ->
  effectiveModel iface = "virtio" ->
  createDomainInterfaces_body ext vmi c true networks domainInterfaces iface w
    = (w, Done (Return ([], Some "In-kernel virtio-net device emulation '/dev/vhost-net' not present"))).
Proof.
  intros Hnet Hsriov Hvirtio.
  assert (Hs : v1.Interface_Slirp iface = None).
  { destruct (v1.Interface_Slirp iface) eqn:Hs; [|reflexivity].
    destruct (effectiveModel_slirp iface) as [_ H]; [congruence|].
    rewrite Hvirtio in H. discriminate H. }
  unfold createDomainInterfaces_body. rewrite Hnet, Hsriov. unfold bind at 1.
  assert (Hval : getInterfaceType iface w = (w, Done "virtio")).
  { unfold getInterfaceType. unfold effectiveModel in Hvirtio. rewrite Hs in *.
    destruct (negb (String.eqb (v1.Interface_Model iface) "")); now rewrite ?Hvirtio. }
  rewrite Hval. reflexivity.
Qed.

Lemma virtio_prohibited_aborts_witness :
  let iface := {| v1.Interface_Name := "default"; v1.Interface_Model := "";
                  v1.Interface_PciAddress := "not-an-address";
                  v1.Interface_BootOrder := None; v1.Interface_Ports := [];
                  v1.Interface_Bridge := None; v1.Interface_Slirp := None;
                  v1.Interface_Masquerade := None; v1.Interface_SRIOV := None;
                  v1.Interface_Macvtap := Some tt; v1.Interface_Vhostuser := None |} in
  let spec := SampleHost.vmi [SampleHost.podNetwork "default"] [iface] None 1 in
  createDomainInterfaces_body SampleHost.host spec SampleHost.noContext true
    (indexNetworksByName (v1.Spec_Networks spec)) [] iface SampleHost.world0
  = (SampleHost.world0,
     Done (Return ([], Some "In-kernel virtio-net device emulation '/dev/vhost-net' not present"))).
Proof.
  intros iface spec.
  apply (virtio_prohibited_aborts SampleHost.host spec SampleHost.noContext
           (indexNetworksByName (v1.Spec_Networks spec)) [] iface
           (SampleHost.podNetwork "default") SampleHost.world0).
  - vm_compute; reflexivity.
  - reflexivity.
  - reflexivity.
Defined.

Section PlainSpecs.

Context {CPU : Type} (ext : Collaborators CPU).
Implicit Types (vmi : v1.VirtualMachineInstance CPU) (c : ConverterContext)
         (iface : v1.Interface) (w : World).

Lemma createDomainInterfaces_body_plain vmi c prohibited networks acc iface w :
  convertible ext prohibited networks iface ->
  plainlyBound iface ->
  exists w' acc',
    createDomainInterfaces_body ext vmi c prohibited networks acc iface w
      = (w', Done (Next acc')).
Proof.
  intros [net [Hnet Hreq]] Hplain.
  destruct (v1.Interface_SRIOV iface) as [u|] eqn:Hsriov.
  - unfold createDomainInterfaces_body. rewrite Hnet, Hsriov. unfold ret. eauto.
  - destruct (Hreq eq_refl) as [Hchecks Hmultus].
    destruct Hplain as [H|[H|[H|H]]]; [congruence| | |].
    + destruct (bridge_arm ext vmi c prohibited networks acc iface w net Hnet H Hchecks)
        as (w1 & base & Hrun & _). eauto.
    + destruct (macvtap_arm ext vmi c prohibited networks acc iface w net Hnet H Hchecks)
        as (w1 & base & Hrun & _).
      destruct (v1.Network_Multus net); [eauto|]. now destruct (Hmultus H).
    + destruct (unbound_arm ext vmi c prohibited networks acc iface w net Hnet H Hchecks)
        as (w1 & base & Hrun & _). eauto.
Qed.

Lemma createDomainInterfaces_loop_plain vmi c prohibited networks interfaces :
  forall acc w,
  Forall (convertible ext prohibited networks) interfaces ->
  Forall plainlyBound interfaces ->
  exists w' l,
    createDomainInterfaces_loop ext vmi c prohibited networks acc interfaces w
      = (w', Done (l, None)).
Proof.
  induction interfaces as [|iface interfaces IH]; intros acc w Hconv Hplain.
  - simpl. unfold ret. eauto.
  - inversion Hconv as [|? ? Hc Hcs]; inversion Hplain as [|? ? Hp Hps]; subst.
    destruct (createDomainInterfaces_body_plain vmi c prohibited networks acc iface w Hc Hp)
      as (w1 & acc' & Hbody).
    simpl. unfold bind at 1. rewrite Hbody. now apply IH.
Qed.

End PlainSpecs.

(** X21.  For a spec each of whose interfaces is SR-IOV-bound, reaches
    the bridge/masquerade or the macvtap arm, or has no binding, the
    conversion succeeds exactly when every network has one source kind
    and every interface has an indexed network of its name and, unless
    SR-IOV-bound, passes the virtio and PCI checks and, in the macvtap
    arm, has a Multus network.  It then leaves the domain untouched. *)
Theorem createDomainInterfaces_plain_success_iff {CPU : Type} (ext : Collaborators CPU)
        (vmi : v1.VirtualMachineInstance CPU) (c : ConverterContext)
        (virtioNetProhibited : bool) (w : World) :
  Forall plainlyBound (v1.Spec_Domain_Devices_Interfaces vmi) ->
  ((exists w' l, createDomainInterfaces ext vmi c virtioNetProhibited w = (w', Done (l, None)))
   <-> Forall hasOneNetworkType (v1.Spec_Networks vmi)
       /\ Forall (convertible ext virtioNetProhibited
                              (indexNetworksByName (v1.Spec_Networks vmi)))
                 (v1.Spec_Domain_Devices_Interfaces vmi))
  /\ domain (fst (createDomainInterfaces ext vmi c virtioNetProhibited w)) = domain w.
Proof.
  intros Hplain. split.
  - unfold createDomainInterfaces. split.
    + intros (w' & l & H).
      destruct (validateNetworksTypes (v1.Spec_Networks vmi)) eqn:Hval; [discriminate|].
      split; [now apply validateNetworksTypes_ok_iff|].
      exact (createDomainInterfaces_loop_requires ext _ _ _ _ _ _ _ _ _ H).
    + intros [Hval Hconv]. apply validateNetworksTypes_ok_iff in Hval. rewrite Hval.
      now apply createDomainInterfaces_loop_plain.
  - unfold createDomainInterfaces.
    destruct (validateNetworksTypes (v1.Spec_Networks vmi)); [reflexivity|].
    apply createDomainInterfaces_loop_domain.
    eapply Forall_impl; [exact Hplain|].
    intros iface [H|[[_ H]|[H|H]]] (Hsriov & Hb & Hm & Hs).
    + congruence.
    + destruct H; congruence.
    + destruct H as (_ & _ & _ & H & _). congruence.
    + destruct H as (_ & _ & _ & H & _). congruence.
Qed.

Lemma createDomainInterfaces_plain_success_iff_witness :
  let spec := SampleHost.vmi [SampleHost.podNetwork "default";
                              SampleHost.multusNetwork "fast" true]
                             [SampleHost.bridge "default" "e1000";
                              SampleHost.macvtap "fast" (Some 2%N)] None 1 in
  (exists w' l, createDomainInterfaces SampleHost.host spec SampleHost.noContext false
                                       SampleHost.world0 = (w', Done (l, None)))
  /\ domain (fst (createDomainInterfaces SampleHost.host spec SampleHost.noContext false
                                         SampleHost.world0))
     = SampleHost.emptyDomain.
Proof.
  intros spec.
  assert (Hb : bridgeBound (SampleHost.bridge "default" "e1000"))
    by (split; [reflexivity|left; discriminate]).
  assert (Hm : macvtapBound (SampleHost.macvtap "fast" (Some 2%N)))
    by (repeat split; first [reflexivity|discriminate]).
  destruct (createDomainInterfaces_plain_success_iff
              SampleHost.host spec SampleHost.noContext false SampleHost.world0)
    as [Hiff Hdom].
  - constructor; [right; left; exact Hb|].
    constructor; [right; right; left; exact Hm|constructor].
  - split; [|exact Hdom]. apply Hiff. split.
    + constructor; [left; split; [discriminate|reflexivity]|].
      constructor; [right; split; [reflexivity|discriminate]|constructor].
    + constructor.
      * exists (SampleHost.podNetwork "default"). split; [vm_compute; reflexivity|].
        intros _. split; [split; [reflexivity|left; reflexivity]|].
        intros (_ & H & _). discriminate H.
      * constructor; [|constructor].
        exists (SampleHost.multusNetwork "fast" true). split; [vm_compute; reflexivity|].
        intros _. split; [split; [reflexivity|left; reflexivity]|].
        intros _. discriminate.
Defined.

(** *** The records of a successful conversion *)

Section Records.

Context {CPU : Type} (ext : Collaborators CPU).
Implicit Types (vmi : v1.VirtualMachineInstance CPU) (c : ConverterContext)
         (iface : v1.Interface) (w : World).

(** A property that every turn of the loop gives the record it appends
    holds, in order, of the records of a loop that runs to its end. *)
Lemma createDomainInterfaces_loop_records vmi c prohibited networks
      (P : v1.Interface -> api.Interface -> Prop) :
  (forall acc iface w w' acc',
     createDomainInterfaces_body ext vmi c prohibited networks acc iface w
       = (w', Done (Next acc')) ->
     v1.Interface_SRIOV iface = None ->
     exists d, acc' = acc ++ [d] /\ P iface d) ->
  forall interfaces acc w w' l,
    createDomainInterfaces_loop ext vmi c prohibited networks acc interfaces w
      = (w', Done (l, None)) ->
    exists records,
      l = acc ++ records
      /\ Forall2 P (filter (fun iface => v1.Interface_SRIOV iface = None) interfaces) records.
Proof.
  intros Hturn. induction interfaces as [|iface interfaces IH]; intros acc w w' l.
  - intros [= <- <-]. exists []. split; [now rewrite app_nil_r|constructor].
  - simpl. unfold bind at 1.
    destruct (createDomainInterfaces_body ext vmi c prohibited networks acc iface w)
      as [w1 [[acc'|res]|]] eqn:Hbody; [| |discriminate].
    + intros Hloop. apply IH in Hloop. destruct Hloop as (records & -> & Hall).
      rewrite filter_cons.
      destruct (v1.Interface_SRIOV iface) as [u|] eqn:Hs.
      * apply createDomainInterfaces_body_shape in Hbody. rewrite Hs in Hbody. subst acc'.
        destruct (decide (Some u = None)); [discriminate|]. eauto.
      * destruct (Hturn _ _ _ _ _ Hbody Hs) as (d & -> & Hd).
        destruct (decide (None = None)); [|congruence].
        exists (d :: records). split; [now rewrite <- app_assoc|now constructor].
    + apply createDomainInterfaces_body_shape in Hbody. destruct Hbody as [_ Hne].
      intros [= <- ->]. contradiction.
Qed.

Lemma createDomainInterfaces_records vmi c prohibited w w' l
      (P : v1.Interface -> api.Interface -> Prop) :
  (forall acc iface w w' acc',
     createDomainInterfaces_body ext vmi c prohibited
       (indexNetworksByName (v1.Spec_Networks vmi)) acc iface w
       = (w', Done (Next acc')) ->
     v1.Interface_SRIOV iface = None ->
     exists d, acc' = acc ++ [d] /\ P iface d) ->
  createDomainInterfaces ext vmi c prohibited w = (w', Done (l, None)) ->
  Forall2 P (filter (fun iface => v1.Interface_SRIOV iface = None)
                    (v1.Spec_Domain_Devices_Interfaces vmi)) l.
Proof.
  intros Hturn. unfold createDomainInterfaces.
  destruct (validateNetworksTypes (v1.Spec_Networks vmi)); [discriminate|].
  intros Hloop.
  destruct (createDomainInterfaces_loop_records _ _ _ _ P Hturn _ _ _ _ _ Hloop)
    as (records & -> & Hall).
  exact Hall.
Qed.

(** The PCI address and the fields of the arm, for the record a turn
    appends. *)
Lemma createDomainInterfaces_body_arm vmi c prohibited networks acc iface w w' acc' :
  createDomainInterfaces_body ext vmi c prohibited networks acc iface w
    = (w', Done (Next acc')) ->
  v1.Interface_SRIOV iface = None ->
  exists d,
    acc' = acc ++ [d]
    /\ api.Interface_Address d
       = (if negb (String.eqb (v1.Interface_PciAddress iface) "")
          then fst (NewPciAddressField ext (v1.Interface_PciAddress iface))
          else None)
    /\ armFields ext c iface d.
Proof.
  unfold createDomainInterfaces_body, armFields, slirpRecord, bridgeBound, macvtapBound,
    slirpBound, unbound, vhostuserBound, aliasOf.
  intros H Hsriov. revert H.
  destruct (networks !! v1.Interface_Name iface) as [net|]; [|discriminate].
  rewrite Hsriov.
  unfold bind at 1.
  destruct (getInterfaceType_value iface w) as [w1 [-> _]].
  destruct (String.eqb (effectiveModel iface) "virtio" && prohibited) eqn:Hvirtio;
    [discriminate|].
  unfold bind at 1.
  destruct (CalculateNetworkQueues_value ext vmi w1) as [w2 [Hq _]].
  destruct (negb (String.eqb (v1.Interface_PciAddress iface) ""));
    [destruct (NewPciAddressField ext (v1.Interface_PciAddress iface)) as [addr [e|]]|].
  all: match goal with
       | |- context [if ?b then _ else _] => destruct b eqn:Hmq
       end.
  all: run_M; rewrite ?Hq.
  all: destruct (v1.Interface_Bridge iface) eqn:Hb;
    destruct (v1.Interface_Masquerade iface) eqn:Hm;
    destruct (v1.Interface_Slirp iface) eqn:Hs;
    destruct (v1.Interface_Macvtap iface) eqn:Hmv;
    destruct (v1.Interface_Vhostuser iface) eqn:Hv;
    cbv beta iota delta [negb orb].
  all: repeat match goal with
         | |- context [match ?x with _ => _ end] =>
             lazymatch x with
             | context [match _ with _ => _ end] => fail
             | v1.Interface_BootOrder _ => fail
             | _ => destruct x eqn:?
             end
         end.
  all: try discriminate.
  all: intros [= <- <-]; eexists; split; [reflexivity|].
  all: unfold bootOrderOrRom; destruct (v1.Interface_BootOrder iface); simpl.
  all: split; [reflexivity|].
  all: try (exfalso;
            pose proof (proj2 (effectiveModel_slirp iface ltac:(congruence))) as Hnv;
            rewrite Hnv in Hmq; discriminate Hmq).
  all: repeat split; intros; try reflexivity; exfalso; intuition congruence.
Qed.

(** A vhost-user-bound interface whose name resolution does not return
    ends the turn the same way. *)
Lemma vhostuser_arm_panic vmi c prohibited networks acc iface w net reason :
  networks !! v1.Interface_Name iface = Some net ->
  vhostuserBound iface ->
  passesChecks ext prohibited iface ->
  getPodInterfaceName vmi (v1.Interface_Name iface) = Panic reason ->
  snd (createDomainInterfaces_body ext vmi c prohibited networks acc iface w) = Panic reason.
Proof.
  intros Hnet (Hsriov & Hb & Hm & Hs & Hmv & Hv) [Hvirtio Hpci] Hpod.
  destruct (v1.Interface_Vhostuser iface) as [u|] eqn:Hvu; [clear Hv|congruence].
  through_checks ext vmi iface Hnet Hsriov Hvirtio Hpci w w1.
  all: rewrite Hb, Hm, Hs, Hmv, Hvu; cbv beta iota delta [negb orb].
  all: unfold bind at 1, lift at 1; rewrite Hpod; reflexivity.
Qed.

Lemma createDomainInterfaces_body_vhostuser vmi c prohibited acc iface w w' acc' :
  validateNetworksTypes (v1.Spec_Networks vmi) = None ->
  createDomainInterfaces_body ext vmi c prohibited
    (indexNetworksByName (v1.Spec_Networks vmi)) acc iface w
    = (w', Done (Next acc')) ->
  v1.Interface_SRIOV iface = None ->
  exists d, acc' = acc ++ [d] /\ vhostuserFields ext vmi c iface d.
Proof.
  intros Hval H Hsriov.
  destruct (createDomainInterfaces_body_record ext _ _ _ _ _ _ _ _ _ H Hsriov)
    as (d & -> & _).
  exists d. split; [reflexivity|]. intros Hbound.
  destruct (indexNetworksByName (v1.Spec_Networks vmi) !! v1.Interface_Name iface)
    as [net|] eqn:Hnet;
    [|unfold createDomainInterfaces_body in H; rewrite Hnet in H; discriminate H].
  destruct (createDomainInterfaces_body_check_fails ext vmi c prohibited _ acc iface w net
                                                    Hnet Hsriov)
    as [Hchecks|(w2 & e & He)]; [|rewrite He in H; discriminate H].
  destruct (getPodInterfaceName vmi (v1.Interface_Name iface)) as [[podName perr]|reason]
    eqn:Hpod.
  - destruct perr as [e|];
      [now destruct (getPodInterfaceName_no_error_after_validation
                       vmi _ net Hval Hnet podName e)|].
    destruct (vhostuser_arm ext vmi c prohibited _ acc iface w net podName None
                            Hnet Hbound Hchecks Hpod) as (w1 & base & Hrun & _).
    rewrite Hrun in H. cbv zeta in H.
    destruct (getVhostuserInfo podName c) as [[vhostPath vhostMode] [e|]] eqn:Hinfo;
      [discriminate H|].
    injection H as _ H. apply app_inv_head in H. injection H as <-.
    exists podName, vhostPath, vhostMode. repeat split; first [reflexivity|assumption].
  - pose proof (vhostuser_arm_panic vmi c prohibited _ acc iface w net reason
                                    Hnet Hbound Hchecks Hpod) as Hp.
    rewrite H in Hp. discriminate Hp.
Qed.

End Records.

(** X22.  On success the records [createDomainInterfaces] returns pair
    off, in order, with the interfaces of the spec that are not
    SR-IOV-bound, and each carries the fields of its interface: the
    alias of the interface name, the translated effective model, the
    parsed PCI address when one is given, and as driver the one with the
    two fixed queue sizes when the interface is vhost-user-bound,
    otherwise the vhost driver with the capped queue count when the
    model is virtio and multi-queue is requested, and none at all in
    every other case. *)
Theorem createDomainInterfaces_records_common {CPU : Type} (ext : Collaborators CPU)
        (vmi : v1.VirtualMachineInstance CPU) (c : ConverterContext)
        (virtioNetProhibited : bool) (w w' : World) (l : list api.Interface) :
  createDomainInterfaces ext vmi c virtioNetProhibited w = (w', Done (l, None)) ->
  Forall2 (commonFields ext vmi c)
          (filter (fun iface => v1.Interface_SRIOV iface = None)
                  (v1.Spec_Domain_Devices_Interfaces vmi)) l.
Proof.
  apply createDomainInterfaces_records.
  intros acc iface w0 w1 acc' H Hsriov.
  destruct (createDomainInterfaces_body_record ext _ _ _ _ _ _ _ _ _ H Hsriov)
    as (d & -> & Halias & Hmodel & Hdrv & Hvdrv).
  destruct (createDomainInterfaces_body_arm ext _ _ _ _ _ _ _ _ _ H Hsriov)
    as (d' & Heq & Haddr & _).
  apply app_inv_head in Heq. injection Heq as <-.
  exists d. split; [reflexivity|]. repeat split; assumption.
Qed.

Lemma createDomainInterfaces_records_common_witness :
  let spec := SampleHost.vmi [SampleHost.podNetwork "default";
                              SampleHost.multusNetwork "sr" false;
                              SampleHost.multusNetwork "fast" false]
                             [SampleHost.bridge "default" ""; SampleHost.sriov "sr";
                              SampleHost.vhostuser "fast" ""] (Some true) 64 in
  let ctx := SampleHost.context
               [SampleHost.vhostEntry "ns/net2" "/var/run/vhu/vhu1.sock" "server"] in
  let run := createDomainInterfaces (SampleHost.collaborators 8) spec ctx false
                                    SampleHost.world0 in
  let l := match snd run with Done (l, _) => l | Panic _ => [] end in
  length l = 2%nat
  /\ Forall2 (commonFields (SampleHost.collaborators 8) spec ctx)
             [SampleHost.bridge "default" ""; SampleHost.vhostuser "fast" ""] l
  /\ (api.Interface_Driver <$> l) = [Some (vhostDriver 8); Some vhostuserDriver].
Proof.
  intros spec ctx run l.
  split; [vm_compute; reflexivity|].
  split; [|vm_compute; reflexivity].
  apply (createDomainInterfaces_records_common
           (SampleHost.collaborators 8) spec ctx false SampleHost.world0 (fst run) l).
  vm_compute; reflexivity.
Defined.

(** X23.  On success each returned record has what the arm its
    interface reaches writes: type ethernet with the boot order, or the
    disabled ROM when there is none, in the bridge/masquerade and
    macvtap arms; the whole record of type user in the slirp arm; type
    vhostuser without boot order or ROM entry in the vhost-user arm; the
    empty type when no binding is set.  Outside the vhost-user arm no
    record has a source path or a target. *)
Theorem createDomainInterfaces_records_by_arm {CPU : Type} (ext : Collaborators CPU)
        (vmi : v1.VirtualMachineInstance CPU) (c : ConverterContext)
        (virtioNetProhibited : bool) (w w' : World) (l : list api.Interface) :
  createDomainInterfaces ext vmi c virtioNetProhibited w = (w', Done (l, None)) ->
  Forall2 (armFields ext c)
          (filter (fun iface => v1.Interface_SRIOV iface = None)
                  (v1.Spec_Domain_Devices_Interfaces vmi)) l.
Proof.
  apply createDomainInterfaces_records.
  intros acc iface w0 w1 acc' H Hsriov.
  destruct (createDomainInterfaces_body_arm ext _ _ _ _ _ _ _ _ _ H Hsriov)
    as (d & -> & _ & Harm).
  eauto.
Qed.

Lemma createDomainInterfaces_records_by_arm_witness :
  let spec := SampleHost.vmi [SampleHost.podNetwork "default";
                              SampleHost.multusNetwork "sr" false;
                              SampleHost.multusNetwork "fast" false]
                             [SampleHost.slirp "default" "virtio" []; SampleHost.sriov "sr";
                              SampleHost.macvtap "fast" (Some 2%N)] None 1 in
  let run := createDomainInterfaces SampleHost.host spec SampleHost.noContext false
                                    SampleHost.world0 in
  let l := match snd run with Done (l, _) => l | Panic _ => [] end in
  Forall2 (armFields SampleHost.host SampleHost.noContext)
          [SampleHost.slirp "default" "virtio" []; SampleHost.macvtap "fast" (Some 2%N)] l
  /\ (api.Interface_Type <$> l) = ["user"; "ethernet"]
  /\ (api.Interface_BootOrder <$> l) = [None; Some {| api.BootOrder_Order := 2 |}].
Proof.
  intros spec run l.
  split; [|split; vm_compute; reflexivity].
  apply (createDomainInterfaces_records_by_arm
           SampleHost.host spec SampleHost.noContext false SampleHost.world0 (fst run) l).
  vm_compute; reflexivity.
Defined.

(** X24.  On success the record of every vhost-user-bound interface
    comes from a name resolution that returned no error and a device-
    info lookup that found the entry: its source is the unix socket of
    that entry, with its mode and with the socket directory put before a
    path that has no directory part, and its target device is the last
    segment of the socket path.  No successful conversion has gone
    through the branch that logs a failed resolution. *)
Theorem createDomainInterfaces_vhostuser_records {CPU : Type} (ext : Collaborators CPU)
        (vmi : v1.VirtualMachineInstance CPU) (c : ConverterContext)
        (virtioNetProhibited : bool) (w w' : World) (l : list api.Interface) :
  createDomainInterfaces ext vmi c virtioNetProhibited w = (w', Done (l, None)) ->
  Forall2 (vhostuserFields ext vmi c)
          (filter (fun iface => v1.Interface_SRIOV iface = None)
                  (v1.Spec_Domain_Devices_Interfaces vmi)) l.
Proof.
  intros H. apply (createDomainInterfaces_records ext vmi c virtioNetProhibited w w' l);
    [|exact H].
  intros acc iface w0 w1 acc'. apply createDomainInterfaces_body_vhostuser.
  unfold createDomainInterfaces in H.
  now destruct (validateNetworksTypes (v1.Spec_Networks vmi)).
Qed.

Lemma createDomainInterfaces_vhostuser_records_witness :
  let spec := SampleHost.vmi [SampleHost.podNetwork "default";
                              SampleHost.multusNetwork "fast" false]
                             [SampleHost.bridge "default" "e1000";
                              SampleHost.vhostuser "fast" ""] None 1 in
  let ctx := SampleHost.context
               [SampleHost.vhostEntry "ns/net1" "vhu1.sock" "client"] in
  let run := createDomainInterfaces SampleHost.host spec ctx false SampleHost.world0 in
  let l := match snd run with Done (l, _) => l | Panic _ => [] end in
  Forall2 (vhostuserFields SampleHost.host spec ctx)
          [SampleHost.bridge "default" "e1000"; SampleHost.vhostuser "fast" ""] l
  /\ (api.Interface_Target <$> l)
     = [None; Some {| api.InterfaceTarget_Device := "vhu1.sock" |}]
  /\ logs (fst run) = [].
Proof.
  intros spec ctx run l.
  split; [|split; vm_compute; reflexivity].
  apply (createDomainInterfaces_vhostuser_records
           SampleHost.host spec ctx false SampleHost.world0 (fst run) l).
  vm_compute; reflexivity.
Defined.
